(** * TalkPrep AI (conftalk): a shallow embedding and its verified properties

    The development follows the TypeScript sources module by module:
    - [JS]: the fragment of the JavaScript runtime the code relies on
      (IEEE-754 numbers, [Math.round], [Number::toString], string helpers);
    - the records of [types/index.ts], one module per interface;
    - [templates/index.ts]: the five talk templates and the outline builder;
    - [modules/outline.ts], [modules/rehearsal.ts], [modules/slides.ts];
    - [JSON]: a printer and a parser for JSON texts;
    - [TalkPrepSkill]: the workflow coordinator of [index.ts].

    Definitions come first, theorems afterwards. *)

#[local] Set Warnings "-inexact-float,-register-all".

From Stdlib Require Import ZArith NArith Floats List String Ascii Bool Lia.
From Stdlib Require Import Decimal DecimalString.
From Stdlib Require DecimalFacts DecimalNat DecimalN DecimalPos.
Import ListNotations.

Local Open Scope bool_scope.
Local Open Scope string_scope.
Local Open Scope list_scope.

(* ================================================================== *)
(** * The JavaScript fragment                                          *)
(* ================================================================== *)

Module JS.

(** JavaScript numbers are IEEE-754 binary64 values; Rocq's primitive
    floats are the same values with the same (round-to-nearest-even)
    arithmetic. *)
Definition number : Set := float.

(** The number denoted by an integer literal of the source. *)
Definition number_of_Z (z : Z) : number :=
  SF2Prim (binary_normalize prec emax z 0 false).

Definition number_of_nat (n : nat) : number := number_of_Z (Z.of_nat n).

(** [Math.round]: the integer closest to [x], ties towards +infinity;
    NaN, infinities and zeros are returned unchanged and a result of
    zero keeps the sign of a negative argument. *)
Definition Math_round (x : number) : number :=
  match Prim2SF x with
  | S754_finite s m e =>
      if (0 <=? e)%Z then x
      else
        let d := (2 ^ (- e))%Z in
        let v := if s then (- Zpos m)%Z else Zpos m in
        let q := ((2 * v + d) / (2 * d))%Z in
        if (q =? 0)%Z && s then PrimFloat.neg_zero else number_of_Z q
  | _ => x
  end.

Definition Math_abs (x : number) : number := PrimFloat.abs x.

(** The double-quote character, and strings built around it. *)
Definition dq : string := String (ascii_of_nat 34) EmptyString.
Definition nl : string := String (ascii_of_nat 10) EmptyString.

(** Decimal rendering of an array index or a counter. *)
Definition nat_to_string (n : nat) : string :=
  NilEmpty.string_of_uint (Nat.to_uint n).

(** [Array.prototype.map] with the element index. *)
Fixpoint mapi_from {A B : Type} (f : A -> nat -> B) (i : nat) (l : list A) : list B :=
  match l with
  | [] => []
  | x :: l' => f x i :: mapi_from f (S i) l'
  end.

Definition mapi {A B : Type} (f : A -> nat -> B) (l : list A) : list B :=
  mapi_from f 0 l.

(** [Array.prototype.join]. *)
Fixpoint join (sep : string) (l : list string) : string :=
  match l with
  | [] => ""
  | [x] => x
  | x :: l' => x ++ sep ++ join sep l'
  end.

(** Truthiness of an optional string: defined and non-empty. *)
Definition truthy (s : option string) : bool :=
  match s with
  | Some (String _ _) => true
  | _ => false
  end.

(** [a || b] on optional strings. *)
Definition or_else (a : option string) (b : string) : string :=
  match a with
  | Some (String c s) => String c s
  | _ => b
  end.

(** [String.prototype.toLowerCase], on the ASCII letters. *)
Definition lower_ascii (c : ascii) : ascii :=
  let n := nat_of_ascii c in
  if (65 <=? n)%nat && (n <=? 90)%nat then ascii_of_nat (n + 32) else c.

Fixpoint toLowerCase (s : string) : string :=
  match s with
  | EmptyString => EmptyString
  | String c s' => String (lower_ascii c) (toLowerCase s')
  end.

(** [String.prototype.length]. A string of the program is kept as the
    UTF-8 encoding of its text; its length is the number of UTF-16 code
    units: none for a continuation byte, one for a byte that starts a
    code point of the basic plane, two for one that starts a four-byte
    sequence (a surrogate pair). *)
Fixpoint String_length (s : string) : nat :=
  match s with
  | EmptyString => 0
  | String c s' =>
      let n := nat_of_ascii c in
      ((if (n <? 128) || (192 <=? n) then (if 240 <=? n then 2 else 1) else 0)
       + String_length s')%nat
  end.

(** [String.prototype.includes]. *)
Fixpoint includes (s sub : string) : bool :=
  prefix sub s ||
  match s with
  | EmptyString => false
  | String _ s' => includes s' sub
  end.

(** [Array.prototype.some]. *)
Definition some {A : Type} (f : A -> bool) (l : list A) : bool := existsb f l.

(** ** Decimal literals and [Number::toString]

    A number literal of a JSON text or of [Number::toString]: an optional
    sign, the digits of the integer part, the digits after the decimal
    point ([Nil] when there is none) and an optional decimal exponent. *)
Record literal := {
  lit_neg : bool;
  lit_int : uint;
  lit_frac : uint;
  lit_exp : option Z
}.

Definition literal_of_nat (n : nat) : literal :=
  {| lit_neg := false; lit_int := Nat.to_uint n; lit_frac := Nil; lit_exp := None |}.

Definition Z_to_uint (v : Z) : uint := N.to_uint (Z.to_N v).

Definition print_fraction (f : uint) : string :=
  match f with
  | Nil => ""
  | _ => "." ++ NilEmpty.string_of_uint f
  end.

Definition print_exponent (e : option Z) : string :=
  match e with
  | None => ""
  | Some z =>
      "e" ++ (if (z <? 0)%Z then "-" else "+")
      ++ NilEmpty.string_of_uint (Z_to_uint (Z.abs z))
  end.

Definition print_literal (l : literal) : string :=
  (if lit_neg l then "-" else "")
  ++ NilEmpty.string_of_uint (lit_int l)
  ++ print_fraction (lit_frac l)
  ++ print_exponent (lit_exp l).

Definition digit_cons (d : Z) (u : uint) : uint :=
  match d with
  | 0 => D0 u | 1 => D1 u | 2 => D2 u | 3 => D3 u | 4 => D4 u
  | 5 => D5 u | 6 => D6 u | 7 => D7 u | 8 => D8 u | _ => D9 u
  end%Z.

(** The [w] low-order decimal digits of [v], most significant first. *)
Fixpoint digits_fixed (w : nat) (v : Z) (acc : uint) : uint :=
  match w with
  | O => acc
  | S w' => digits_fixed w' (v / 10)%Z (digit_cons (v mod 10)%Z acc)
  end.

Definition ndigits (v : Z) : Z := Z.of_nat (nb_digits (Z_to_uint v)).

(** The decimal exponent [n] of the positive rational [xn / xd]:
    [10^(n-1) <= xn / xd < 10^n]. *)
Fixpoint first_exponent (fuel : nat) (xn xd : Z) (j : Z) : Z :=
  match fuel with
  | O => (- j)%Z
  | S f =>
      if (xd <=? xn * 10 ^ (j + 1))%Z then (- j)%Z
      else first_exponent f xn xd (j + 1)%Z
  end.

Definition decimal_exponent (xn xd : Z) : Z :=
  if (xd <=? xn)%Z then ndigits (xn / xd)%Z else first_exponent 400 xn xd 0%Z.

Fixpoint strip_zeros (fuel : nat) (s p : Z) : Z * Z :=
  match fuel with
  | O => (s, p)
  | S f =>
      if ((s mod 10 =? 0) && (0 <? s))%Z then strip_zeros f (s / 10)%Z (p + 1)%Z
      else (s, p)
  end.

(** The [k]-digit integers [s] with [s * 10^(n-k)] inside the rounding
    interval [lo_n/xd, hi_n/xd] of [xn/xd]; the one closest to the number
    wins, the even one on a tie. *)
Definition candidate (xn xd lo_n hi_n : Z) (closed : bool) (n k : Z) : option Z :=
  (let p := n - k in
   let up := 10 ^ Z.max (- p) 0 in
   let den := xd * 10 ^ Z.max p 0 in
   let x := xn * up in
   let lo := lo_n * up in
   let hi := hi_n * up in
   let inside (s : Z) :=
     let a := s * den in
     if closed then (lo <=? a) && (a <=? hi) else (lo <? a) && (a <? hi) in
   let s1 := x / den in
   let s2 := s1 + 1 in
   match inside s1, inside s2 with
   | true, false => Some s1
   | false, true => Some s2
   | true, true =>
       let d1 := x - s1 * den in
       let d2 := s2 * den - x in
       if d1 <? d2 then Some s1
       else if d2 <? d1 then Some s2
       else if Z.even s1 then Some s1 else Some s2
   | false, false => None
   end)%Z.

Fixpoint search (xn xd lo_n hi_n : Z) (closed : bool) (n : Z) (fuel : nat) (k : Z)
  : Z * Z :=
  match fuel with
  | O => ((xn * 10 ^ Z.max (- (n - k)) 0) / (xd * 10 ^ Z.max (n - k) 0), n - k)%Z
  | S f =>
      match candidate xn xd lo_n hi_n closed n k with
      | Some s => (s, (n - k)%Z)
      | None => search xn xd lo_n hi_n closed n f (k + 1)%Z
      end
  end.

(** The shortest decimal [s * 10^p] that reads back as the double
    [m * 2^e] (radix-10 [Number::toString], step 5). *)
Definition shortest_digits (m : positive) (e : Z) : Z * Z :=
  (let boundary := (Zpos m =? 2 ^ 52) && (-1074 <? e) in
   let E := if boundary then e - 2 else e - 1 in
   let c := if boundary then 4 else 2 in
   let up := if boundary then 2 else 1 in
   let sc := 2 ^ Z.max E 0 in
   let xn := c * Zpos m * sc in
   let xd := 2 ^ Z.max (- E) 0 in
   let lo_n := (c * Zpos m - 1) * sc in
   let hi_n := (c * Zpos m + up) * sc in
   let n := decimal_exponent xn xd in
   let '(s, p) := search xn xd lo_n hi_n (Z.even (Zpos m)) n 17 1 in
   strip_zeros 25 s p)%Z.

(** Layout of the digits (radix-10 [Number::toString], steps 6 to 10). *)
Definition format_digits (neg : bool) (s p : Z) : literal :=
  (let k := ndigits s in
   let n := p + k in
   if (k <=? n) && (n <=? 21) then
     {| lit_neg := neg; lit_int := Z_to_uint (s * 10 ^ (n - k));
        lit_frac := Nil; lit_exp := None |}
   else if (0 <? n) && (n <=? 21) then
     {| lit_neg := neg; lit_int := Z_to_uint (s / 10 ^ (k - n));
        lit_frac := digits_fixed (Z.to_nat (k - n)) s Nil; lit_exp := None |}
   else if (-6 <? n) && (n <=? 0) then
     {| lit_neg := neg; lit_int := D0 Nil;
        lit_frac := digits_fixed (Z.to_nat (- n + k)) s Nil; lit_exp := None |}
   else if k =? 1 then
     {| lit_neg := neg; lit_int := Z_to_uint s; lit_frac := Nil;
        lit_exp := Some (n - 1) |}
   else
     {| lit_neg := neg; lit_int := Z_to_uint (s / 10 ^ (k - 1));
        lit_frac := digits_fixed (Z.to_nat (k - 1)) s Nil;
        lit_exp := Some (n - 1) |})%Z.

(** The literal of a finite number; [None] for NaN and the infinities. *)
Definition Number_toLiteral (x : number) : option literal :=
  match Prim2SF x with
  | S754_zero _ =>
      Some {| lit_neg := false; lit_int := D0 Nil; lit_frac := Nil; lit_exp := None |}
  | S754_finite neg m e =>
      let '(s, p) := shortest_digits m e in Some (format_digits neg s p)
  | _ => None
  end.

(** [Number::toString], as used by template literals. *)
Definition Number_toString (x : number) : string :=
  match Number_toLiteral x with
  | Some l => print_literal l
  | None =>
      match Prim2SF x with
      | S754_infinity true => "-Infinity"
      | S754_infinity false => "Infinity"
      | _ => "NaN"
      end
  end.

(** Decimal rendering of an integer time value. *)
Definition Z_to_string (z : Z) : string :=
  (if (z <? 0)%Z then "-" else "") ++ NilEmpty.string_of_uint (Z_to_uint (Z.abs z)).


End JS.

(* ================================================================== *)
(** * Core type definitions ([types/index.ts])                          *)
(* ================================================================== *)

Module AudienceType.
Inductive t := technical | academic | business | general.
End AudienceType.

Module ExpertiseLevel.
Inductive t := beginner | intermediate | expert.
End ExpertiseLevel.

Module TalkType.
Inductive t :=
  keynote | technical_deep_dive | workshop | lightning_talk | panel_discussion.
End TalkType.

Module ToneType.
Inductive t := formal | conversational | inspirational | educational.
End ToneType.

Module ExportFormat.
Inductive t := markdown | json | html | pdf.
End ExportFormat.

Module TalkConfig.
Record t := {
  topic : string;
  audience : AudienceType.t;
  duration : JS.number;
  expertiseLevel : ExpertiseLevel.t;
  talkType : TalkType.t;
  tone : ToneType.t;
  speakerName : option string;
  conferenceContext : option string;
  additionalNotes : option string
}.
End TalkConfig.

Module ResearchSource.
Inductive relevance_t := high | medium | low.
Record t := {
  title : string;
  url : option string;
  author : option string;
  date : option string;
  relevance : relevance_t;
  summary : string;
  keyPoints : list string
}.
End ResearchSource.

Module ResearchResult.
Record t := {
  refinedTopic : string;
  topicSuggestions : list string;
  keyConcepts : list string;
  sources : list ResearchSource.t;
  potentialBiases : list string;
  audienceConsiderations : list string
}.
End ResearchResult.

Module OutlineSubsection.
Record t := {
  id : string;
  title : string;
  keyPoints : list string;
  suggestedVisuals : option (list string)
}.
End OutlineSubsection.

(** [order] is the array index the outline builder writes; [duration] is
    a number of minutes. *)
Module OutlineSection.
Inductive type_t := intro | main | conclusion | qa | transition.
Record t := {
  id : string;
  title : string;
  duration : JS.number;
  order : nat;
  type : type_t;
  keyPoints : list string;
  subsections : option (list OutlineSubsection.t);
  notes : option string
}.

Definition type_eqb (a b : type_t) : bool :=
  match a, b with
  | intro, intro | main, main | conclusion, conclusion
  | qa, qa | transition, transition => true
  | _, _ => false
  end.
End OutlineSection.

Module TalkOutline.
Record t := {
  title : string;
  subtitle : option string;
  totalDuration : JS.number;
  sections : list OutlineSection.t;
  learningObjectives : list string;
  callToAction : option string
}.
End TalkOutline.

Module SpeakerNote.
Record t := {
  sectionId : string;
  content : string;
  timing : string;
  emphasis : option (list string);
  pausePoints : option (list string)
}.
End SpeakerNote.

Module CodeExample.
Record t := {
  language : string;
  code : string;
  explanation : string;
  highlightLines : option (list JS.number)
}.
End CodeExample.

Module ScriptSection.
Record transitions_t := { in_ : option string; out : option string }.
Record t := {
  sectionId : string;
  title : string;
  content : string;
  transitions : transitions_t;
  codeExamples : option (list CodeExample.t);
  anecdotes : option (list string)
}.
End ScriptSection.

Module Script.
Record t := {
  title : string;
  introduction : string;
  sections : list ScriptSection.t;
  conclusion : string;
  speakerNotes : list SpeakerNote.t
}.
End Script.

Module SlideLayout.
Inductive t :=
| title | section_header | content | two_column | image_full | code
| quote | bullet_points | comparison | timeline | qa.

(** The string-literal value of each layout. *)
Definition to_string (l : t) : string :=
  match l with
  | title => "title"
  | section_header => "section_header"
  | content => "content"
  | two_column => "two_column"
  | image_full => "image_full"
  | code => "code"
  | quote => "quote"
  | bullet_points => "bullet_points"
  | comparison => "comparison"
  | timeline => "timeline"
  | qa => "qa"
  end.

Definition is_title (l : t) : bool :=
  match l with title => true | _ => false end.

Definition is_section_header (l : t) : bool :=
  match l with section_header => true | _ => false end.
End SlideLayout.

Module SlideQuote.
Record t := { text : string; attribution : option string }.
End SlideQuote.

(** [order] and [duration] (seconds) are numbers. *)
Module Slide.
Record t := {
  id : string;
  order : JS.number;
  layout : SlideLayout.t;
  title : option string;
  subtitle : option string;
  content : option string;
  bulletPoints : option (list string);
  imagePrompt : option string;
  code : option CodeExample.t;
  quote : option SlideQuote.t;
  speakerNotes : string;
  duration : JS.number
}.
End Slide.

Module SlideTheme.
Inductive type_t := tech | business | academic | minimal | creative.
Record t := {
  name : string;
  type : type_t;
  primaryColor : option string;
  secondaryColor : option string;
  fontFamily : option string
}.

Definition type_to_string (k : type_t) : string :=
  match k with
  | tech => "tech"
  | business => "business"
  | academic => "academic"
  | minimal => "minimal"
  | creative => "creative"
  end.
End SlideTheme.

Module SlideMetadata.
Record t := {
  totalSlides : JS.number;
  estimatedDuration : JS.number;
  generatedAt : string;
  version : string
}.
End SlideMetadata.

Module SlideDeck.
Record t := {
  title : string;
  author : option string;
  date : option string;
  theme : SlideTheme.t;
  slides : list Slide.t;
  metadata : SlideMetadata.t
}.
End SlideDeck.

Module QAPair.
Inductive category_t := technical | clarification | challenge | expansion | practical.
Inductive difficulty_t := easy | medium | hard.
Record t := {
  id : string;
  question : string;
  category : category_t;
  difficulty : difficulty_t;
  suggestedAnswer : string;
  followUpQuestions : option (list string);
  pitfalls : option (list string)
}.
End QAPair.

(** [preparedResponses] is a [Map<string, string>]; it is kept as an
    association list in insertion order. *)
Module QAPreparation.
Record t := {
  anticipatedQuestions : list QAPair.t;
  challengingTopics : list string;
  preparedResponses : list (string * string);
  redirectStrategies : list string
}.
End QAPreparation.

Module RehearsalSectionTiming.
Inductive status_t := not_started | in_progress | completed.
Record t := {
  sectionId : string;
  targetDuration : JS.number;
  actualDuration : option JS.number;
  status : status_t
}.
End RehearsalSectionTiming.

Module SectionFeedback.
Inductive timingStatus_t := on_track | too_fast | too_slow.
Record t := {
  sectionId : string;
  timingStatus : timingStatus_t;
  suggestions : list string
}.
End SectionFeedback.

Module RehearsalFeedback.
Record overallTiming_t := {
  target : JS.number;
  actual : JS.number;
  variance : JS.number
}.
Record t := {
  overallTiming : overallTiming_t;
  sectionFeedback : list SectionFeedback.t;
  suggestions : list string;
  strengthAreas : list string;
  improvementAreas : list string
}.
End RehearsalFeedback.

(** A [Date] is kept as its time value (milliseconds since the epoch). *)
Module RehearsalSession.
Record t := {
  id : string;
  startTime : Z;
  endTime : option Z;
  sections : list RehearsalSectionTiming.t;
  feedback : RehearsalFeedback.t
}.
End RehearsalSession.

Module WorkflowStep.
Inductive t := ideation | outline | content | export | rehearsal.

Definition eqb (a b : t) : bool :=
  match a, b with
  | ideation, ideation | outline, outline | content, content
  | export, export | rehearsal, rehearsal => true
  | _, _ => false
  end.
End WorkflowStep.

Module WorkflowState.
Record t := {
  currentStep : WorkflowStep.t;
  completedSteps : list WorkflowStep.t;
  config : TalkConfig.t;
  research : option ResearchResult.t;
  outline : option TalkOutline.t;
  script : option Script.t;
  slides : option SlideDeck.t;
  qaPrep : option QAPreparation.t;
  rehearsals : list RehearsalSession.t
}.
End WorkflowState.

Module ExportOptions.
Record t := {
  format : ExportFormat.t;
  includeNotes : bool;
  includeTimings : bool;
  theme : option SlideTheme.t
}.
End ExportOptions.

Module ExportResult.
Record t := {
  format : ExportFormat.t;
  content : string;
  filename : string;
  mimeType : string
}.
End ExportResult.

(* ================================================================== *)
(** * Talk templates ([templates/index.ts])                             *)
(* ================================================================== *)

Module TemplateSection.
Record t := {
  title : string;
  type : OutlineSection.type_t;
  durationPercent : JS.number;
  keyPointPrompts : list string;
  notes : string
}.
End TemplateSection.

Module TalkTemplate.
Record t := {
  name : string;
  description : string;
  defaultDuration : JS.number;
  structure : list TemplateSection.t;
  tips : list string;
  exampleHooks : list string;
  recommendedTheme : SlideTheme.t
}.
End TalkTemplate.

Import JS.

Definition keynoteTemplate : TalkTemplate.t :=
  {| TalkTemplate.name := "Keynote";
     TalkTemplate.description := "Inspirational, visionary talk that sets the tone for an event";
     TalkTemplate.defaultDuration := 45%float;
     TalkTemplate.structure :=
       [{| TemplateSection.title := "Opening Hook";
            TemplateSection.type := OutlineSection.intro;
            TemplateSection.durationPercent := 10%float;
            TemplateSection.keyPointPrompts :=
              ["Start with a story, question, or surprising fact";
               "Establish your credibility briefly";
               "Preview the journey you'll take them on"];
            TemplateSection.notes := "Make it personal. Connect emotionally. Create anticipation." |};
        {| TemplateSection.title := "The Problem / Opportunity";
            TemplateSection.type := OutlineSection.main;
            TemplateSection.durationPercent := 15%float;
            TemplateSection.keyPointPrompts :=
              ["Describe the current state of the industry/world";
               "Identify the challenge or opportunity";
               "Make the audience feel the urgency"];
            TemplateSection.notes := "Paint a vivid picture. Use data to support your claims." |};
        {| TemplateSection.title := "The Vision";
            TemplateSection.type := OutlineSection.main;
            TemplateSection.durationPercent := 25%float;
            TemplateSection.keyPointPrompts :=
              ["Describe what's possible";
               "Share examples of early success";
               "Connect vision to audience's aspirations"];
            TemplateSection.notes := "Be bold but credible. Inspire action." |};
        {| TemplateSection.title := "The Path Forward";
            TemplateSection.type := OutlineSection.main;
            TemplateSection.durationPercent := 20%float;
            TemplateSection.keyPointPrompts :=
              ["Outline concrete steps";
               "Address potential obstacles";
               "Share resources and support available"];
            TemplateSection.notes := "Make it actionable. Don't just inspire - enable." |};
        {| TemplateSection.title := "Call to Action";
            TemplateSection.type := OutlineSection.conclusion;
            TemplateSection.durationPercent := 10%float;
            TemplateSection.keyPointPrompts :=
              ["Summarize the key message";
               "Issue a clear call to action";
               "End with a memorable statement"];
            TemplateSection.notes := "Circle back to your opening. Leave them energized." |};
        {| TemplateSection.title := "Q&A";
            TemplateSection.type := OutlineSection.qa;
            TemplateSection.durationPercent := 20%float;
            TemplateSection.keyPointPrompts :=
              ["Prepare for skeptical questions";
               "Have examples ready";
               "Bridge answers to key messages"];
            TemplateSection.notes := "Stay composed. Every question is an opportunity." |}];
     TalkTemplate.tips :=
       ["Practice your opening until it's flawless";
        "Use personal stories to make abstract ideas concrete";
        "Vary your pace and volume for emphasis";
        "Make eye contact across different sections of the room";
        "End on time - respect your audience"];
     TalkTemplate.exampleHooks :=
       ["Start with a bold prediction about the future";
        "Share a personal failure that led to an insight";
        "Ask a provocative question that challenges assumptions";
        "Present a striking statistic that reframes the conversation"];
     TalkTemplate.recommendedTheme :=
       {| SlideTheme.name := "Keynote Bold";
          SlideTheme.type := SlideTheme.creative;
          SlideTheme.primaryColor := Some "#0f172a";
          SlideTheme.secondaryColor := Some "#3b82f6";
          SlideTheme.fontFamily := Some "Inter, sans-serif" |} |}.

Definition technicalDeepDiveTemplate : TalkTemplate.t :=
  {| TalkTemplate.name := "Technical Deep Dive";
     TalkTemplate.description := "Detailed exploration of a technical topic for expert audiences";
     TalkTemplate.defaultDuration := 45%float;
     TalkTemplate.structure :=
       [{| TemplateSection.title := "Problem Context";
            TemplateSection.type := OutlineSection.intro;
            TemplateSection.durationPercent := 10%float;
            TemplateSection.keyPointPrompts :=
              ["Define the technical problem clearly";
               "Explain why existing solutions fall short";
               "Preview your approach"];
            TemplateSection.notes := "Establish technical context quickly. Your audience knows the basics." |};
        {| TemplateSection.title := "Background & Prior Art";
            TemplateSection.type := OutlineSection.main;
            TemplateSection.durationPercent := 15%float;
            TemplateSection.keyPointPrompts :=
              ["Review relevant prior work";
               "Explain key concepts needed";
               "Acknowledge trade-offs of existing approaches"];
            TemplateSection.notes := "Be fair to alternatives. Show you've done your homework." |};
        {| TemplateSection.title := "Solution Architecture";
            TemplateSection.type := OutlineSection.main;
            TemplateSection.durationPercent := 25%float;
            TemplateSection.keyPointPrompts :=
              ["Present your approach at a high level";
               "Explain key design decisions";
               "Discuss trade-offs you made"];
            TemplateSection.notes := ("Use diagrams. Explain the " ++ dq ++ "why" ++ dq ++ " not just the " ++ dq ++ "what" ++ dq ++ ".")%string |};
        {| TemplateSection.title := "Implementation Details";
            TemplateSection.type := OutlineSection.main;
            TemplateSection.durationPercent := 20%float;
            TemplateSection.keyPointPrompts :=
              ["Show key code or configurations";
               "Highlight interesting challenges";
               "Demonstrate with working examples"];
            TemplateSection.notes := "Don't show every line. Focus on insights." |};
        {| TemplateSection.title := "Results & Lessons";
            TemplateSection.type := OutlineSection.conclusion;
            TemplateSection.durationPercent := 10%float;
            TemplateSection.keyPointPrompts :=
              ["Share benchmarks or outcomes";
               "Discuss what you learned";
               "Suggest next steps or future work"];
            TemplateSection.notes := "Be honest about limitations. Share real numbers." |};
        {| TemplateSection.title := "Q&A";
            TemplateSection.type := OutlineSection.qa;
            TemplateSection.durationPercent := 20%float;
            TemplateSection.keyPointPrompts :=
              ["Prepare for edge case questions";
               "Know your performance numbers";
               "Be ready to discuss alternatives"];
            TemplateSection.notes := ("It's OK to say " ++ dq ++ "I don't know, let me check." ++ dq)%string |}];
     TalkTemplate.tips :=
       ["Test all demos before the talk";
        "Have backup slides if live coding fails";
        "Explain your reasoning, not just your solution";
        ("Be prepared for " ++ dq ++ "what about X?" ++ dq ++ " questions")%string;
        "Leave code examples accessible for later"];
     TalkTemplate.exampleHooks :=
       ["Show the end result first, then explain how you got there";
        "Share a war story of a production incident";
        "Present a performance comparison that surprised you";
        "Demonstrate a common mistake and its consequences"];
     TalkTemplate.recommendedTheme :=
       {| SlideTheme.name := "Tech Modern";
          SlideTheme.type := SlideTheme.tech;
          SlideTheme.primaryColor := Some "#2563eb";
          SlideTheme.secondaryColor := Some "#1e40af";
          SlideTheme.fontFamily := Some "JetBrains Mono, monospace" |} |}.

Definition workshopTemplate : TalkTemplate.t :=
  {| TalkTemplate.name := "Workshop";
     TalkTemplate.description := "Hands-on, interactive learning session";
     TalkTemplate.defaultDuration := 90%float;
     TalkTemplate.structure :=
       [{| TemplateSection.title := "Introduction & Setup";
            TemplateSection.type := OutlineSection.intro;
            TemplateSection.durationPercent := 10%float;
            TemplateSection.keyPointPrompts :=
              ["Welcome and introductions";
               "Learning objectives";
               "Verify everyone's setup works"];
            TemplateSection.notes := "Don't skip setup verification - it saves time later." |};
        {| TemplateSection.title := "Foundation Concepts";
            TemplateSection.type := OutlineSection.main;
            TemplateSection.durationPercent := 15%float;
            TemplateSection.keyPointPrompts :=
              ["Core concepts needed for exercises";
               "Quick demonstration";
               "Check for understanding"];
            TemplateSection.notes := "Keep theory minimal. Get to hands-on quickly." |};
        {| TemplateSection.title := "Guided Exercise 1";
            TemplateSection.type := OutlineSection.main;
            TemplateSection.durationPercent := 20%float;
            TemplateSection.keyPointPrompts :=
              ["Step-by-step walkthrough";
               "Common pitfalls to avoid";
               "Check-in point"];
            TemplateSection.notes := "Walk around the room. Help those who are stuck." |};
        {| TemplateSection.title := "Guided Exercise 2";
            TemplateSection.type := OutlineSection.main;
            TemplateSection.durationPercent := 20%float;
            TemplateSection.keyPointPrompts :=
              ["Build on previous exercise";
               "Introduce new concept";
               "Allow exploration time"];
            TemplateSection.notes := "Have extension tasks for fast finishers." |};
        {| TemplateSection.title := "Independent Practice";
            TemplateSection.type := OutlineSection.main;
            TemplateSection.durationPercent := 15%float;
            TemplateSection.keyPointPrompts :=
              ["Challenge exercise";
               "Minimal guidance";
               "Encourage peer help"];
            TemplateSection.notes := "This is where real learning happens. Be available." |};
        {| TemplateSection.title := "Wrap-up & Next Steps";
            TemplateSection.type := OutlineSection.conclusion;
            TemplateSection.durationPercent := 10%float;
            TemplateSection.keyPointPrompts :=
              ["Summarize what was learned";
               "Provide resources for continued learning";
               "Collect feedback"];
            TemplateSection.notes := "Leave them with a clear path forward." |};
        {| TemplateSection.title := "Q&A";
            TemplateSection.type := OutlineSection.qa;
            TemplateSection.durationPercent := 10%float;
            TemplateSection.keyPointPrompts :=
              ["Address remaining questions";
               "Troubleshoot lingering issues";
               "Share contact info for follow-up"];
            TemplateSection.notes := "Be available after for individual questions." |}];
     TalkTemplate.tips :=
       ["Test your setup instructions on a fresh machine";
        "Prepare for the 3 most common errors";
        "Have a backup plan for WiFi issues";
        "Bring helpers if possible";
        "Share materials in advance"];
     TalkTemplate.exampleHooks :=
       ["Show what they'll be able to build by the end";
        "Share a quick win they can achieve in 5 minutes";
        "Ask about their experience level and adjust";
        ("Start with a " ++ dq ++ "why" ++ dq ++ " story of someone who benefited")%string];
     TalkTemplate.recommendedTheme :=
       {| SlideTheme.name := "Workshop Clear";
          SlideTheme.type := SlideTheme.minimal;
          SlideTheme.primaryColor := Some "#059669";
          SlideTheme.secondaryColor := Some "#047857";
          SlideTheme.fontFamily := Some "system-ui, sans-serif" |} |}.

Definition lightningTalkTemplate : TalkTemplate.t :=
  {| TalkTemplate.name := "Lightning Talk";
     TalkTemplate.description := "Short, focused presentation delivering one key insight";
     TalkTemplate.defaultDuration := 5%float;
     TalkTemplate.structure :=
       [{| TemplateSection.title := "Hook";
            TemplateSection.type := OutlineSection.intro;
            TemplateSection.durationPercent := 20%float;
            TemplateSection.keyPointPrompts :=
              ["Grab attention immediately";
               "State the one thing you're going to teach"];
            TemplateSection.notes := "No time for pleasantries. Start strong." |};
        {| TemplateSection.title := "The Insight";
            TemplateSection.type := OutlineSection.main;
            TemplateSection.durationPercent := 50%float;
            TemplateSection.keyPointPrompts :=
              ["Explain your key point clearly";
               "Give one concrete example";
               "Make it memorable"];
            TemplateSection.notes := "One point only. Go deep, not wide." |};
        {| TemplateSection.title := "Takeaway";
            TemplateSection.type := OutlineSection.conclusion;
            TemplateSection.durationPercent := 30%float;
            TemplateSection.keyPointPrompts :=
              ["Reinforce the key message";
               "Give a clear call to action";
               "End with impact"];
            TemplateSection.notes := "Leave them wanting more. Point to resources." |}];
     TalkTemplate.tips :=
       ["Practice to the second - you'll be cut off";
        "One slide per minute maximum";
        ("No " ++ dq ++ "one more thing" ++ dq ++ " - stick to your point")%string;
        "End early rather than rushing the ending";
        "Have a memorable last line prepared"];
     TalkTemplate.exampleHooks :=
       ["Make a bold claim you'll prove in 5 minutes";
        "Show a surprising demo result";
        "Ask a question the audience can't answer";
        "Share a number that will shock them"];
     TalkTemplate.recommendedTheme :=
       {| SlideTheme.name := "Lightning Fast";
          SlideTheme.type := SlideTheme.creative;
          SlideTheme.primaryColor := Some "#dc2626";
          SlideTheme.secondaryColor := Some "#b91c1c";
          SlideTheme.fontFamily := Some "Poppins, sans-serif" |} |}.

Definition panelDiscussionTemplate : TalkTemplate.t :=
  {| TalkTemplate.name := "Panel Discussion";
     TalkTemplate.description := "Moderated discussion with multiple speakers";
     TalkTemplate.defaultDuration := 45%float;
     TalkTemplate.structure :=
       [{| TemplateSection.title := "Introductions";
            TemplateSection.type := OutlineSection.intro;
            TemplateSection.durationPercent := 10%float;
            TemplateSection.keyPointPrompts :=
              ["Brief self-introduction";
               "Your key perspective on the topic";
               "One thing you hope to discuss"];
            TemplateSection.notes := "Be memorable but brief. Others need time too." |};
        {| TemplateSection.title := "Opening Positions";
            TemplateSection.type := OutlineSection.main;
            TemplateSection.durationPercent := 20%float;
            TemplateSection.keyPointPrompts :=
              ["State your main position clearly";
               "Provide supporting evidence";
               "Acknowledge complexity"];
            TemplateSection.notes := "Take a clear stance. It makes for better discussion." |};
        {| TemplateSection.title := "Discussion";
            TemplateSection.type := OutlineSection.main;
            TemplateSection.durationPercent := 30%float;
            TemplateSection.keyPointPrompts :=
              ["Build on others' points";
               "Offer alternative perspectives";
               "Share relevant examples"];
            TemplateSection.notes := "Listen actively. Engage, don't just wait to talk." |};
        {| TemplateSection.title := "Audience Q&A";
            TemplateSection.type := OutlineSection.qa;
            TemplateSection.durationPercent := 30%float;
            TemplateSection.keyPointPrompts :=
              ["Answer directly, then add nuance";
               "Invite other panelists to respond";
               "Connect to earlier discussion"];
            TemplateSection.notes := "Keep answers focused. Leave room for others." |};
        {| TemplateSection.title := "Closing Thoughts";
            TemplateSection.type := OutlineSection.conclusion;
            TemplateSection.durationPercent := 10%float;
            TemplateSection.keyPointPrompts :=
              ["One key takeaway";
               "What you hope the audience remembers";
               "Call to continued conversation"];
            TemplateSection.notes := "Be concise. Don't repeat what others said." |}];
     TalkTemplate.tips :=
       ["Prepare 3-4 strong talking points, not a script";
        "Listen as much as you speak";
        "Disagree respectfully when you have a different view";
        "Let others finish before jumping in";
        "Use data to support opinions"];
     TalkTemplate.exampleHooks :=
       ["Take a slightly contrarian position";
        "Reference a recent development in the field";
        "Share a personal experience that shaped your view";
        "Ask the other panelists a thoughtful question"];
     TalkTemplate.recommendedTheme :=
       {| SlideTheme.name := "Panel Professional";
          SlideTheme.type := SlideTheme.business;
          SlideTheme.primaryColor := Some "#1f2937";
          SlideTheme.secondaryColor := Some "#374151";
          SlideTheme.fontFamily := Some "Inter, sans-serif" |} |}.

(** Get template by talk type. *)
Definition getTemplate (talkType : TalkType.t) : TalkTemplate.t :=
  match talkType with
  | TalkType.keynote => keynoteTemplate
  | TalkType.technical_deep_dive => technicalDeepDiveTemplate
  | TalkType.workshop => workshopTemplate
  | TalkType.lightning_talk => lightningTalkTemplate
  | TalkType.panel_discussion => panelDiscussionTemplate
  end.

(** Generate outline from template. *)
Definition generateOutlineFromTemplate
    (template : TalkTemplate.t) (topic : string) (duration : number)
  : TalkOutline.t :=
  let sections :=
    mapi (fun section index =>
      {| OutlineSection.id := ("section-" ++ nat_to_string index)%string;
         OutlineSection.title := TemplateSection.title section;
         OutlineSection.duration :=
           Math_round ((TemplateSection.durationPercent section / 100) * duration)%float;
         OutlineSection.order := index;
         OutlineSection.type := TemplateSection.type section;
         OutlineSection.keyPoints := TemplateSection.keyPointPrompts section;
         OutlineSection.subsections := None;
         OutlineSection.notes := Some (TemplateSection.notes section) |})
      (TalkTemplate.structure template) in
  {| TalkOutline.title := topic;
     TalkOutline.subtitle := None;
     TalkOutline.totalDuration := duration;
     TalkOutline.sections := sections;
     TalkOutline.learningObjectives := [];
     TalkOutline.callToAction := None |}.

(** Get all templates. *)
Definition getAllTemplates : list TalkTemplate.t :=
  [keynoteTemplate; technicalDeepDiveTemplate; workshopTemplate;
   lightningTalkTemplate; panelDiscussionTemplate].

(** The sum a test takes over a template:
    [structure.reduce((sum, s) => sum + s.durationPercent, 0)]. *)
Definition totalPercent (template : TalkTemplate.t) : number :=
  fold_left (fun sum s => (sum + TemplateSection.durationPercent s)%float)
            (TalkTemplate.structure template) 0%float.


(* ================================================================== *)
(** * Rehearsal and Q&A ([modules/rehearsal.ts])                        *)
(* ================================================================== *)

(** [Omit<QAPair, 'id'>]. *)
Module QAPairBody.
Record t := {
  question : string;
  category : QAPair.category_t;
  difficulty : QAPair.difficulty_t;
  suggestedAnswer : string;
  followUpQuestions : option (list string);
  pitfalls : option (list string)
}.

(** [{ ...q, id }]. *)
Definition with_id (q : t) (id : string) : QAPair.t :=
  {| QAPair.id := id;
     QAPair.question := question q;
     QAPair.category := category q;
     QAPair.difficulty := difficulty q;
     QAPair.suggestedAnswer := suggestedAnswer q;
     QAPair.followUpQuestions := followUpQuestions q;
     QAPair.pitfalls := pitfalls q |}.

(** The fields of a question other than its id. *)
Definition of_pair (q : QAPair.t) : t :=
  {| question := QAPair.question q;
     category := QAPair.category q;
     difficulty := QAPair.difficulty q;
     suggestedAnswer := QAPair.suggestedAnswer q;
     followUpQuestions := QAPair.followUpQuestions q;
     pitfalls := QAPair.pitfalls q |}.
End QAPairBody.

(** Generic questions for any talk. *)
Definition genericQuestions : list QAPairBody.t :=
  [{| QAPairBody.question := "Can you elaborate on that last point?";
      QAPairBody.category := QAPair.clarification;
      QAPairBody.difficulty := QAPair.easy;
      QAPairBody.suggestedAnswer :=
        "Sure, let me break that down further. The key aspect is... [elaborate with an example]";
      QAPairBody.followUpQuestions := Some ["How does that apply in practice?"];
      QAPairBody.pitfalls := Some ["Don't repeat the same words, provide new context"] |};
   {| QAPairBody.question := "How did you get started with this topic?";
      QAPairBody.category := QAPair.expansion;
      QAPairBody.difficulty := QAPair.easy;
      QAPairBody.suggestedAnswer :=
        "Share your personal journey briefly, then connect it to why this matters for the audience.";
      QAPairBody.followUpQuestions := None;
      QAPairBody.pitfalls := Some ["Don't make it too long or self-focused"] |};
   {| QAPairBody.question := "What are the main challenges or limitations?";
      QAPairBody.category := QAPair.challenge;
      QAPairBody.difficulty := QAPair.medium;
      QAPairBody.suggestedAnswer :=
        "Acknowledge limitations honestly, then explain how to mitigate them.";
      QAPairBody.followUpQuestions := Some ["How do you work around those limitations?"];
      QAPairBody.pitfalls := Some ["Don't be defensive"; "Don't oversell or dismiss concerns"] |};
   {| QAPairBody.question := "How does this compare to [alternative approach]?";
      QAPairBody.category := QAPair.technical;
      QAPairBody.difficulty := QAPair.hard;
      QAPairBody.suggestedAnswer :=
        "Provide an honest comparison, acknowledging trade-offs. Each approach has strengths...";
      QAPairBody.followUpQuestions := None;
      QAPairBody.pitfalls := Some ["Don't bash alternatives"; "Be fair and objective"] |};
   {| QAPairBody.question := "Where can I learn more about this?";
      QAPairBody.category := QAPair.practical;
      QAPairBody.difficulty := QAPair.easy;
      QAPairBody.suggestedAnswer :=
        "Have 2-3 resources ready: documentation, books, tutorials, or communities.";
      QAPairBody.followUpQuestions := None;
      QAPairBody.pitfalls := Some ["Don't say you'll follow up if you won't"] |}].

(** Audience-specific questions. *)
Definition audienceQuestions (audience : AudienceType.t) : list QAPairBody.t :=
  match audience with
  | AudienceType.technical =>
      [{| QAPairBody.question := "What's the performance impact of this approach?";
          QAPairBody.category := QAPair.technical;
          QAPairBody.difficulty := QAPair.hard;
          QAPairBody.suggestedAnswer :=
            "Provide benchmarks if available, or explain the theoretical complexity and trade-offs.";
          QAPairBody.followUpQuestions := None;
          QAPairBody.pitfalls := Some ["Don't make up numbers"; "Admit if you haven't measured"] |};
       {| QAPairBody.question := "How does this scale in production?";
          QAPairBody.category := QAPair.technical;
          QAPairBody.difficulty := QAPair.hard;
          QAPairBody.suggestedAnswer :=
            "Share real-world experience or case studies. Discuss scaling considerations.";
          QAPairBody.followUpQuestions := Some ["What was your largest deployment?"];
          QAPairBody.pitfalls := Some ["Be honest about scale you've actually handled"] |}]
  | AudienceType.academic =>
      [{| QAPairBody.question := "What's your methodology for this research?";
          QAPairBody.category := QAPair.technical;
          QAPairBody.difficulty := QAPair.medium;
          QAPairBody.suggestedAnswer :=
            "Explain your methodology clearly, including sample size, variables, and controls.";
          QAPairBody.followUpQuestions := None;
          QAPairBody.pitfalls := Some ["Don't oversimplify if it would misrepresent your work"] |};
       {| QAPairBody.question := "What are the limitations of this study?";
          QAPairBody.category := QAPair.challenge;
          QAPairBody.difficulty := QAPair.medium;
          QAPairBody.suggestedAnswer :=
            "Acknowledge limitations proactively. Discuss how future work could address them.";
          QAPairBody.followUpQuestions := None;
          QAPairBody.pitfalls := Some ["Don't be defensive about limitations"] |}]
  | AudienceType.business =>
      [{| QAPairBody.question := "What's the ROI on implementing this?";
          QAPairBody.category := QAPair.practical;
          QAPairBody.difficulty := QAPair.medium;
          QAPairBody.suggestedAnswer :=
            "Provide concrete examples or case studies. Discuss both direct and indirect benefits.";
          QAPairBody.followUpQuestions := None;
          QAPairBody.pitfalls := Some ["Don't make up numbers"; "Acknowledge context matters"] |};
       {| QAPairBody.question := "How long until we see results?";
          QAPairBody.category := QAPair.practical;
          QAPairBody.difficulty := QAPair.medium;
          QAPairBody.suggestedAnswer :=
            "Give realistic timelines. Discuss quick wins vs long-term benefits.";
          QAPairBody.followUpQuestions := None;
          QAPairBody.pitfalls := Some ["Don't overpromise on timelines"] |}]
  | AudienceType.general =>
      [{| QAPairBody.question := "How does this affect everyday people?";
          QAPairBody.category := QAPair.expansion;
          QAPairBody.difficulty := QAPair.easy;
          QAPairBody.suggestedAnswer :=
            "Connect to relatable, everyday scenarios. Use analogies.";
          QAPairBody.followUpQuestions := None;
          QAPairBody.pitfalls := Some ["Don't be condescending"; "Use inclusive examples"] |};
       {| QAPairBody.question := "Can you give a simple example?";
          QAPairBody.category := QAPair.clarification;
          QAPairBody.difficulty := QAPair.easy;
          QAPairBody.suggestedAnswer :=
            "Have 2-3 simple analogies or examples ready for key concepts.";
          QAPairBody.followUpQuestions := None;
          QAPairBody.pitfalls := Some ["Don't oversimplify to the point of inaccuracy"] |}]
  end.

(** The loop state of [generateAnticipatedQuestions]: the [questions]
    array and the [questionId] counter. *)
Definition push_question (st : list QAPair.t * nat) (q : QAPairBody.t)
  : list QAPair.t * nat :=
  let '(questions, questionId) := st in
  (questions ++ [QAPairBody.with_id q ("q-" ++ nat_to_string questionId)%string],
   S questionId).

(** The question generated for a section ([keyPoints[0]] is [point]). *)
Definition sectionQuestion (point : string) : QAPairBody.t :=
  {| QAPairBody.question :=
       ("Can you tell us more about " ++ dq ++ point ++ dq ++ "?")%string;
     QAPairBody.category := QAPair.expansion;
     QAPairBody.difficulty := QAPair.medium;
     QAPairBody.suggestedAnswer :=
       ("Expand with additional details, examples, or context about "
        ++ point ++ ".")%string;
     QAPairBody.followUpQuestions := None;
     QAPairBody.pitfalls := Some ["Don't just repeat what you said"] |}.

Definition push_section_question (st : list QAPair.t * nat) (section : OutlineSection.t)
  : list QAPair.t * nat :=
  match OutlineSection.type section, OutlineSection.keyPoints section with
  | OutlineSection.main, point :: _ => push_question st (sectionQuestion point)
  | _, _ => st
  end.

(** Generates anticipated questions based on talk content. *)
Definition generateAnticipatedQuestions (config : TalkConfig.t) (outline : TalkOutline.t)
  : list QAPair.t :=
  let st := ([], 1%nat) in
  let st := fold_left push_question genericQuestions st in
  let st := fold_left push_question (audienceQuestions (TalkConfig.audience config)) st in
  let st := fold_left push_section_question (TalkOutline.sections outline) st in
  fst st.

Definition controversialKeywords : list string :=
  ["best"; "only"; "always"; "never"; "wrong"].

(** Identifies topics that might be challenging in Q&A. *)
Definition identifyChallengingTopics (outline : TalkOutline.t) : list string :=
  flat_map
    (fun section =>
       (if (4 <? List.length (OutlineSection.keyPoints section))%nat
        then [(OutlineSection.title section ++ " - complex with many sub-points")%string]
        else [])
       ++ flat_map
            (fun point =>
               if some (fun kw => includes (toLowerCase point) kw) controversialKeywords
               then [(dq ++ point ++ dq ++ " - absolute claims may be challenged")%string]
               else [])
            (OutlineSection.keyPoints section))
    (TalkOutline.sections outline).

(** Generates redirect strategies for difficult questions. *)
Definition generateRedirectStrategies : list string :=
  [("Bridge to your key message: " ++ dq ++ "That's interesting, and what's even more relevant is..." ++ dq)%string;
   ("Acknowledge and defer: " ++ dq ++ "Great question. Let me address that after we finish, as it deserves full attention." ++ dq)%string;
   ("Turn to the audience: " ++ dq ++ "That's a great point. Has anyone else encountered this?" ++ dq)%string;
   ("Provide partial answer: " ++ dq ++ "I can speak to part of that. The aspect I'm most familiar with is..." ++ dq)%string;
   ("Admit boundaries: " ++ dq ++ "That's outside my area of expertise, but I can point you to some resources." ++ dq)%string;
   ("Reframe the question: " ++ dq ++ "If I understand correctly, you're asking about... Let me address that." ++ dq)%string].

(** Creates Q&A preparation template. *)
Definition createQAPreparation (config : TalkConfig.t) (outline : TalkOutline.t)
  : QAPreparation.t :=
  let anticipatedQuestions := generateAnticipatedQuestions config outline in
  let challengingTopics := identifyChallengingTopics outline in
  let redirectStrategies := generateRedirectStrategies in
  {| QAPreparation.anticipatedQuestions := anticipatedQuestions;
     QAPreparation.challengingTopics := challengingTopics;
     QAPreparation.preparedResponses := [];
     QAPreparation.redirectStrategies := redirectStrategies |}.

(** Creates a rehearsal session; [now] is the reading of the clock
    ([Date.now()] and [new Date()]). *)
Definition createRehearsalSession (now : Z) (outline : TalkOutline.t) : RehearsalSession.t :=
  let sectionTimings :=
    map (fun section =>
           {| RehearsalSectionTiming.sectionId := OutlineSection.id section;
              RehearsalSectionTiming.targetDuration :=
                (OutlineSection.duration section * 60)%float;
              RehearsalSectionTiming.actualDuration := None;
              RehearsalSectionTiming.status := RehearsalSectionTiming.not_started |})
        (TalkOutline.sections outline) in
  {| RehearsalSession.id := ("rehearsal-" ++ Z_to_string now)%string;
     RehearsalSession.startTime := now;
     RehearsalSession.endTime := None;
     RehearsalSession.sections := sectionTimings;
     RehearsalSession.feedback :=
       {| RehearsalFeedback.overallTiming :=
            {| RehearsalFeedback.target := (TalkOutline.totalDuration outline * 60)%float;
               RehearsalFeedback.actual := 0%float;
               RehearsalFeedback.variance := 0%float |};
          RehearsalFeedback.sectionFeedback := [];
          RehearsalFeedback.suggestions := [];
          RehearsalFeedback.strengthAreas := [];
          RehearsalFeedback.improvementAreas := [] |} |}.

(** Updates rehearsal session with section timing. *)
Definition updateSectionTiming
    (session : RehearsalSession.t) (sectionId : string) (actualDuration : number)
  : RehearsalSession.t :=
  let updatedSections :=
    map (fun section =>
           if (RehearsalSectionTiming.sectionId section =? sectionId)%string then
             {| RehearsalSectionTiming.sectionId := RehearsalSectionTiming.sectionId section;
                RehearsalSectionTiming.targetDuration :=
                  RehearsalSectionTiming.targetDuration section;
                RehearsalSectionTiming.actualDuration := Some actualDuration;
                RehearsalSectionTiming.status := RehearsalSectionTiming.completed |}
           else section)
        (RehearsalSession.sections session) in
  {| RehearsalSession.id := RehearsalSession.id session;
     RehearsalSession.startTime := RehearsalSession.startTime session;
     RehearsalSession.endTime := RehearsalSession.endTime session;
     RehearsalSession.sections := updatedSections;
     RehearsalSession.feedback := RehearsalSession.feedback session |}.

(** Generates practice suggestions based on talk type. *)
Definition generatePracticeSuggestions (config : TalkConfig.t) : list string :=
  let suggestions :=
    ["Record yourself and watch for filler words and nervous habits";
     "Practice in front of a mirror to observe body language";
     "Do a full run-through at least 3 times before the event";
     "Practice with different time constraints (tight vs relaxed)"] in
  match TalkConfig.talkType config with
  | TalkType.keynote =>
      suggestions ++
      ["Practice your opening 10 times - it sets the tone";
       "Work on dramatic pauses and emphasis";
       "Rehearse the call to action until it feels natural"]
  | TalkType.technical_deep_dive =>
      suggestions ++
      ["Test all demos multiple times";
       "Have backup slides if live coding fails";
       "Practice explaining complex concepts simply"]
  | TalkType.workshop =>
      suggestions ++
      ["Time each exercise carefully";
       "Prepare for common errors and questions";
       "Have extension activities for fast finishers"]
  | TalkType.lightning_talk =>
      suggestions ++
      ["Every second counts - time it precisely";
       "Cut ruthlessly - one point only";
       "Practice transitioning smoothly"]
  | TalkType.panel_discussion =>
      suggestions ++
      ["Prepare 3-4 strong talking points";
       "Practice active listening and building on others' points";
       "Have data ready to support your positions"]
  end.

(* ================================================================== *)
(** * Ideation, outline and content helpers ([modules/ideation.ts],
      [modules/outline.ts], [modules/content.ts])                      *)
(* ================================================================== *)

(** Generates questions to deepen topic understanding. *)
Definition generateDiscoveryQuestions (config : TalkConfig.t) : list string :=
  let baseQuestions :=
    [("What inspired you to speak about " ++ dq ++ TalkConfig.topic config ++ dq ++ "?")%string;
     "What unique perspective or experience do you bring to this topic?";
     "What do you want the audience to DO after your talk?";
     "What common misconceptions about this topic should be addressed?";
     "What's the most surprising or counterintuitive aspect of this topic?"] in
  let audienceQuestions :=
    match TalkConfig.audience config with
    | AudienceType.technical =>
        ["What technical problems does this solve?";
         "What alternatives exist and why is this approach better?";
         "What are the main implementation challenges?"]
    | AudienceType.academic =>
        ["What research gaps does this address?";
         "What methodology will you present?";
         "What are the implications for future research?"]
    | AudienceType.business =>
        ["What business outcomes does this enable?";
         "What's the ROI or competitive advantage?";
         "What case studies or success stories can you share?"]
    | AudienceType.general =>
        ["Why should someone unfamiliar with this care?";
         "What everyday analogy explains this concept?";
         "How does this affect people's daily lives?"]
    end in
  baseQuestions ++ audienceQuestions.

Module OutlineTimingValidation.
Record t := {
  isValid : bool;
  totalAllocated : number;
  difference : number;
  warnings : list string
}.
End OutlineTimingValidation.

(** Validates outline timing adds up correctly. *)
Definition validateOutlineTiming (outline : TalkOutline.t) : OutlineTimingValidation.t :=
  let totalAllocated :=
    fold_left (fun sum section => (sum + OutlineSection.duration section)%float)
              (TalkOutline.sections outline) 0%float in
  let difference := (TalkOutline.totalDuration outline - totalAllocated)%float in
  let warnings :=
    (if (2 <? Math_abs difference)%float then
       [("Timing mismatch: Total duration is "
         ++ Number_toString (TalkOutline.totalDuration outline)
         ++ " min but sections total " ++ Number_toString totalAllocated ++ " min")%string]
     else [])
    ++ flat_map
         (fun section =>
            (if (OutlineSection.duration section <? 1)%float
                && negb (OutlineSection.type_eqb (OutlineSection.type section)
                                                 OutlineSection.transition)
             then [("Section " ++ dq ++ OutlineSection.title section ++ dq
                    ++ " is very short ("
                    ++ Number_toString (OutlineSection.duration section) ++ " min)")%string]
             else [])
            ++ (if (TalkOutline.totalDuration outline * 0.5
                      <? OutlineSection.duration section)%float
                   && negb (OutlineSection.type_eqb (OutlineSection.type section)
                                                    OutlineSection.main)
                then [("Section " ++ dq ++ OutlineSection.title section ++ dq
                       ++ " takes more than 50% of total time")%string]
                else []))
         (TalkOutline.sections outline) in
  {| OutlineTimingValidation.isValid := (List.length warnings =? 0)%nat;
     OutlineTimingValidation.totalAllocated := totalAllocated;
     OutlineTimingValidation.difference := difference;
     OutlineTimingValidation.warnings := warnings |}.

(** Suggests improvements to an outline. *)
Definition suggestOutlineImprovements (outline : TalkOutline.t) : list string :=
  let mainSections :=
    filter (fun s => OutlineSection.type_eqb (OutlineSection.type s) OutlineSection.main)
           (TalkOutline.sections outline) in
  let hasTransitions :=
    some (fun s => OutlineSection.type_eqb (OutlineSection.type s) OutlineSection.transition)
         (TalkOutline.sections outline) in
  (if (List.length (TalkOutline.learningObjectives outline) =? 0)%nat
   then ["Add 2-3 clear learning objectives for your audience"] else [])
  ++ (if negb (truthy (TalkOutline.callToAction outline))
      then ["Add a specific call to action for your conclusion"] else [])
  ++ (if (4 <? List.length mainSections)%nat
      then ["Consider consolidating main sections - more than 4 can overwhelm"] else [])
  ++ (if (List.length mainSections <? 2)%nat
         && (15 <? TalkOutline.totalDuration outline)%float
      then ["Consider breaking your main content into multiple sections"] else [])
  ++ flat_map
       (fun section =>
          (if (List.length (OutlineSection.keyPoints section) =? 0)%nat
           then [("Add key points to section " ++ dq ++ OutlineSection.title section ++ dq)%string]
           else [])
          ++ (if (6 <? List.length (OutlineSection.keyPoints section))%nat
              then [("Section " ++ dq ++ OutlineSection.title section ++ dq
                     ++ " has too many points - consider consolidating")%string]
              else []))
       (TalkOutline.sections outline)
  ++ (if negb hasTransitions && (20 <? TalkOutline.totalDuration outline)%float
      then ["Consider adding transition slides/moments between major sections"] else []).

(** Creates a script template structure. *)
Definition createScriptTemplate (outline : TalkOutline.t) : Script.t :=
  let sections :=
    map (fun section =>
           {| ScriptSection.sectionId := OutlineSection.id section;
              ScriptSection.title := OutlineSection.title section;
              ScriptSection.content := EmptyString;
              ScriptSection.transitions :=
                {| ScriptSection.in_ := None; ScriptSection.out := None |};
              ScriptSection.codeExamples := Some [];
              ScriptSection.anecdotes := Some [] |})
        (filter (fun s => negb (OutlineSection.type_eqb (OutlineSection.type s)
                                                        OutlineSection.qa))
                (TalkOutline.sections outline)) in
  let speakerNotes :=
    map (fun section =>
           {| SpeakerNote.sectionId := OutlineSection.id section;
              SpeakerNote.content := or_else (OutlineSection.notes section) EmptyString;
              SpeakerNote.timing :=
                (Number_toString (OutlineSection.duration section) ++ " minutes")%string;
              SpeakerNote.emphasis := Some [];
              SpeakerNote.pausePoints := Some [] |})
        (TalkOutline.sections outline) in
  {| Script.title := TalkOutline.title outline;
     Script.introduction := EmptyString;
     Script.sections := sections;
     Script.conclusion := EmptyString;
     Script.speakerNotes := speakerNotes |}.

Module ContentValidation.
Record t := {
  isValid : bool;
  issues : list string;
  suggestions : list string
}.
End ContentValidation.

(** The blocking half of [validateContent]: the [issues] list. (An empty
    string is falsy and shorter than any bound, so [!s || s.length < n]
    is [s.length < n]; [length] counts UTF-16 code units.) *)
Definition contentIssues (script : Script.t) : list string :=
  (if (String_length (Script.introduction script) <? 100)%nat
   then ["Introduction is too short or missing"] else [])
  ++ (if (String_length (Script.conclusion script) <? 100)%nat
      then ["Conclusion is too short or missing"] else [])
  ++ flat_map
       (fun section =>
          if (String_length (ScriptSection.content section) <? 50)%nat
          then [("Section " ++ dq ++ ScriptSection.title section ++ dq
                 ++ " needs more content")%string]
          else [])
       (Script.sections script).

(** Validates content meets requirements. The advisory [suggestions]
    (reading-time and jargon statistics over regular expressions) are
    computed by [contentSuggestions]; they do not enter [isValid]. *)
Definition validateContent
    (contentSuggestions : Script.t -> TalkConfig.t -> list string)
    (script : Script.t) (config : TalkConfig.t) : ContentValidation.t :=
  let issues := contentIssues script in
  let suggestions := contentSuggestions script config in
  {| ContentValidation.isValid := (List.length issues =? 0)%nat;
     ContentValidation.issues := issues;
     ContentValidation.suggestions := suggestions |}.

(* ================================================================== *)
(** * JSON texts: [JSON.stringify(value, null, 2)] and [JSON.parse]     *)
(* ================================================================== *)

Module JSON.

Local Open Scope string_scope.

(** A JSON text as a tree. Numbers are kept as the decimal literals that
    stand in the text; object members are kept in the order of the text. *)
Inductive value :=
| JNull
| JBool (b : bool)
| JNum (l : literal)
| JStr (s : string)
| JArr (items : list value)
| JObj (members : list (string * value)).

(** ** Printing *)

Definition dq_char : ascii := ascii_of_nat 34.

Definition hex_digit (n : nat) : ascii :=
  if (n <? 10)%nat then ascii_of_nat (48 + n) else ascii_of_nat (87 + n).

(** [QuoteJSONString], one character at a time. *)
Definition quote_char (c : ascii) : string :=
  let n := nat_of_ascii c in
  if (n =? 34)%nat then String "\" (String dq_char EmptyString)
  else if (n =? 92)%nat then "\\"
  else if (n =? 8)%nat then "\b"
  else if (n =? 12)%nat then "\f"
  else if (n =? 10)%nat then "\n"
  else if (n =? 13)%nat then "\r"
  else if (n =? 9)%nat then "\t"
  else if (n <? 32)%nat then
    String "\" (String "u" (String "0" (String "0"
      (String (hex_digit (n / 16)) (String (hex_digit (n mod 16)) EmptyString)))))
  else String c EmptyString.

Fixpoint quote_chars (s : string) : string :=
  match s with
  | EmptyString => String dq_char EmptyString
  | String c s' => quote_char c ++ quote_chars s'
  end.

Definition quote (s : string) : string := String dq_char (quote_chars s).

(** The indentation at nesting depth [d]: [d] copies of the gap. *)
Fixpoint indent (d : nat) : string :=
  match d with
  | O => EmptyString
  | S d' => String " " (String " " (indent d'))
  end.

Fixpoint stringify_at (d : nat) (v : value) : string :=
  match v with
  | JNull => "null"
  | JBool true => "true"
  | JBool false => "false"
  | JNum l => print_literal l
  | JStr s => quote s
  | JArr [] => "[]"
  | JArr items =>
      "[" ++ nl ++ indent (S d)
      ++ join ("," ++ nl ++ indent (S d)) (map (stringify_at (S d)) items)
      ++ nl ++ indent d ++ "]"
  | JObj [] => "{}"
  | JObj members =>
      "{" ++ nl ++ indent (S d)
      ++ join ("," ++ nl ++ indent (S d))
              (map (fun m => (quote (fst m) ++ ": " ++ stringify_at (S d) (snd m))%string)
                   members)
      ++ nl ++ indent d ++ "}"
  end.

(** [JSON.stringify(value, null, 2)]. *)
Definition stringify (v : value) : string := stringify_at 0 v.

(** ** Parsing *)

Definition is_ws (c : ascii) : bool :=
  let n := nat_of_ascii c in
  (n =? 32)%nat || (n =? 10)%nat || (n =? 13)%nat || (n =? 9)%nat.

Fixpoint skip_ws (s : string) : string :=
  match s with
  | EmptyString => EmptyString
  | String c s' => if is_ws c then skip_ws s' else s
  end.

Definition digit_of_char (c : ascii) : option (uint -> uint) :=
  match c with
  | "0" => Some D0 | "1" => Some D1 | "2" => Some D2 | "3" => Some D3
  | "4" => Some D4 | "5" => Some D5 | "6" => Some D6 | "7" => Some D7
  | "8" => Some D8 | "9" => Some D9 | _ => None
  end%char.

(** The longest prefix of decimal digits, and what follows it. *)
Fixpoint take_digits (s : string) : uint * string :=
  match s with
  | EmptyString => (Nil, EmptyString)
  | String c s' =>
      match digit_of_char c with
      | Some d => let '(u, r) := take_digits s' in (d u, r)
      | None => (Nil, s)
      end
  end.

(** The integer part of a JSON number: a single [0], or digits that do
    not start with [0]. *)
Definition valid_int (u : uint) : bool :=
  match u with
  | Nil => false
  | D0 Nil => true
  | D0 _ => false
  | _ => true
  end.

Definition is_nil (u : uint) : bool :=
  match u with Nil => true | _ => false end.

Definition parse_fraction (s : string) : option (uint * string) :=
  match s with
  | String "." r =>
      let '(f, r') := take_digits r in
      if is_nil f then None else Some (f, r')
  | _ => Some (Nil, s)
  end.

Definition parse_exponent_digits (negative : bool) (s : string) : option (option Z * string) :=
  let '(u, r) := take_digits s in
  if is_nil u then None
  else
    let z := Z.of_N (N.of_uint u) in
    Some (Some (if negative then (- z)%Z else z), r).

Definition parse_exponent (s : string) : option (option Z * string) :=
  match s with
  | String c r =>
      if ((c =? "e") || (c =? "E"))%char then
        match r with
        | String "+" r' => parse_exponent_digits false r'
        | String "-" r' => parse_exponent_digits true r'
        | _ => parse_exponent_digits false r
        end
      else Some (None, s)
  | EmptyString => Some (None, s)
  end.

Definition parse_number (s : string) : option (literal * string) :=
  let '(neg, s1) :=
    match s with
    | String "-" r => (true, r)
    | _ => (false, s)
    end in
  let '(ip, s2) := take_digits s1 in
  if valid_int ip then
    match parse_fraction s2 with
    | Some (f, s3) =>
        match parse_exponent s3 with
        | Some (e, s4) =>
            Some ({| lit_neg := neg; lit_int := ip; lit_frac := f; lit_exp := e |}, s4)
        | None => None
        end
    | None => None
    end
  else None.

Definition hex_value (c : ascii) : option nat :=
  let n := nat_of_ascii c in
  if (48 <=? n)%nat && (n <=? 57)%nat then Some (n - 48)
  else if (97 <=? n)%nat && (n <=? 102)%nat then Some (n - 87)
  else if (65 <=? n)%nat && (n <=? 70)%nat then Some (n - 55)
  else None.

(** The code unit written [\uXXXX]. *)
Definition hex4 (a b c d : ascii) : option nat :=
  match hex_value a, hex_value b, hex_value c, hex_value d with
  | Some x, Some y, Some z, Some w => Some (((x * 16 + y) * 16 + z) * 16 + w)
  | _, _, _, _ => None
  end.

(** The UTF-8 bytes of a code unit. *)
Definition utf8 (n : nat) : string :=
  if (n <? 128)%nat then String (ascii_of_nat n) EmptyString
  else if (n <? 2048)%nat then
    String (ascii_of_nat (192 + n / 64)) (String (ascii_of_nat (128 + n mod 64)) EmptyString)
  else
    String (ascii_of_nat (224 + n / 4096))
      (String (ascii_of_nat (128 + (n / 64) mod 64))
         (String (ascii_of_nat (128 + n mod 64)) EmptyString)).

Definition simple_escape (c : ascii) : option ascii :=
  if (c =? dq_char)%char then Some dq_char
  else
    match c with
    | "\" => Some "\" | "/" => Some "/"
    | "b" => Some (ascii_of_nat 8) | "f" => Some (ascii_of_nat 12)
    | "n" => Some (ascii_of_nat 10) | "r" => Some (ascii_of_nat 13)
    | "t" => Some (ascii_of_nat 9)
    | _ => None
    end%char.

(** The characters of a string after its opening quote, up to and
    including the closing quote. *)
Fixpoint parse_chars (s : string) : option (string * string) :=
  match s with
  | EmptyString => None
  | String c s' =>
      if (c =? dq_char)%char then Some (EmptyString, s')
      else if (c =? "\")%char then
        match s' with
        | String "u" (String h1 (String h2 (String h3 (String h4 s'')))) =>
            match hex4 h1 h2 h3 h4, parse_chars s'' with
            | Some n, Some (str, r) => Some (utf8 n ++ str, r)
            | _, _ => None
            end
        | String e s'' =>
            match simple_escape e, parse_chars s'' with
            | Some c', Some (str, r) => Some (String c' str, r)
            | _, _ => None
            end
        | EmptyString => None
        end
      else if (nat_of_ascii c <? 32)%nat then None
      else
        match parse_chars s' with
        | Some (str, r) => Some (String c str, r)
        | None => None
        end
  end.

(** What is left of [s] after the prefix [word], when it has that prefix. *)
Fixpoint strip_prefix (word s : string) : option string :=
  match word with
  | EmptyString => Some s
  | String w word' =>
      match s with
      | String c s' => if (c =? w)%char then strip_prefix word' s' else None
      | EmptyString => None
      end
  end.

Definition expect (word : string) (s : string) (v : value) : option (value * string) :=
  match strip_prefix word s with
  | Some r => Some (v, r)
  | None => None
  end.

(** The next character that is not white space, and what follows it. *)
Definition separator (s : string) : option (ascii * string) :=
  match skip_ws s with
  | EmptyString => None
  | String c r => Some (c, r)
  end.

Fixpoint parse_value (fuel : nat) (s : string) : option (value * string) :=
  match fuel with
  | O => None
  | S f =>
      match separator s with
      | None => None
      | Some (c, r) =>
          match c with
          | "n" => expect "ull" r JNull
          | "t" => expect "rue" r (JBool true)
          | "f" => expect "alse" r (JBool false)
          | "[" =>
              match separator r with
              | Some (c', r') =>
                  if (c' =? "]")%char then Some (JArr [], r')
                  else
                    match parse_elements f r with
                    | Some (items, r'') => Some (JArr items, r'')
                    | None => None
                    end
              | None => None
              end
          | "{" =>
              match separator r with
              | Some (c', r') =>
                  if (c' =? "}")%char then Some (JObj [], r')
                  else
                    match parse_members f r with
                    | Some (members, r'') => Some (JObj members, r'')
                    | None => None
                    end
              | None => None
              end
          | _ =>
              if (c =? dq_char)%char then
                match parse_chars r with
                | Some (str, r') => Some (JStr str, r')
                | None => None
                end
              else
                match parse_number (String c r) with
                | Some (l, r') => Some (JNum l, r')
                | None => None
                end
          end%char
      end
  end

with parse_elements (fuel : nat) (s : string) : option (list value * string) :=
  match fuel with
  | O => None
  | S f =>
      match parse_value f s with
      | Some (v, r) =>
          match separator r with
          | Some (c, r') =>
              if (c =? ",")%char then
                match parse_elements f r' with
                | Some (vs, r'') => Some (v :: vs, r'')
                | None => None
                end
              else if (c =? "]")%char then Some ([v], r')
              else None
          | None => None
          end
      | None => None
      end
  end

with parse_members (fuel : nat) (s : string) : option (list (string * value) * string) :=
  match fuel with
  | O => None
  | S f =>
      match separator s with
      | Some (c, r) =>
          if (c =? dq_char)%char then
            match parse_chars r with
            | Some (key, r1) =>
                match separator r1 with
                | Some (c1, r2) =>
                    if (c1 =? ":")%char then
                      match parse_value f r2 with
                      | Some (v, r3) =>
                          match separator r3 with
                          | Some (c3, r4) =>
                              if (c3 =? ",")%char then
                                match parse_members f r4 with
                                | Some (ms, r5) => Some ((key, v) :: ms, r5)
                                | None => None
                                end
                              else if (c3 =? "}")%char then Some ([(key, v)], r4)
                              else None
                          | None => None
                          end
                      | None => None
                      end
                    else None
                | None => None
                end
            | None => None
            end
          else None
      | None => None
      end
  end.

(** [JSON.parse]: one value, surrounded by optional white space. *)
Definition parse (s : string) : option value :=
  match parse_value (String.length s) s with
  | Some (v, r) =>
      match skip_ws r with
      | EmptyString => Some v
      | _ => None
      end
  | None => None
  end.

(** Property access on a parsed object: the last member of that name. *)
Fixpoint lookup (key : string) (members : list (string * value)) : option value :=
  match members with
  | [] => None
  | (k, v) :: ms =>
      match lookup key ms with
      | Some v' => Some v'
      | None => if (k =? key)%string then Some v else None
      end
  end.

Definition get (key : string) (v : value) : option value :=
  match v with
  | JObj members => lookup key members
  | _ => None
  end.

(** The shape of the trees that are printed: the integer part of every
    number literal is a valid one. *)
Fixpoint well_formed (v : value) : bool :=
  match v with
  | JNum l => valid_int (lit_int l)
  | JArr items => forallb well_formed items
  | JObj members => forallb (fun m => well_formed (snd m)) members
  | _ => true
  end.

(** A bound on the recursion depth the parser needs for a tree. *)
Fixpoint size (v : value) : nat :=
  match v with
  | JArr items => S (list_sum (map (fun x => S (size x)) items))
  | JObj members => S (list_sum (map (fun m => S (size (snd m))) members))
  | _ => 1
  end.


End JSON.

(* ================================================================== *)
(** * Slide export ([modules/slides.ts])                                *)
(* ================================================================== *)

(** [text.replace(/c/g, r)] for a single character [c]. *)
Fixpoint replaceAll (c : ascii) (r : string) (text : string) : string :=
  match text with
  | EmptyString => EmptyString
  | String x text' =>
      if (x =? c)%char then (r ++ replaceAll c r text')%string
      else String x (replaceAll c r text')
  end.

(** Helper to escape HTML entities. *)
Definition escapeHtml (text : string) : string :=
  replaceAll "'" "&#039;"
    (replaceAll JSON.dq_char "&quot;"
       (replaceAll ">" "&gt;"
          (replaceAll "<" "&lt;"
             (replaceAll "&" "&amp;" text)))).

(** [s.replace(/\s+/g, '-')], on the ASCII white space. *)
Definition is_space (c : ascii) : bool :=
  let n := nat_of_ascii c in
  ((9 <=? n) && (n <=? 13))%nat || (n =? 32)%nat.

Fixpoint replace_space_runs (in_run : bool) (s : string) : string :=
  match s with
  | EmptyString => EmptyString
  | String c s' =>
      if is_space c then
        if in_run then replace_space_runs true s'
        else String "-" (replace_space_runs true s')
      else String c (replace_space_runs false s')
  end.

Definition slug (title : string) : string :=
  replace_space_runs false (toLowerCase title).

Definition concat_strings (l : list string) : string :=
  fold_right String.append EmptyString l.

Definition when (b : bool) (s : string) : string := if b then s else EmptyString.

Definition text_of (s : option string) : string := or_else s EmptyString.

Definition nonempty {A : Type} (l : option (list A)) : bool :=
  match l with
  | Some (_ :: _) => true
  | _ => false
  end.

Definition items_of {A : Type} (l : option (list A)) : list A :=
  match l with
  | Some xs => xs
  | None => []
  end.

(** One slide of the Markdown export; [index] counts from 0. *)
Definition slideMarkdown (options : ExportOptions.t) (slide : Slide.t) (index : nat) : string :=
  ("## Slide " ++ nat_to_string (index + 1)
   ++ when (truthy (Slide.title slide)) (": " ++ text_of (Slide.title slide))
   ++ nl ++ nl
   ++ "*Layout: " ++ SlideLayout.to_string (Slide.layout slide) ++ "*" ++ nl ++ nl
   ++ when (truthy (Slide.subtitle slide))
           ("*" ++ text_of (Slide.subtitle slide) ++ "*" ++ nl ++ nl)
   ++ when (truthy (Slide.content slide))
           (text_of (Slide.content slide) ++ nl ++ nl)
   ++ when (nonempty (Slide.bulletPoints slide))
           (concat_strings
              (map (fun point => "- " ++ point ++ nl) (items_of (Slide.bulletPoints slide)))
            ++ nl)
   ++ match Slide.code slide with
      | Some code =>
          "```" ++ CodeExample.language code ++ nl ++ CodeExample.code code ++ nl
          ++ "```" ++ nl ++ nl
          ++ when (truthy (Some (CodeExample.explanation code)))
                  ("*" ++ CodeExample.explanation code ++ "*" ++ nl ++ nl)
      | None => EmptyString
      end
   ++ match Slide.quote slide with
      | Some quote =>
          "> " ++ SlideQuote.text quote ++ nl
          ++ when (truthy (SlideQuote.attribution quote))
                  ("> — " ++ text_of (SlideQuote.attribution quote) ++ nl)
          ++ nl
      | None => EmptyString
      end
   ++ when (truthy (Slide.imagePrompt slide))
           ("**[Image suggestion: " ++ text_of (Slide.imagePrompt slide) ++ "]**" ++ nl ++ nl)
   ++ when (ExportOptions.includeNotes options && truthy (Some (Slide.speakerNotes slide)))
           ("---" ++ nl ++ "**Speaker Notes:** " ++ Slide.speakerNotes slide ++ nl ++ nl)
   ++ when (ExportOptions.includeTimings options)
           ("*Duration: " ++ Number_toString (Slide.duration slide) ++ " seconds*" ++ nl ++ nl)
   ++ "---" ++ nl ++ nl)%string.

(** Exports to Markdown format. *)
Definition exportToMarkdown (deck : SlideDeck.t) (options : ExportOptions.t) : ExportResult.t :=
  let md :=
    ("# " ++ SlideDeck.title deck ++ nl ++ nl
     ++ when (truthy (SlideDeck.author deck))
             ("**Presenter:** " ++ text_of (SlideDeck.author deck) ++ nl)
     ++ when (truthy (SlideDeck.date deck))
             ("**Date:** " ++ text_of (SlideDeck.date deck) ++ nl)
     ++ "**Total Slides:** "
     ++ Number_toString (SlideMetadata.totalSlides (SlideDeck.metadata deck)) ++ nl ++ nl
     ++ "---" ++ nl ++ nl
     ++ concat_strings (mapi (slideMarkdown options) (SlideDeck.slides deck)))%string in
  {| ExportResult.format := ExportFormat.markdown;
     ExportResult.content := md;
     ExportResult.filename := (slug (SlideDeck.title deck) ++ "-slides.md")%string;
     ExportResult.mimeType := "text/markdown" |}.

(** ** The JSON export

    [JSON.stringify] walks the own properties of an object in creation
    order, leaves out those whose value is [undefined], and writes a
    number that is not finite as [null]. *)
Definition property (key : string) (v : option JSON.value) : list (string * JSON.value) :=
  match v with
  | Some j => [(key, j)]
  | None => []
  end.

Definition json_string (s : string) : JSON.value := JSON.JStr s.

Definition json_number (x : number) : JSON.value :=
  match Number_toLiteral x with
  | Some l => JSON.JNum l
  | None => JSON.JNull
  end.

Definition json_strings (l : list string) : JSON.value := JSON.JArr (map json_string l).

Definition CodeExample_json (c : CodeExample.t) : JSON.value :=
  JSON.JObj
    ([("language", json_string (CodeExample.language c));
      ("code", json_string (CodeExample.code c));
      ("explanation", json_string (CodeExample.explanation c))]
     ++ property "highlightLines"
          (option_map (fun l => JSON.JArr (map json_number l))
                      (CodeExample.highlightLines c))).

Definition SlideQuote_json (q : SlideQuote.t) : JSON.value :=
  JSON.JObj
    ([("text", json_string (SlideQuote.text q))]
     ++ property "attribution" (option_map json_string (SlideQuote.attribution q))).

Definition SlideTheme_json (t : SlideTheme.t) : JSON.value :=
  JSON.JObj
    ([("name", json_string (SlideTheme.name t));
      ("type", json_string (SlideTheme.type_to_string (SlideTheme.type t)))]
     ++ property "primaryColor" (option_map json_string (SlideTheme.primaryColor t))
     ++ property "secondaryColor" (option_map json_string (SlideTheme.secondaryColor t))
     ++ property "fontFamily" (option_map json_string (SlideTheme.fontFamily t))).

Definition SlideMetadata_json (m : SlideMetadata.t) : JSON.value :=
  JSON.JObj
    [("totalSlides", json_number (SlideMetadata.totalSlides m));
     ("estimatedDuration", json_number (SlideMetadata.estimatedDuration m));
     ("generatedAt", json_string (SlideMetadata.generatedAt m));
     ("version", json_string (SlideMetadata.version m))].

(** A slide of [exportData]:
    [{ ...slide, speakerNotes: <notes>, duration: <duration> }]. *)
Definition exportSlide_json
    (slide : Slide.t) (speakerNotes : option string) (duration : option number)
  : JSON.value :=
  JSON.JObj
    ([("id", json_string (Slide.id slide));
      ("order", json_number (Slide.order slide));
      ("layout", json_string (SlideLayout.to_string (Slide.layout slide)))]
     ++ property "title" (option_map json_string (Slide.title slide))
     ++ property "subtitle" (option_map json_string (Slide.subtitle slide))
     ++ property "content" (option_map json_string (Slide.content slide))
     ++ property "bulletPoints" (option_map json_strings (Slide.bulletPoints slide))
     ++ property "imagePrompt" (option_map json_string (Slide.imagePrompt slide))
     ++ property "code" (option_map CodeExample_json (Slide.code slide))
     ++ property "quote" (option_map SlideQuote_json (Slide.quote slide))
     ++ property "speakerNotes" (option_map json_string speakerNotes)
     ++ property "duration" (option_map json_number duration)).

(** [{ ...deck, slides: <slides> }]. *)
Definition exportData_json (deck : SlideDeck.t) (slides : list JSON.value) : JSON.value :=
  JSON.JObj
    ([("title", json_string (SlideDeck.title deck))]
     ++ property "author" (option_map json_string (SlideDeck.author deck))
     ++ property "date" (option_map json_string (SlideDeck.date deck))
     ++ [("theme", SlideTheme_json (SlideDeck.theme deck));
         ("slides", JSON.JArr slides);
         ("metadata", SlideMetadata_json (SlideDeck.metadata deck))]).

(** Exports to JSON format (suitable for tools like reveal.js). *)
Definition exportToJson (deck : SlideDeck.t) (options : ExportOptions.t) : ExportResult.t :=
  let exportData :=
    exportData_json deck
      (map (fun slide =>
              exportSlide_json slide
                (if ExportOptions.includeNotes options
                 then Some (Slide.speakerNotes slide) else None)
                (if ExportOptions.includeTimings options
                 then Some (Slide.duration slide) else None))
           (SlideDeck.slides deck)) in
  {| ExportResult.format := ExportFormat.json;
     ExportResult.content := JSON.stringify exportData;
     ExportResult.filename := (slug (SlideDeck.title deck) ++ "-slides.json")%string;
     ExportResult.mimeType := "application/json" |}.

(** The document head of [exportToHtml]: the template literal up to
    and including the line of [<body>]. *)
Definition htmlHead (deck : SlideDeck.t) (theme : SlideTheme.t) : string :=
  ("<!DOCTYPE html>
<html lang="
   ++ dq
   ++ "en"
   ++ dq
   ++ ">
<head>
  <meta charset="
   ++ dq
   ++ "UTF-8"
   ++ dq
   ++ ">
  <meta name="
   ++ dq
   ++ "viewport"
   ++ dq
   ++ " content="
   ++ dq
   ++ "width=device-width, initial-scale=1.0"
   ++ dq
   ++ ">
  <title>"
   ++ SlideDeck.title deck
   ++ "</title>
  <style>
    :root {
      --primary-color: "
   ++ or_else (SlideTheme.primaryColor theme) "#2563eb"
   ++ ";
      --secondary-color: "
   ++ or_else (SlideTheme.secondaryColor theme) "#1e40af"
   ++ ";
      --font-family: "
   ++ or_else (SlideTheme.fontFamily theme) "system-ui, sans-serif"
   ++ ";
    }
    * { box-sizing: border-box; margin: 0; padding: 0; }
    body { font-family: var(--font-family); line-height: 1.6; }
    .slide {
      min-height: 100vh;
      padding: 4rem;
      display: flex;
      flex-direction: column;
      justify-content: center;
      border-bottom: 1px solid #e5e7eb;
    }
    .slide-title {
      background: linear-gradient(135deg, var(--primary-color), var(--secondary-color));
      color: white;
      text-align: center;
    }
    .slide-section-header {
      background: var(--primary-color);
      color: white;
      text-align: center;
    }
    h1 { font-size: 3rem; margin-bottom: 1rem; }
    h2 { font-size: 2.5rem; margin-bottom: 1rem; color: var(--primary-color); }
    .subtitle { font-size: 1.5rem; opacity: 0.9; }
    ul { list-style: none; padding-left: 0; }
    li {
      padding: 0.75rem 0;
      padding-left: 2rem;
      position: relative;
      font-size: 1.25rem;
    }
    li::before {
      content: "
   ++ dq
   ++ "•"
   ++ dq
   ++ ";
      color: var(--primary-color);
      position: absolute;
      left: 0;
      font-size: 1.5rem;
    }
    pre {
      background: #1f2937;
      color: #f9fafb;
      padding: 1.5rem;
      border-radius: 0.5rem;
      overflow-x: auto;
      font-size: 1rem;
    }
    blockquote {
      font-size: 1.75rem;
      font-style: italic;
      border-left: 4px solid var(--primary-color);
      padding-left: 1.5rem;
      margin: 2rem 0;
    }
    .attribution {
      font-size: 1rem;
      opacity: 0.7;
      margin-top: 1rem;
    }
    .speaker-notes {
      margin-top: 2rem;
      padding: 1rem;
      background: #f3f4f6;
      border-radius: 0.5rem;
      font-size: 0.875rem;
      color: #6b7280;
    }
    .slide-number {
      position: absolute;
      bottom: 1rem;
      right: 1rem;
      font-size: 0.875rem;
      color: #9ca3af;
    }
    @media print {
      .slide { page-break-after: always; }
      .speaker-notes { display: none; }
    }
  </style>
</head>
<body>
")%string.

(** One slide of the HTML export; [index] counts from 0 and [total] is
    [deck.slides.length]. *)
Definition slideHtml (options : ExportOptions.t) (total : nat) (slide : Slide.t) (index : nat)
  : string :=
  let layoutClass :=
    if SlideLayout.is_title (Slide.layout slide) then "slide-title"
    else if SlideLayout.is_section_header (Slide.layout slide) then "slide-section-header"
    else EmptyString in
  let h := if SlideLayout.is_title (Slide.layout slide) then "1" else "2" in
  ("  <div class=" ++ dq ++ "slide " ++ layoutClass ++ dq ++ ">" ++ nl
   ++ when (truthy (Slide.title slide))
           ("    <h" ++ h ++ ">" ++ escapeHtml (text_of (Slide.title slide))
            ++ "</h" ++ h ++ ">" ++ nl)
   ++ when (truthy (Slide.subtitle slide))
           ("    <p class=" ++ dq ++ "subtitle" ++ dq ++ ">"
            ++ escapeHtml (text_of (Slide.subtitle slide)) ++ "</p>" ++ nl)
   ++ when (truthy (Slide.content slide))
           ("    <p>" ++ escapeHtml (text_of (Slide.content slide)) ++ "</p>" ++ nl)
   ++ when (nonempty (Slide.bulletPoints slide))
           ("    <ul>" ++ nl
            ++ concat_strings
                 (map (fun point => "      <li>" ++ escapeHtml point ++ "</li>" ++ nl)
                      (items_of (Slide.bulletPoints slide)))
            ++ "    </ul>" ++ nl)
   ++ match Slide.code slide with
      | Some code =>
          "    <pre><code class=" ++ dq ++ "language-" ++ CodeExample.language code ++ dq
          ++ ">" ++ escapeHtml (CodeExample.code code) ++ "</code></pre>" ++ nl
      | None => EmptyString
      end
   ++ match Slide.quote slide with
      | Some quote =>
          "    <blockquote>" ++ escapeHtml (SlideQuote.text quote) ++ "</blockquote>" ++ nl
          ++ when (truthy (SlideQuote.attribution quote))
                  ("    <p class=" ++ dq ++ "attribution" ++ dq ++ ">— "
                   ++ escapeHtml (text_of (SlideQuote.attribution quote)) ++ "</p>" ++ nl)
      | None => EmptyString
      end
   ++ when (ExportOptions.includeNotes options && truthy (Some (Slide.speakerNotes slide)))
           ("    <div class=" ++ dq ++ "speaker-notes" ++ dq ++ ">" ++ nl
            ++ "      <strong>Notes:</strong> " ++ escapeHtml (Slide.speakerNotes slide) ++ nl
            ++ "    </div>" ++ nl)
   ++ "    <span class=" ++ dq ++ "slide-number" ++ dq ++ ">"
   ++ nat_to_string (index + 1) ++ " / " ++ nat_to_string total ++ "</span>" ++ nl
   ++ "  </div>" ++ nl ++ nl)%string.

(** Exports to HTML format. *)
Definition exportToHtml (deck : SlideDeck.t) (options : ExportOptions.t) : ExportResult.t :=
  let theme :=
    match ExportOptions.theme options with
    | Some t => t
    | None => SlideDeck.theme deck
    end in
  let html :=
    (htmlHead deck theme
     ++ concat_strings
          (mapi (slideHtml options (List.length (SlideDeck.slides deck)))
                (SlideDeck.slides deck))
     ++ "</body>" ++ nl ++ "</html>")%string in
  {| ExportResult.format := ExportFormat.html;
     ExportResult.content := html;
     ExportResult.filename := (slug (SlideDeck.title deck) ++ "-slides.html")%string;
     ExportResult.mimeType := "text/html" |}.

(** Exports slide deck to specified format. *)
Definition exportSlideDeck (deck : SlideDeck.t) (options : ExportOptions.t) : ExportResult.t :=
  match ExportOptions.format options with
  | ExportFormat.markdown => exportToMarkdown deck options
  | ExportFormat.json => exportToJson deck options
  | ExportFormat.html => exportToHtml deck options
  | _ => exportToMarkdown deck options
  end.

Module SlideDeckValidation.
Record t := {
  isValid : bool;
  warnings : list string;
  suggestions : list string
}.
End SlideDeckValidation.

(** Validates slide deck. *)
Definition validateSlideDeck (deck : SlideDeck.t) (config : TalkConfig.t)
  : SlideDeckValidation.t :=
  let count := List.length (SlideDeck.slides deck) in
  let expectedSlides := TalkConfig.duration config in
  let tooMany := (expectedSlides * 1.5 <? number_of_nat count)%float in
  let tooFew := (number_of_nat count <? expectedSlides * 0.5)%float in
  let untitledSlides :=
    filter (fun s => negb (truthy (Slide.title s))
                     && negb (match Slide.layout s with
                              | SlideLayout.image_full => true
                              | _ => false
                              end))
           (SlideDeck.slides deck) in
  let slidesWithoutNotes :=
    filter (fun s => negb (truthy (Some (Slide.speakerNotes s)))) (SlideDeck.slides deck) in
  let warnings :=
    (if tooMany then
       [("Too many slides (" ++ nat_to_string count ++ ") for "
         ++ Number_toString (TalkConfig.duration config)
         ++ "-min talk. Consider consolidating.")%string]
     else [])
    ++ List.concat
         (mapi (fun slide index =>
                  if (6 <? List.length (items_of (Slide.bulletPoints slide)))%nat then
                    [("Slide " ++ nat_to_string (index + 1) ++ " has "
                      ++ nat_to_string (List.length (items_of (Slide.bulletPoints slide)))
                      ++ " bullet points - consider splitting")%string]
                  else [])
               (SlideDeck.slides deck)) in
  let suggestions :=
    (if negb tooMany && tooFew then
       [("Few slides (" ++ nat_to_string count ++ ") for "
         ++ Number_toString (TalkConfig.duration config)
         ++ "-min talk. Ensure each has enough content.")%string]
     else [])
    ++ (if (0 <? List.length untitledSlides)%nat
        then [(nat_to_string (List.length untitledSlides) ++ " slides lack titles")%string]
        else [])
    ++ (if (number_of_nat count * 0.3 <? number_of_nat (List.length slidesWithoutNotes))%float
        then ["Many slides lack speaker notes - add notes for better delivery"]
        else []) in
  {| SlideDeckValidation.isValid := (List.length warnings =? 0)%nat;
     SlideDeckValidation.warnings := warnings;
     SlideDeckValidation.suggestions := suggestions |}.

(* ================================================================== *)
(** * Configuration schema ([schemas/validation.ts])                    *)
(* ================================================================== *)

(** An untyped input: the values [initialize] receives as [unknown]. *)
Module Raw.
Inductive value :=
| undefined
| null
| boolean (b : bool)
| num (n : number)
| str (s : string)
| array (items : list value)
| object (fields : list (string * value)).

(** Property read; an absent property reads as [undefined]. *)
Fixpoint get (key : string) (fields : list (string * value)) : value :=
  match fields with
  | [] => undefined
  | (k, v) :: rest => if (k =? key)%string then v else get key rest
  end.
End Raw.

(** [Number.isInteger]. *)
Definition Number_isInteger (x : number) : bool :=
  match Prim2SF x with
  | S754_zero _ => true
  | S754_finite _ m e => ((0 <=? e) || (Zpos m mod 2 ^ (- e) =? 0))%Z
  | _ => false
  end.

(** A field declared [z.enum([...]).default(d)]. *)
Definition enumField {A : Type} (options : list (string * A)) (default : A) (v : Raw.value)
  : option A :=
  match v with
  | Raw.undefined => Some default
  | Raw.str s =>
      match find (fun o => (fst o =? s)%string) options with
      | Some o => Some (snd o)
      | None => None
      end
  | _ => None
  end.

(** A field declared [z.string().optional()], with an optional [max]. *)
Definition optionalString (max : option nat) (v : Raw.value) : option (option string) :=
  match v with
  | Raw.undefined => Some None
  | Raw.str s =>
      match max with
      | Some m => if (String_length s <=? m)%nat then Some (Some s) else None
      | None => Some (Some s)
      end
  | _ => None
  end.

Definition topicField (v : Raw.value) : option string :=
  match v with
  | Raw.str s =>
      if ((3 <=? String_length s) && (String_length s <=? 200))%nat then Some s else None
  | _ => None
  end.

Definition durationField (v : Raw.value) : option number :=
  match v with
  | Raw.undefined => Some 30%float
  | Raw.num n =>
      if Number_isInteger n && (5 <=? n)%float && (n <=? 120)%float then Some n else None
  | _ => None
  end.

(** The data [TalkConfigSchema] yields when every check passes: unknown
    keys are dropped and defaults are filled in. *)
Definition TalkConfigSchema_data (input : Raw.value) : option TalkConfig.t :=
  match input with
  | Raw.object fields =>
      match topicField (Raw.get "topic" fields),
            enumField [("technical", AudienceType.technical);
                       ("academic", AudienceType.academic);
                       ("business", AudienceType.business);
                       ("general", AudienceType.general)]
                      AudienceType.general (Raw.get "audience" fields),
            durationField (Raw.get "duration" fields),
            enumField [("beginner", ExpertiseLevel.beginner);
                       ("intermediate", ExpertiseLevel.intermediate);
                       ("expert", ExpertiseLevel.expert)]
                      ExpertiseLevel.intermediate (Raw.get "expertiseLevel" fields),
            enumField [("keynote", TalkType.keynote);
                       ("technical_deep_dive", TalkType.technical_deep_dive);
                       ("workshop", TalkType.workshop);
                       ("lightning_talk", TalkType.lightning_talk);
                       ("panel_discussion", TalkType.panel_discussion)]
                      TalkType.technical_deep_dive (Raw.get "talkType" fields),
            enumField [("formal", ToneType.formal);
                       ("conversational", ToneType.conversational);
                       ("inspirational", ToneType.inspirational);
                       ("educational", ToneType.educational)]
                      ToneType.conversational (Raw.get "tone" fields),
            optionalString None (Raw.get "speakerName" fields),
            optionalString (Some 500%nat) (Raw.get "conferenceContext" fields),
            optionalString (Some 1000%nat) (Raw.get "additionalNotes" fields)
      with
      | Some topic, Some audience, Some duration, Some expertiseLevel,
        Some talkType, Some tone, Some speakerName, Some conferenceContext,
        Some additionalNotes =>
          Some {| TalkConfig.topic := topic;
                  TalkConfig.audience := audience;
                  TalkConfig.duration := duration;
                  TalkConfig.expertiseLevel := expertiseLevel;
                  TalkConfig.talkType := talkType;
                  TalkConfig.tone := tone;
                  TalkConfig.speakerName := speakerName;
                  TalkConfig.conferenceContext := conferenceContext;
                  TalkConfig.additionalNotes := additionalNotes |}
      | _, _, _, _, _, _, _, _, _ => None
      end
  | _ => None
  end.

(* ================================================================== *)
(** * The workflow coordinator ([index.ts], class [TalkPrepSkill])      *)
(* ================================================================== *)

(** The functions [index.ts] imports whose results are texts for the
    caller and never feed the session's step: prompt and report
    builders, the advisory half of [validateContent], the slide builder
    (which reads the clock) and the messages the validation library
    gives for a rejected configuration. *)
Module Collaborators.
Record t := {
  TALKPREP_SYSTEM_PROMPT : string;
  issueMessages : Raw.value -> list string;
  generateIdeationPrompt : TalkConfig.t -> string;
  generateResearchGuidance : string -> AudienceType.t -> list string -> string;
  suggestTopicRefinements : string -> TalkType.t -> number -> list string;
  generateOutlinePrompt : TalkConfig.t -> list string -> string;
  formatOutlineAsMarkdown : TalkOutline.t -> string;
  generateScriptPrompt : TalkConfig.t -> TalkOutline.t -> string;
  formatScriptAsMarkdown : Script.t -> string;
  generateHookSuggestions : TalkConfig.t -> list string;
  contentSuggestions : Script.t -> TalkConfig.t -> list string;
  generateSlidesPrompt : TalkConfig.t -> TalkOutline.t -> string;
  createSlideDeckTemplate : Z -> TalkConfig.t -> TalkOutline.t -> SlideDeck.t;
  generateQAPrompt : TalkConfig.t -> TalkOutline.t -> string;
  generateTimingCues : TalkOutline.t -> string;
  formatQAAsMarkdown : QAPreparation.t -> string
}.
End Collaborators.

Module TalkPrepSkill.

(** A method call returns or throws; either way it leaves a state behind.
    The state is the field [state: WorkflowState | null]. *)
Inductive outcome (A : Type) :=
| Return (a : A)
| Throw (message : string).
Arguments Return {A} a.
Arguments Throw {A} message.

Definition method (A : Type) : Type :=
  option WorkflowState.t -> outcome A * option WorkflowState.t.

(** [if (!this.state) throw new Error('Session not initialized')]. *)
Definition withState {A : Type}
    (body : WorkflowState.t -> outcome A * option WorkflowState.t) : method A :=
  fun state =>
    match state with
    | Some st => body st
    | None => (Throw "Session not initialized", state)
    end.

(** [if (!this.state?.outline) throw new Error(message)]. *)
Definition withOutline {A : Type} (message : string)
    (body : WorkflowState.t -> TalkOutline.t -> outcome A * option WorkflowState.t)
  : method A :=
  fun state =>
    match state with
    | Some st =>
        match WorkflowState.outline st with
        | Some outline => body st outline
        | None => (Throw message, state)
        end
    | None => (Throw message, state)
    end.

(** Assignments to the fields of [this.state]. *)
Definition set_currentStep (step : WorkflowStep.t) (st : WorkflowState.t) : WorkflowState.t :=
  {| WorkflowState.currentStep := step;
     WorkflowState.completedSteps := WorkflowState.completedSteps st;
     WorkflowState.config := WorkflowState.config st;
     WorkflowState.research := WorkflowState.research st;
     WorkflowState.outline := WorkflowState.outline st;
     WorkflowState.script := WorkflowState.script st;
     WorkflowState.slides := WorkflowState.slides st;
     WorkflowState.qaPrep := WorkflowState.qaPrep st;
     WorkflowState.rehearsals := WorkflowState.rehearsals st |}.

Definition set_completedSteps (steps : list WorkflowStep.t) (st : WorkflowState.t)
  : WorkflowState.t :=
  {| WorkflowState.currentStep := WorkflowState.currentStep st;
     WorkflowState.completedSteps := steps;
     WorkflowState.config := WorkflowState.config st;
     WorkflowState.research := WorkflowState.research st;
     WorkflowState.outline := WorkflowState.outline st;
     WorkflowState.script := WorkflowState.script st;
     WorkflowState.slides := WorkflowState.slides st;
     WorkflowState.qaPrep := WorkflowState.qaPrep st;
     WorkflowState.rehearsals := WorkflowState.rehearsals st |}.

Definition set_research (research : ResearchResult.t) (st : WorkflowState.t)
  : WorkflowState.t :=
  {| WorkflowState.currentStep := WorkflowState.currentStep st;
     WorkflowState.completedSteps := WorkflowState.completedSteps st;
     WorkflowState.config := WorkflowState.config st;
     WorkflowState.research := Some research;
     WorkflowState.outline := WorkflowState.outline st;
     WorkflowState.script := WorkflowState.script st;
     WorkflowState.slides := WorkflowState.slides st;
     WorkflowState.qaPrep := WorkflowState.qaPrep st;
     WorkflowState.rehearsals := WorkflowState.rehearsals st |}.

Definition set_outline (outline : TalkOutline.t) (st : WorkflowState.t) : WorkflowState.t :=
  {| WorkflowState.currentStep := WorkflowState.currentStep st;
     WorkflowState.completedSteps := WorkflowState.completedSteps st;
     WorkflowState.config := WorkflowState.config st;
     WorkflowState.research := WorkflowState.research st;
     WorkflowState.outline := Some outline;
     WorkflowState.script := WorkflowState.script st;
     WorkflowState.slides := WorkflowState.slides st;
     WorkflowState.qaPrep := WorkflowState.qaPrep st;
     WorkflowState.rehearsals := WorkflowState.rehearsals st |}.

Definition set_script (script : Script.t) (st : WorkflowState.t) : WorkflowState.t :=
  {| WorkflowState.currentStep := WorkflowState.currentStep st;
     WorkflowState.completedSteps := WorkflowState.completedSteps st;
     WorkflowState.config := WorkflowState.config st;
     WorkflowState.research := WorkflowState.research st;
     WorkflowState.outline := WorkflowState.outline st;
     WorkflowState.script := Some script;
     WorkflowState.slides := WorkflowState.slides st;
     WorkflowState.qaPrep := WorkflowState.qaPrep st;
     WorkflowState.rehearsals := WorkflowState.rehearsals st |}.

Definition set_slides (slides : SlideDeck.t) (st : WorkflowState.t) : WorkflowState.t :=
  {| WorkflowState.currentStep := WorkflowState.currentStep st;
     WorkflowState.completedSteps := WorkflowState.completedSteps st;
     WorkflowState.config := WorkflowState.config st;
     WorkflowState.research := WorkflowState.research st;
     WorkflowState.outline := WorkflowState.outline st;
     WorkflowState.script := WorkflowState.script st;
     WorkflowState.slides := Some slides;
     WorkflowState.qaPrep := WorkflowState.qaPrep st;
     WorkflowState.rehearsals := WorkflowState.rehearsals st |}.

Definition set_qaPrep (qaPrep : QAPreparation.t) (st : WorkflowState.t) : WorkflowState.t :=
  {| WorkflowState.currentStep := WorkflowState.currentStep st;
     WorkflowState.completedSteps := WorkflowState.completedSteps st;
     WorkflowState.config := WorkflowState.config st;
     WorkflowState.research := WorkflowState.research st;
     WorkflowState.outline := WorkflowState.outline st;
     WorkflowState.script := WorkflowState.script st;
     WorkflowState.slides := WorkflowState.slides st;
     WorkflowState.qaPrep := Some qaPrep;
     WorkflowState.rehearsals := WorkflowState.rehearsals st |}.

Definition push_rehearsal (session : RehearsalSession.t) (st : WorkflowState.t)
  : WorkflowState.t :=
  {| WorkflowState.currentStep := WorkflowState.currentStep st;
     WorkflowState.completedSteps := WorkflowState.completedSteps st;
     WorkflowState.config := WorkflowState.config st;
     WorkflowState.research := WorkflowState.research st;
     WorkflowState.outline := WorkflowState.outline st;
     WorkflowState.script := WorkflowState.script st;
     WorkflowState.slides := WorkflowState.slides st;
     WorkflowState.qaPrep := WorkflowState.qaPrep st;
     WorkflowState.rehearsals := WorkflowState.rehearsals st ++ [session] |}.

(** Mark a step as complete. *)
Definition completeStep (step : WorkflowStep.t) (st : WorkflowState.t) : WorkflowState.t :=
  if existsb (WorkflowStep.eqb step) (WorkflowState.completedSteps st) then st
  else set_completedSteps (WorkflowState.completedSteps st ++ [step]) st.

Module InitializeResult.
Record t := {
  success : bool;
  error : option string;
  state : option WorkflowState.t
}.
End InitializeResult.

Module OutlineCheck.
Record t := { valid : bool; warnings : list string }.
End OutlineCheck.

Section Methods.
Variable env : Collaborators.t.

(** [TalkConfigSchema.safeParse]: the data, or the messages of the issues. *)
Definition safeParse (input : Raw.value) : list string + TalkConfig.t :=
  match TalkConfigSchema_data input with
  | Some data => inr data
  | None => inl (Collaborators.issueMessages env input)
  end.

(** Get the system prompt for this skill. *)
Definition getSystemPrompt : method string :=
  fun state => (Return (Collaborators.TALKPREP_SYSTEM_PROMPT env), state).

(** Initialize a new talk preparation session. *)
Definition initialize (configInput : Raw.value) : method InitializeResult.t :=
  fun state =>
    match safeParse configInput with
    | inl messages =>
        (Return {| InitializeResult.success := false;
                   InitializeResult.error :=
                     Some ("Invalid configuration: " ++ join ", " messages)%string;
                   InitializeResult.state := None |},
         state)
    | inr config =>
        let fresh :=
          {| WorkflowState.currentStep := WorkflowStep.ideation;
             WorkflowState.completedSteps := [];
             WorkflowState.config := config;
             WorkflowState.research := None;
             WorkflowState.outline := None;
             WorkflowState.script := None;
             WorkflowState.slides := None;
             WorkflowState.qaPrep := None;
             WorkflowState.rehearsals := [] |} in
        (Return {| InitializeResult.success := true;
                   InitializeResult.error := None;
                   InitializeResult.state := Some fresh |},
         Some fresh)
    end.

(** Get discovery questions to understand the user's needs. *)
Definition getDiscoveryQuestions : method (list string) :=
  fun state =>
    match state with
    | None => (Return [], state)
    | Some st => (Return (generateDiscoveryQuestions (WorkflowState.config st)), state)
    end.

(** Get topic refinement suggestions. *)
Definition getTopicSuggestions : method (list string) :=
  fun state =>
    match state with
    | None => (Return [], state)
    | Some st =>
        (Return (Collaborators.suggestTopicRefinements env
                   (TalkConfig.topic (WorkflowState.config st))
                   (TalkConfig.talkType (WorkflowState.config st))
                   (TalkConfig.duration (WorkflowState.config st))),
         state)
    end.

(** Generate ideation prompt. *)
Definition generateIdeationPrompt : method string :=
  withState (fun st =>
    (Return (Collaborators.generateIdeationPrompt env (WorkflowState.config st)), Some st)).

(** Set research results. *)
Definition setResearchResults (research : ResearchResult.t) : method unit :=
  withState (fun st =>
    let st := set_research research st in
    let st := completeStep WorkflowStep.ideation st in
    let st := set_currentStep WorkflowStep.outline st in
    (Return tt, Some st)).

(** Generate outline. *)
Definition generateOutline (keyConcepts : option (list string)) : method TalkOutline.t :=
  withState (fun st =>
    let template := getTemplate (TalkConfig.talkType (WorkflowState.config st)) in
    let outline :=
      generateOutlineFromTemplate template
        (TalkConfig.topic (WorkflowState.config st))
        (TalkConfig.duration (WorkflowState.config st)) in
    let learningObjectives :=
      match WorkflowState.research st, keyConcepts with
      | Some research, _ => firstn 3 (ResearchResult.keyConcepts research)
      | None, Some concepts => concepts
      | None, None => TalkOutline.learningObjectives outline
      end in
    let outline :=
      {| TalkOutline.title := TalkOutline.title outline;
         TalkOutline.subtitle := TalkOutline.subtitle outline;
         TalkOutline.totalDuration := TalkOutline.totalDuration outline;
         TalkOutline.sections := TalkOutline.sections outline;
         TalkOutline.learningObjectives := learningObjectives;
         TalkOutline.callToAction := TalkOutline.callToAction outline |} in
    (Return outline, Some (set_outline outline st))).

(** Get outline generation prompt. *)
Definition getOutlinePrompt (keyConcepts : list string) : method string :=
  withState (fun st =>
    (Return (Collaborators.generateOutlinePrompt env (WorkflowState.config st) keyConcepts),
     Some st)).

(** Set outline and validate it. *)
Definition setOutline (outline : TalkOutline.t) : method OutlineCheck.t :=
  withState (fun st =>
    let st := set_outline outline st in
    let validation := validateOutlineTiming outline in
    let suggestions := suggestOutlineImprovements outline in
    let st :=
      if OutlineTimingValidation.isValid validation then
        set_currentStep WorkflowStep.content (completeStep WorkflowStep.outline st)
      else st in
    (Return {| OutlineCheck.valid := OutlineTimingValidation.isValid validation;
               OutlineCheck.warnings :=
                 OutlineTimingValidation.warnings validation ++ suggestions |},
     Some st)).

(** Get outline as markdown. *)
Definition getOutlineMarkdown : method string :=
  withOutline "No outline available" (fun st outline =>
    (Return (Collaborators.formatOutlineAsMarkdown env outline), Some st)).

(** Generate content/script. *)
Definition generateScript : method Script.t :=
  withOutline "Outline required before generating script" (fun st outline =>
    let script := createScriptTemplate outline in
    (Return script, Some (set_script script st))).

(** Get script generation prompt. *)
Definition getScriptPrompt : method string :=
  withOutline "Outline required" (fun st outline =>
    (Return (Collaborators.generateScriptPrompt env (WorkflowState.config st) outline),
     Some st)).

(** Set script and validate. *)
Definition setScript (script : Script.t) : method ContentValidation.t :=
  withState (fun st =>
    let st := set_script script st in
    let validation :=
      validateContent (Collaborators.contentSuggestions env) script (WorkflowState.config st) in
    let st :=
      if ContentValidation.isValid validation then
        set_currentStep WorkflowStep.export (completeStep WorkflowStep.content st)
      else st in
    (Return validation, Some st)).

(** Get script as markdown. *)
Definition getScriptMarkdown : method string :=
  fun state =>
    match state with
    | Some st =>
        match WorkflowState.script st with
        | Some script => (Return (Collaborators.formatScriptAsMarkdown env script), state)
        | None => (Throw "No script available", state)
        end
    | None => (Throw "No script available", state)
    end.

(** Get hook suggestions. *)
Definition getHookSuggestions : method (list string) :=
  withState (fun st =>
    (Return (Collaborators.generateHookSuggestions env (WorkflowState.config st)), Some st)).

(** Generate slides; [now] is the reading of the clock. *)
Definition generateSlides (now : Z) : method SlideDeck.t :=
  withOutline "Outline required before generating slides" (fun st outline =>
    let slides :=
      Collaborators.createSlideDeckTemplate env now (WorkflowState.config st) outline in
    (Return slides, Some (set_slides slides st))).

(** Get slides generation prompt. *)
Definition getSlidesPrompt : method string :=
  withOutline "Outline required" (fun st outline =>
    (Return (Collaborators.generateSlidesPrompt env (WorkflowState.config st) outline),
     Some st)).

(** Set slides. *)
Definition setSlides (slides : SlideDeck.t) : method SlideDeckValidation.t :=
  withState (fun st =>
    let st := set_slides slides st in
    let validation := validateSlideDeck slides (WorkflowState.config st) in
    let st := completeStep WorkflowStep.export st in
    let st := set_currentStep WorkflowStep.rehearsal st in
    (Return validation, Some st)).

(** Export slides. *)
Definition exportSlides (options : ExportOptions.t) : method ExportResult.t :=
  fun state =>
    match state with
    | Some st =>
        match WorkflowState.slides st with
        | Some slides => (Return (exportSlideDeck slides options), state)
        | None => (Throw "No slides available", state)
        end
    | None => (Throw "No slides available", state)
    end.

(** Generate Q&A preparation. *)
Definition generateQAPrep : method QAPreparation.t :=
  withOutline "Outline required" (fun st outline =>
    let qaPrep := createQAPreparation (WorkflowState.config st) outline in
    (Return qaPrep, Some (set_qaPrep qaPrep st))).

(** Get Q&A prompt. *)
Definition getQAPrompt : method string :=
  withOutline "Outline required" (fun st outline =>
    (Return (Collaborators.generateQAPrompt env (WorkflowState.config st) outline),
     Some st)).

(** Get Q&A preparation as markdown. *)
Definition getQAMarkdown : method string :=
  fun state =>
    match state with
    | Some st =>
        match WorkflowState.qaPrep st with
        | Some qaPrep => (Return (Collaborators.formatQAAsMarkdown env qaPrep), state)
        | None => (Throw "No Q&A preparation available", state)
        end
    | None => (Throw "No Q&A preparation available", state)
    end.

(** Start a rehearsal session; [now] is the reading of the clock. *)
Definition startRehearsal (now : Z) : method string :=
  withOutline "Outline required" (fun st outline =>
    let session := createRehearsalSession now outline in
    let st := push_rehearsal session st in
    let st := completeStep WorkflowStep.rehearsal st in
    (Return (RehearsalSession.id session), Some st)).

(** Get timing cues for rehearsal. *)
Definition getTimingCues : method string :=
  withOutline "Outline required" (fun st outline =>
    (Return (Collaborators.generateTimingCues env outline), Some st)).

(** Get practice suggestions. *)
Definition getPracticeSuggestions : method (list string) :=
  withState (fun st =>
    (Return (generatePracticeSuggestions (WorkflowState.config st)), Some st)).

(** Get current workflow state. *)
Definition getState : method (option WorkflowState.t) :=
  fun state => (Return state, state).

(** Get current step. *)
Definition getCurrentStep : method (option WorkflowStep.t) :=
  fun state => (Return (option_map WorkflowState.currentStep state), state).

(** Check if a step is completed. *)
Definition isStepCompleted (step : WorkflowStep.t) : method bool :=
  fun state =>
    (Return match state with
            | Some st => existsb (WorkflowStep.eqb step) (WorkflowState.completedSteps st)
            | None => false
            end,
     state).

(** Get research guidance. *)
Definition getResearchGuidance (keyConcepts : list string) : method string :=
  withState (fun st =>
    (Return (Collaborators.generateResearchGuidance env
               (TalkConfig.topic (WorkflowState.config st))
               (TalkConfig.audience (WorkflowState.config st))
               keyConcepts),
     Some st)).

(** Get template for current talk type. *)
Definition getTemplate : method TalkTemplate.t :=
  withState (fun st =>
    (Return (getTemplate (TalkConfig.talkType (WorkflowState.config st))), Some st)).

(** ** Calls and their effect on the session *)

(** A call of a public method, with its arguments. *)
Inductive call :=
| GetSystemPrompt
| Initialize (configInput : Raw.value)
| GetDiscoveryQuestions
| GetTopicSuggestions
| GenerateIdeationPrompt
| SetResearchResults (research : ResearchResult.t)
| GenerateOutline (keyConcepts : option (list string))
| GetOutlinePrompt (keyConcepts : list string)
| SetOutline (outline : TalkOutline.t)
| GetOutlineMarkdown
| GenerateScript
| GetScriptPrompt
| SetScript (script : Script.t)
| GetScriptMarkdown
| GetHookSuggestions
| GenerateSlides (now : Z)
| GetSlidesPrompt
| SetSlides (slides : SlideDeck.t)
| ExportSlides (options : ExportOptions.t)
| GenerateQAPrep
| GetQAPrompt
| GetQAMarkdown
| StartRehearsal (now : Z)
| GetTimingCues
| GetPracticeSuggestions
| GetState
| GetCurrentStep
| IsStepCompleted (step : WorkflowStep.t)
| GetResearchGuidance (keyConcepts : list string)
| GetTemplate.

(** What is left of a call once its result is dropped: the message of
    the error thrown, if any, and the state afterwards. *)
Definition observe {A : Type} (r : outcome A * option WorkflowState.t)
  : option string * option WorkflowState.t :=
  match r with
  | (Return _, state) => (None, state)
  | (Throw message, state) => (Some message, state)
  end.

Definition perform (c : call) (state : option WorkflowState.t)
  : option string * option WorkflowState.t :=
  match c with
  | GetSystemPrompt => observe (getSystemPrompt state)
  | Initialize configInput => observe (initialize configInput state)
  | GetDiscoveryQuestions => observe (getDiscoveryQuestions state)
  | GetTopicSuggestions => observe (getTopicSuggestions state)
  | GenerateIdeationPrompt => observe (generateIdeationPrompt state)
  | SetResearchResults research => observe (setResearchResults research state)
  | GenerateOutline keyConcepts => observe (generateOutline keyConcepts state)
  | GetOutlinePrompt keyConcepts => observe (getOutlinePrompt keyConcepts state)
  | SetOutline outline => observe (setOutline outline state)
  | GetOutlineMarkdown => observe (getOutlineMarkdown state)
  | GenerateScript => observe (generateScript state)
  | GetScriptPrompt => observe (getScriptPrompt state)
  | SetScript script => observe (setScript script state)
  | GetScriptMarkdown => observe (getScriptMarkdown state)
  | GetHookSuggestions => observe (getHookSuggestions state)
  | GenerateSlides now => observe (generateSlides now state)
  | GetSlidesPrompt => observe (getSlidesPrompt state)
  | SetSlides slides => observe (setSlides slides state)
  | ExportSlides options => observe (exportSlides options state)
  | GenerateQAPrep => observe (generateQAPrep state)
  | GetQAPrompt => observe (getQAPrompt state)
  | GetQAMarkdown => observe (getQAMarkdown state)
  | StartRehearsal now => observe (startRehearsal now state)
  | GetTimingCues => observe (getTimingCues state)
  | GetPracticeSuggestions => observe (getPracticeSuggestions state)
  | GetState => observe (getState state)
  | GetCurrentStep => observe (getCurrentStep state)
  | IsStepCompleted step => observe (isStepCompleted step state)
  | GetResearchGuidance keyConcepts => observe (getResearchGuidance keyConcepts state)
  | GetTemplate => observe (getTemplate state)
  end.

(** The states a sequence of calls goes through, one per call. *)
Fixpoint run (calls : list call) (state : option WorkflowState.t)
  : list (option WorkflowState.t) :=
  match calls with
  | [] => []
  | c :: rest =>
      let state' := snd (perform c state) in
      state' :: run rest state'
  end.

End Methods.

(** Position of a step in [ideation -> outline -> content -> export -> rehearsal]. *)
Definition position (step : WorkflowStep.t) : nat :=
  match step with
  | WorkflowStep.ideation => 0
  | WorkflowStep.outline => 1
  | WorkflowStep.content => 2
  | WorkflowStep.export => 3
  | WorkflowStep.rehearsal => 4
  end.

End TalkPrepSkill.

(* ================================================================== *)
(** * Rehearsal feedback and timing cues ([modules/rehearsal.ts])       *)
(* ================================================================== *)

(** [Math.floor] and [Math.ceil]: NaN, infinities and zeros are returned
    unchanged; [Math.ceil] of a number in (-1, 0) is -0. *)
Definition Math_floor (x : number) : number :=
  match Prim2SF x with
  | S754_finite s m e =>
      if (0 <=? e)%Z then x
      else
        let v := if s then (- Zpos m)%Z else Zpos m in
        number_of_Z (v / 2 ^ (- e))%Z
  | _ => x
  end.

Definition Math_ceil (x : number) : number :=
  match Prim2SF x with
  | S754_finite s m e =>
      if (0 <=? e)%Z then x
      else
        let v := if s then (- Zpos m)%Z else Zpos m in
        let q := (- ((- v) / 2 ^ (- e)))%Z in
        if (q =? 0)%Z && s then PrimFloat.neg_zero else number_of_Z q
  | _ => x
  end.

(** [s.padStart(n, c)] for a one-character filler. *)
Fixpoint repeat_char (c : ascii) (n : nat) : string :=
  match n with
  | O => EmptyString
  | S n' => String c (repeat_char c n')
  end.

Definition padStart (n : nat) (c : ascii) (s : string) : string :=
  (repeat_char c (n - String_length s) ++ s)%string.

(** Formats minutes as MM:SS. *)
Definition formatTime (minutes : number) : string :=
  let mins := Math_floor minutes in
  let secs := Math_round ((minutes - mins) * 60)%float in
  (padStart 2 "0" (Number_toString mins) ++ ":" ++ padStart 2 "0" (Number_toString secs))%string.

(** The feedback on one section that has been timed. *)
Definition timedSectionFeedback (section : RehearsalSectionTiming.t) (actualDuration : number)
  : SectionFeedback.t :=
  let variance := (actualDuration - RehearsalSectionTiming.targetDuration section)%float in
  let variancePercent :=
    ((variance / RehearsalSectionTiming.targetDuration section) * 100)%float in
  if (15 <? variancePercent)%float then
    {| SectionFeedback.sectionId := RehearsalSectionTiming.sectionId section;
       SectionFeedback.timingStatus := SectionFeedback.too_slow;
       SectionFeedback.suggestions :=
         ["Consider cutting some content or speaking more concisely";
          "Identify non-essential points that could be shortened"] |}
  else if (variancePercent <? -15)%float then
    {| SectionFeedback.sectionId := RehearsalSectionTiming.sectionId section;
       SectionFeedback.timingStatus := SectionFeedback.too_fast;
       SectionFeedback.suggestions :=
         ["You might be rushing - add pauses for emphasis";
          "Consider adding more examples or elaboration"] |}
  else
    {| SectionFeedback.sectionId := RehearsalSectionTiming.sectionId section;
       SectionFeedback.timingStatus := SectionFeedback.on_track;
       SectionFeedback.suggestions := ["Good pacing - maintain this tempo"] |}.

Definition is_on_track (s : SectionFeedback.t) : bool :=
  match SectionFeedback.timingStatus s with
  | SectionFeedback.on_track => true
  | _ => false
  end.

(** Generates rehearsal feedback. The loop over the sections carries
    [totalActual] and [sectionFeedback]; the outline is not read. *)
Definition generateRehearsalFeedback (session : RehearsalSession.t) (outline : TalkOutline.t)
  : RehearsalFeedback.t :=
  let '(totalActual, sectionFeedback) :=
    fold_left
      (fun (acc : number * list SectionFeedback.t) section =>
         match RehearsalSectionTiming.actualDuration section with
         | Some actualDuration =>
             ((fst acc + actualDuration)%float,
              snd acc ++ [timedSectionFeedback section actualDuration])
         | None => acc
         end)
      (RehearsalSession.sections session) (0%float, []) in
  let targetTotal :=
    fold_left (fun sum s => (sum + RehearsalSectionTiming.targetDuration s)%float)
              (RehearsalSession.sections session) 0%float in
  let variance := (totalActual - targetTotal)%float in
  let calibrated := (Math_abs variance <? targetTotal * 0.1)%float in
  let long := (0 <? variance)%float in
  let onTrackSections := filter is_on_track sectionFeedback in
  let consistent :=
    (number_of_nat (List.length sectionFeedback) * 0.7
       <=? number_of_nat (List.length onTrackSections))%float in
  {| RehearsalFeedback.overallTiming :=
       {| RehearsalFeedback.target := targetTotal;
          RehearsalFeedback.actual := totalActual;
          RehearsalFeedback.variance := variance |};
     RehearsalFeedback.sectionFeedback := sectionFeedback;
     RehearsalFeedback.suggestions :=
       (if calibrated then []
        else if long then ["Practice the longest sections more to tighten delivery"]
        else ["Consider where you can elaborate or add stories"])
       ++ (if consistent then [] else ["Work on evening out your delivery speed"]);
     RehearsalFeedback.strengthAreas :=
       (if calibrated then ["Overall timing is well-calibrated"] else [])
       ++ (if consistent then ["Consistent pacing across sections"] else []);
     RehearsalFeedback.improvementAreas :=
       (if calibrated then []
        else if long then ["Talk is running long - identify sections to trim"]
        else ["Talk is running short - add depth or examples"])
       ++ (if consistent then [] else ["Pacing varies significantly between sections"]) |}.

(* ================================================================== *)
(** * Outline templates ([modules/outline.ts])                          *)
(* ================================================================== *)

(** Default time allocation percentages by section type. *)
Module TimeAllocation.
Record t := {
  intro : number;
  main : number;
  conclusion : number;
  qa : number
}.
End TimeAllocation.

(** [TIME_ALLOCATIONS[talkType] || TIME_ALLOCATIONS.default]: the table
    has entries for keynote, workshop and lightning_talk. *)
Definition TIME_ALLOCATIONS (talkType : TalkType.t) : TimeAllocation.t :=
  match talkType with
  | TalkType.keynote =>
      {| TimeAllocation.intro := 0.15%float; TimeAllocation.main := 0.6%float;
         TimeAllocation.conclusion := 0.15%float; TimeAllocation.qa := 0.1%float |}
  | TalkType.workshop =>
      {| TimeAllocation.intro := 0.1%float; TimeAllocation.main := 0.7%float;
         TimeAllocation.conclusion := 0.1%float; TimeAllocation.qa := 0.1%float |}
  | TalkType.lightning_talk =>
      {| TimeAllocation.intro := 0.1%float; TimeAllocation.main := 0.75%float;
         TimeAllocation.conclusion := 0.15%float; TimeAllocation.qa := 0%float |}
  | _ =>
      {| TimeAllocation.intro := 0.1%float; TimeAllocation.main := 0.65%float;
         TimeAllocation.conclusion := 0.1%float; TimeAllocation.qa := 0.15%float |}
  end.

(** Creates an outline template structure. *)
Definition createOutlineTemplate (config : TalkConfig.t) : TalkOutline.t :=
  let allocations := TIME_ALLOCATIONS (TalkConfig.talkType config) in
  let duration := TalkConfig.duration config in
  let sections :=
    [{| OutlineSection.id := "intro";
        OutlineSection.title := "Introduction";
        OutlineSection.duration :=
          Math_round (duration * TimeAllocation.intro allocations)%float;
        OutlineSection.order := 0;
        OutlineSection.type := OutlineSection.intro;
        OutlineSection.keyPoints :=
          ["Hook: Grab attention immediately";
           "Context: Why this matters";
           "Preview: What audience will learn"];
        OutlineSection.subsections := None;
        OutlineSection.notes := Some "Start strong. Make them curious." |};
     {| OutlineSection.id := "main-1";
        OutlineSection.title := "Main Section 1";
        OutlineSection.duration :=
          Math_round (duration * TimeAllocation.main allocations * 0.5)%float;
        OutlineSection.order := 1;
        OutlineSection.type := OutlineSection.main;
        OutlineSection.keyPoints := [];
        OutlineSection.subsections := Some [];
        OutlineSection.notes := Some "Core content begins here." |};
     {| OutlineSection.id := "main-2";
        OutlineSection.title := "Main Section 2";
        OutlineSection.duration :=
          Math_round (duration * TimeAllocation.main allocations * 0.5)%float;
        OutlineSection.order := 2;
        OutlineSection.type := OutlineSection.main;
        OutlineSection.keyPoints := [];
        OutlineSection.subsections := Some [];
        OutlineSection.notes := Some "Build on previous section." |};
     {| OutlineSection.id := "conclusion";
        OutlineSection.title := "Conclusion";
        OutlineSection.duration :=
          Math_round (duration * TimeAllocation.conclusion allocations)%float;
        OutlineSection.order := 3;
        OutlineSection.type := OutlineSection.conclusion;
        OutlineSection.keyPoints :=
          ["Summarize key takeaways";
           "Call to action";
           "Memorable closing statement"];
        OutlineSection.subsections := None;
        OutlineSection.notes := Some "End with impact. Leave them inspired." |}]
    ++ (if (0 <? TimeAllocation.qa allocations)%float then
          [{| OutlineSection.id := "qa";
              OutlineSection.title := "Q&A";
              OutlineSection.duration :=
                Math_round (duration * TimeAllocation.qa allocations)%float;
              OutlineSection.order := 4;
              OutlineSection.type := OutlineSection.qa;
              OutlineSection.keyPoints :=
                ["Prepare for common questions"; "Have backup topics ready"];
              OutlineSection.subsections := None;
              OutlineSection.notes := Some "Stay composed. Bridge to your key messages." |}]
        else []) in
  {| TalkOutline.title := TalkConfig.topic config;
     TalkOutline.subtitle := None;
     TalkOutline.totalDuration := TalkConfig.duration config;
     TalkOutline.sections := sections;
     TalkOutline.learningObjectives := [];
     TalkOutline.callToAction := None |}.

(* ================================================================== *)
(** * Slide deck templates ([modules/slides.ts])                        *)
(* ================================================================== *)

(** Default themes for different audience types. *)
Definition DEFAULT_THEMES (type : SlideTheme.type_t) : SlideTheme.t :=
  match type with
  | SlideTheme.tech =>
      {| SlideTheme.name := "Tech Modern"; SlideTheme.type := SlideTheme.tech;
         SlideTheme.primaryColor := Some "#2563eb";
         SlideTheme.secondaryColor := Some "#1e40af";
         SlideTheme.fontFamily := Some "JetBrains Mono, monospace" |}
  | SlideTheme.business =>
      {| SlideTheme.name := "Corporate Clean"; SlideTheme.type := SlideTheme.business;
         SlideTheme.primaryColor := Some "#1f2937";
         SlideTheme.secondaryColor := Some "#374151";
         SlideTheme.fontFamily := Some "Inter, sans-serif" |}
  | SlideTheme.academic =>
      {| SlideTheme.name := "Academic Classic"; SlideTheme.type := SlideTheme.academic;
         SlideTheme.primaryColor := Some "#7c3aed";
         SlideTheme.secondaryColor := Some "#5b21b6";
         SlideTheme.fontFamily := Some "Crimson Pro, serif" |}
  | SlideTheme.minimal =>
      {| SlideTheme.name := "Minimal Light"; SlideTheme.type := SlideTheme.minimal;
         SlideTheme.primaryColor := Some "#000000";
         SlideTheme.secondaryColor := Some "#6b7280";
         SlideTheme.fontFamily := Some "system-ui, sans-serif" |}
  | SlideTheme.creative =>
      {| SlideTheme.name := "Creative Bold"; SlideTheme.type := SlideTheme.creative;
         SlideTheme.primaryColor := Some "#ec4899";
         SlideTheme.secondaryColor := Some "#8b5cf6";
         SlideTheme.fontFamily := Some "Poppins, sans-serif" |}
  end.

(** Selects appropriate theme based on audience. *)
Definition selectThemeForAudience (audience : AudienceType.t) : SlideTheme.t :=
  DEFAULT_THEMES
    match audience with
    | AudienceType.technical => SlideTheme.tech
    | AudienceType.academic => SlideTheme.academic
    | AudienceType.business => SlideTheme.business
    | AudienceType.general => SlideTheme.minimal
    end.

(** [Partial<Slide> & { order: number }]. *)
Module SlideOptions.
Record t := {
  order : number;
  layout : option SlideLayout.t;
  title : option string;
  subtitle : option string;
  content : option string;
  bulletPoints : option (list string);
  imagePrompt : option string;
  code : option CodeExample.t;
  quote : option SlideQuote.t;
  speakerNotes : option string;
  duration : option number
}.

(** [{ order }], every other property absent. *)
Definition only (order : number) : t :=
  {| order := order; layout := None; title := None; subtitle := None; content := None;
     bulletPoints := None; imagePrompt := None; code := None; quote := None;
     speakerNotes := None; duration := None |}.
End SlideOptions.

(** Truthiness of a number: neither a zero nor NaN. *)
Definition Number_truthy (x : number) : bool :=
  match Prim2SF x with
  | S754_zero _ | S754_nan => false
  | _ => true
  end.

(** [a || b] on optional strings, the result optional again. *)
Definition or_option (a b : option string) : option string :=
  if truthy a then a else b.

(** Creates a single slide; [now] is the reading of the clock
    ([Date.now()]). *)
Definition createSlide (now : Z) (options : SlideOptions.t) : Slide.t :=
  {| Slide.id :=
       ("slide-" ++ Number_toString (SlideOptions.order options) ++ "-" ++ Z_to_string now)%string;
     Slide.order := SlideOptions.order options;
     Slide.layout :=
       match SlideOptions.layout options with
       | Some layout => layout
       | None => SlideLayout.content
       end;
     Slide.title := SlideOptions.title options;
     Slide.subtitle := SlideOptions.subtitle options;
     Slide.content := SlideOptions.content options;
     Slide.bulletPoints := SlideOptions.bulletPoints options;
     Slide.imagePrompt := SlideOptions.imagePrompt options;
     Slide.code := SlideOptions.code options;
     Slide.quote := SlideOptions.quote options;
     Slide.speakerNotes := or_else (SlideOptions.speakerNotes options) EmptyString;
     Slide.duration :=
       match SlideOptions.duration options with
       | Some duration => if Number_truthy duration then duration else 60%float
       | None => 60%float
       end |}.

(** Creates a code slide. *)
Definition createCodeSlide (now : Z) (order : number) (title : string) (code : CodeExample.t)
    (speakerNotes : string) : Slide.t :=
  createSlide now
    {| SlideOptions.order := order; SlideOptions.layout := Some SlideLayout.code;
       SlideOptions.title := Some title; SlideOptions.subtitle := None;
       SlideOptions.content := None; SlideOptions.bulletPoints := None;
       SlideOptions.imagePrompt := None; SlideOptions.code := Some code;
       SlideOptions.quote := None; SlideOptions.speakerNotes := Some speakerNotes;
       SlideOptions.duration := Some 90%float |}.

(** Creates a quote slide. *)
Definition createQuoteSlide (now : Z) (order : number) (quoteText attribution speakerNotes : string)
  : Slide.t :=
  createSlide now
    {| SlideOptions.order := order; SlideOptions.layout := Some SlideLayout.quote;
       SlideOptions.title := None; SlideOptions.subtitle := None;
       SlideOptions.content := None; SlideOptions.bulletPoints := None;
       SlideOptions.imagePrompt := None; SlideOptions.code := None;
       SlideOptions.quote :=
         Some {| SlideQuote.text := quoteText; SlideQuote.attribution := Some attribution |};
       SlideOptions.speakerNotes := Some speakerNotes;
       SlideOptions.duration := Some 45%float |}.

(** [l.slice(i, j)] for indices within the natural numbers. *)
Definition slice {A : Type} (i j : nat) (l : list A) : list A := firstn (j - i) (skipn i l).

(** The part of a date-time text before the first [T]
    ([s.split('T')[0]]). *)
Fixpoint before_T (s : string) : string :=
  match s with
  | EmptyString => EmptyString
  | String c s' => if (c =? "T")%char then EmptyString else String c (before_T s')
  end.

Section SlideDeckTemplate.

(** The clock: [clock k] is the reading at the [k]-th time it is read
    during a call (the first time is [k = 0]); [toISOString] is
    [Date.prototype.toISOString] on a time value. *)
Variable clock : nat -> Z.
Variable toISOString : Z -> string.

(** [slides.push(createSlide({ order: slideOrder++, ... }))]: the state
    is the array [slides] and the counter [slideOrder]; each slide made
    reads the clock once, so the counter is also the number of readings
    so far. *)
Definition pushSlide (st : list Slide.t * nat) (options : number -> SlideOptions.t)
  : list Slide.t * nat :=
  (fst st ++ [createSlide (clock (snd st)) (options (number_of_nat (snd st)))], S (snd st)).

(** The bullet slide for the key points [points] of [section]. *)
Definition bulletOptions (section : OutlineSection.t) (pointsPerSlide : nat)
    (points : list string) (order : number) : SlideOptions.t :=
  {| SlideOptions.order := order;
     SlideOptions.layout := Some SlideLayout.bullet_points;
     SlideOptions.title := Some (OutlineSection.title section);
     SlideOptions.subtitle := None;
     SlideOptions.content := None;
     SlideOptions.bulletPoints := Some points;
     SlideOptions.imagePrompt := None;
     SlideOptions.code := None;
     SlideOptions.quote := None;
     SlideOptions.speakerNotes := Some ("Cover these points: " ++ join "; " points)%string;
     SlideOptions.duration :=
       Some ((OutlineSection.duration section * 60)
             / Math_ceil (number_of_nat (List.length (OutlineSection.keyPoints section))
                          / number_of_nat pointsPerSlide))%float |}.

(** [for (let i = 0; i < section.keyPoints.length; i += pointsPerSlide)],
    entered at [i]; the loop runs at most [fuel] times, and it is
    started with the number of key points as fuel. *)
Fixpoint bulletLoop (fuel : nat) (section : OutlineSection.t) (pointsPerSlide i : nat)
    (st : list Slide.t * nat) : list Slide.t * nat :=
  match fuel with
  | O => st
  | S fuel' =>
      if (i <? List.length (OutlineSection.keyPoints section))%nat then
        let points := slice i (i + pointsPerSlide) (OutlineSection.keyPoints section) in
        bulletLoop fuel' section pointsPerSlide (i + pointsPerSlide)
                   (pushSlide st (bulletOptions section pointsPerSlide points))
      else st
  end.

(** The slides of one outline section: a header, then its key points. *)
Definition sectionSlides (st : list Slide.t * nat) (section : OutlineSection.t)
  : list Slide.t * nat :=
  let st :=
    pushSlide st (fun order =>
      {| SlideOptions.order := order;
         SlideOptions.layout := Some SlideLayout.section_header;
         SlideOptions.title := Some (OutlineSection.title section);
         SlideOptions.subtitle := None;
         SlideOptions.content := None;
         SlideOptions.bulletPoints := None;
         SlideOptions.imagePrompt := None;
         SlideOptions.code := None;
         SlideOptions.quote := None;
         SlideOptions.speakerNotes :=
           Some ("Transition to " ++ OutlineSection.title section ++ ". "
                 ++ or_else (OutlineSection.notes section) EmptyString)%string;
         SlideOptions.duration := Some 15%float |}) in
  if (0 <? List.length (OutlineSection.keyPoints section))%nat then
    let pointsPerSlide := Nat.min 4 (List.length (OutlineSection.keyPoints section)) in
    bulletLoop (List.length (OutlineSection.keyPoints section)) section pointsPerSlide 0 st
  else st.

(** Creates a slide deck template. *)
Definition createSlideDeckTemplate (config : TalkConfig.t) (outline : TalkOutline.t)
  : SlideDeck.t :=
  let st := ([], 0%nat) in
  let st :=
    pushSlide st (fun order =>
      {| SlideOptions.order := order;
         SlideOptions.layout := Some SlideLayout.title;
         SlideOptions.title := Some (TalkOutline.title outline);
         SlideOptions.subtitle :=
           or_option (TalkOutline.subtitle outline) (TalkConfig.speakerName config);
         SlideOptions.content := None;
         SlideOptions.bulletPoints := None;
         SlideOptions.imagePrompt := None;
         SlideOptions.code := None;
         SlideOptions.quote := None;
         SlideOptions.speakerNotes :=
           Some "Introduce yourself. Wait for audience attention before starting.";
         SlideOptions.duration := Some 30%float |}) in
  let st := fold_left sectionSlides (TalkOutline.sections outline) st in
  let st :=
    if some (fun s => OutlineSection.type_eqb (OutlineSection.type s) OutlineSection.qa)
            (TalkOutline.sections outline)
    then
      pushSlide st (fun order =>
        {| SlideOptions.order := order;
           SlideOptions.layout := Some SlideLayout.qa;
           SlideOptions.title := Some "Questions?";
           SlideOptions.subtitle := None;
           SlideOptions.content := None;
           SlideOptions.bulletPoints := None;
           SlideOptions.imagePrompt := None;
           SlideOptions.code := None;
           SlideOptions.quote := None;
           SlideOptions.speakerNotes :=
             Some "Open the floor for questions. Have backup topics ready.";
           SlideOptions.duration := Some 60%float |})
    else st in
  let st :=
    pushSlide st (fun order =>
      {| SlideOptions.order := order;
         SlideOptions.layout := Some SlideLayout.title;
         SlideOptions.title := Some "Thank You";
         SlideOptions.subtitle :=
           Some (or_else (TalkOutline.callToAction outline) "Questions and discussion welcome");
         SlideOptions.content := None;
         SlideOptions.bulletPoints := None;
         SlideOptions.imagePrompt := None;
         SlideOptions.code := None;
         SlideOptions.quote := None;
         SlideOptions.speakerNotes :=
           Some "Thank the audience. Remind them of the call to action.";
         SlideOptions.duration := Some 15%float |}) in
  let slides := fst st in
  let theme := selectThemeForAudience (TalkConfig.audience config) in
  {| SlideDeck.title := TalkOutline.title outline;
     SlideDeck.author := TalkConfig.speakerName config;
     SlideDeck.date := Some (before_T (toISOString (clock (snd st))));
     SlideDeck.theme := theme;
     SlideDeck.slides := slides;
     SlideDeck.metadata :=
       {| SlideMetadata.totalSlides := number_of_nat (List.length slides);
          SlideMetadata.estimatedDuration :=
            fold_left (fun sum s => (sum + Slide.duration s)%float) slides 0%float;
          SlideMetadata.generatedAt := toISOString (clock (S (snd st)));
          SlideMetadata.version := "1.0.0" |} |}.

End SlideDeckTemplate.

(* ================================================================== *)
(** * Reordering sections ([modules/outline.ts])                        *)
(* ================================================================== *)

From Stdlib Require Import Permutation.

(** [reorderSections] copies the array of sections but not the section
    objects in it, and then writes to those objects: the outline passed
    in and the outline returned share them. The section objects
    therefore live in a store, and an outline holds references. *)
Module Store.
Definition ref := nat.
Definition t := list OutlineSection.t.

Definition get (store : t) (r : ref) : option OutlineSection.t := nth_error store r.

(** Writes to the object behind [r]; a reference always has an object
    behind it, so nothing is said about a reference out of the store. *)
Fixpoint update (store : t) (r : ref) (f : OutlineSection.t -> OutlineSection.t) : t :=
  match store, r with
  | [], _ => []
  | s :: store', O => f s :: store'
  | s :: store', S r' => s :: update store' r' f
  end.
End Store.

(** A [TalkOutline] whose sections are references into the store. *)
Module SharedOutline.
Record t := {
  title : string;
  subtitle : option string;
  totalDuration : number;
  sections : list Store.ref;
  learningObjectives : list string;
  callToAction : option string
}.

(** The sections of the outline as a reader finds them in [store]. *)
Definition read (store : Store.t) (outline : t) : list (option OutlineSection.t) :=
  map (Store.get store) (sections outline).
End SharedOutline.

(** [section.order = index]. *)
Definition set_order (index : nat) (section : OutlineSection.t) : OutlineSection.t :=
  {| OutlineSection.id := OutlineSection.id section;
     OutlineSection.title := OutlineSection.title section;
     OutlineSection.duration := OutlineSection.duration section;
     OutlineSection.order := index;
     OutlineSection.type := OutlineSection.type section;
     OutlineSection.keyPoints := OutlineSection.keyPoints section;
     OutlineSection.subsections := OutlineSection.subsections section;
     OutlineSection.notes := OutlineSection.notes section |}.

(** [sections.forEach((section, index) => { section.order = index; })]
    from [index] on. An element of the array is a reference or
    [undefined]; writing to [undefined] is a TypeError, which ends the
    loop after the sections before it have been written. The boolean
    says whether the loop came to its end. *)
Fixpoint renumber (index : nat) (sections : list (option Store.ref)) (store : Store.t)
  : Store.t * bool :=
  match sections with
  | [] => (store, true)
  | Some r :: rest => renumber (S index) rest (Store.update store r (set_order index))
  | None :: _ => (store, false)
  end.

(** The references of an array without [undefined] elements. *)
Definition references (sections : list (option Store.ref)) : list Store.ref :=
  flat_map (fun element => match element with Some r => [r] | None => [] end) sections.

(** Reorders sections and updates order numbers. The indices are
    non-negative integers. [splice(fromIndex, 1)] removes the element at
    [fromIndex] if there is one, and [moved] is that element or
    [undefined]; [splice(toIndex, 0, moved)] inserts [moved] at
    [toIndex], or at the end if the array is shorter. The result is the
    store as the call leaves it, and the returned outline unless the call
    throws. *)
Definition reorderSections (store : Store.t) (outline : SharedOutline.t)
    (fromIndex toIndex : nat) : Store.t * option SharedOutline.t :=
  let sections := map Some (SharedOutline.sections outline) in
  let moved := nth fromIndex sections None in
  let sections := firstn fromIndex sections ++ skipn (S fromIndex) sections in
  let sections := firstn toIndex sections ++ [moved] ++ skipn toIndex sections in
  let (store, finished) := renumber 0 sections store in
  if finished then
    (store,
     Some {| SharedOutline.title := SharedOutline.title outline;
             SharedOutline.subtitle := SharedOutline.subtitle outline;
             SharedOutline.totalDuration := SharedOutline.totalDuration outline;
             SharedOutline.sections := references sections;
             SharedOutline.learningObjectives := SharedOutline.learningObjectives outline;
             SharedOutline.callToAction := SharedOutline.callToAction outline |})
  else (store, None).

(* ================================================================== *)
(** * Concrete inputs                                                   *)
(* ================================================================== *)

(** The data used to run the definitions on concrete inputs. *)
Module Sample.

Definition theme : SlideTheme.t :=
  {| SlideTheme.name := "Minimal Light";
     SlideTheme.type := SlideTheme.minimal;
     SlideTheme.primaryColor := Some "#000000";
     SlideTheme.secondaryColor := Some "#6b7280";
     SlideTheme.fontFamily := Some "system-ui, sans-serif" |}.

(** A deck without slides whose title is a script element. *)
Definition scriptDeck : SlideDeck.t :=
  {| SlideDeck.title := "<script>alert(1)</script>";
     SlideDeck.author := None;
     SlideDeck.date := None;
     SlideDeck.theme := theme;
     SlideDeck.slides := [];
     SlideDeck.metadata :=
       {| SlideMetadata.totalSlides := 0%float;
          SlideMetadata.estimatedDuration := 0%float;
          SlideMetadata.generatedAt := "2024-01-01T00:00:00.000Z";
          SlideMetadata.version := "1.0.0" |} |}.

(** A title slide carrying the same text, with a code example. *)
Definition scriptSlide : Slide.t :=
  {| Slide.id := "slide-0";
     Slide.order := 0%float;
     Slide.layout := SlideLayout.title;
     Slide.title := Some "<script>alert(1)</script>";
     Slide.subtitle := None;
     Slide.content := None;
     Slide.bulletPoints := None;
     Slide.imagePrompt := None;
     Slide.code :=
       Some {| CodeExample.language := "<b>";
               CodeExample.code := "a < b";
               CodeExample.explanation := EmptyString;
               CodeExample.highlightLines := None |};
     Slide.quote := None;
     Slide.speakerNotes := EmptyString;
     Slide.duration := 60%float |}.

Definition scriptSlides : SlideDeck.t :=
  {| SlideDeck.title := "Talk";
     SlideDeck.author := None;
     SlideDeck.date := None;
     SlideDeck.theme := theme;
     SlideDeck.slides := [scriptSlide];
     SlideDeck.metadata := SlideDeck.metadata scriptDeck |}.



Definition htmlOptions : ExportOptions.t :=
  {| ExportOptions.format := ExportFormat.html;
     ExportOptions.includeNotes := true;
     ExportOptions.includeTimings := true;
     ExportOptions.theme := None |}.

(** Collaborators that answer with empty texts and an empty deck. *)
Definition collaborators : Collaborators.t :=
  {| Collaborators.TALKPREP_SYSTEM_PROMPT := EmptyString;
     Collaborators.issueMessages := fun _ => [];
     Collaborators.generateIdeationPrompt := fun _ => EmptyString;
     Collaborators.generateResearchGuidance := fun _ _ _ => EmptyString;
     Collaborators.suggestTopicRefinements := fun _ _ _ => [];
     Collaborators.generateOutlinePrompt := fun _ _ => EmptyString;
     Collaborators.formatOutlineAsMarkdown := fun _ => EmptyString;
     Collaborators.generateScriptPrompt := fun _ _ => EmptyString;
     Collaborators.formatScriptAsMarkdown := fun _ => EmptyString;
     Collaborators.generateHookSuggestions := fun _ => [];
     Collaborators.contentSuggestions := fun _ _ => [];
     Collaborators.generateSlidesPrompt := fun _ _ => EmptyString;
     Collaborators.createSlideDeckTemplate := fun _ _ _ => scriptDeck;
     Collaborators.generateQAPrompt := fun _ _ => EmptyString;
     Collaborators.generateTimingCues := fun _ => EmptyString;
     Collaborators.formatQAAsMarkdown := fun _ => EmptyString |}.

(** [{ topic: 'Building APIs with GraphQL', talkType: 'keynote' }]. *)
Definition input : Raw.value :=
  Raw.object [("topic", Raw.str "Building APIs with GraphQL");
              ("talkType", Raw.str "keynote")].

Definition config : TalkConfig.t :=
  {| TalkConfig.topic := "Building APIs with GraphQL";
     TalkConfig.audience := AudienceType.general;
     TalkConfig.duration := 30%float;
     TalkConfig.expertiseLevel := ExpertiseLevel.intermediate;
     TalkConfig.talkType := TalkType.keynote;
     TalkConfig.tone := ToneType.conversational;
     TalkConfig.speakerName := None;
     TalkConfig.conferenceContext := None;
     TalkConfig.additionalNotes := None |}.

(** The session right after [initialize]. *)
Definition fresh : WorkflowState.t :=
  {| WorkflowState.currentStep := WorkflowStep.ideation;
     WorkflowState.completedSteps := [];
     WorkflowState.config := config;
     WorkflowState.research := None;
     WorkflowState.outline := None;
     WorkflowState.script := None;
     WorkflowState.slides := None;
     WorkflowState.qaPrep := None;
     WorkflowState.rehearsals := [] |}.

Definition research : ResearchResult.t :=
  {| ResearchResult.refinedTopic := "GraphQL in practice";
     ResearchResult.topicSuggestions := [];
     ResearchResult.keyConcepts := ["Schema design"; "Resolvers"];
     ResearchResult.sources := [];
     ResearchResult.potentialBiases := [];
     ResearchResult.audienceConsiderations := [] |}.

(** The outline [generateOutline] builds for [config]. *)
Definition outline : TalkOutline.t :=
  generateOutlineFromTemplate keynoteTemplate (TalkConfig.topic config)
                              (TalkConfig.duration config).

(** The session after [initialize] and [generateOutline]. *)
Definition outlined : WorkflowState.t := TalkPrepSkill.set_outline outline fresh.

(** A session that has reached the last step. *)
Definition rehearsing : WorkflowState.t :=
  {| WorkflowState.currentStep := WorkflowStep.rehearsal;
     WorkflowState.completedSteps :=
       [WorkflowStep.ideation; WorkflowStep.outline; WorkflowStep.content;
        WorkflowStep.export];
     WorkflowState.config := config;
     WorkflowState.research := Some research;
     WorkflowState.outline := Some outline;
     WorkflowState.script := None;
     WorkflowState.slides := Some scriptDeck;
     WorkflowState.qaPrep := None;
     WorkflowState.rehearsals := [] |}.

(** A script whose introduction and conclusion have 100 characters. *)
Definition hundred : string :=
  "0123456789012345678901234567890123456789012345678901234567890123456789012345678901234567890123456789".

Definition script : Script.t :=
  {| Script.title := "Building APIs with GraphQL";
     Script.introduction := hundred;
     Script.sections := [];
     Script.conclusion := hundred;
     Script.speakerNotes := [] |}.

(** What [initialize] returns for [input]. *)
Definition initialized : TalkPrepSkill.InitializeResult.t :=
  {| TalkPrepSkill.InitializeResult.success := true;
     TalkPrepSkill.InitializeResult.error := None;
     TalkPrepSkill.InitializeResult.state := Some fresh |}.

End Sample.

(** The sample outline with its sections in a store. *)
Module SharedSample.

Definition store : Store.t := TalkOutline.sections Sample.outline.

Definition outline : SharedOutline.t :=
  {| SharedOutline.title := TalkOutline.title Sample.outline;
     SharedOutline.subtitle := TalkOutline.subtitle Sample.outline;
     SharedOutline.totalDuration := TalkOutline.totalDuration Sample.outline;
     SharedOutline.sections := seq 0 (List.length store);
     SharedOutline.learningObjectives := TalkOutline.learningObjectives Sample.outline;
     SharedOutline.callToAction := TalkOutline.callToAction Sample.outline |}.

End SharedSample.
(* ================================================================== *)
(** * Properties of the templates and of the outline builder           *)
(* ================================================================== *)

Section MapiFacts.
Context {A B : Type} (f : A -> nat -> B).

Lemma mapi_from_length (l : list A) (i : nat) :
  List.length (mapi_from f i l) = List.length l.
Proof.
  revert i; induction l as [|x l IH]; intros i; simpl; [reflexivity|].
  now rewrite IH.
Qed.

Lemma mapi_from_nth_error (l : list A) (i k : nat) (x : A) :
  nth_error l k = Some x ->
  nth_error (mapi_from f i l) k = Some (f x (i + k)).
Proof.
  revert i k; induction l as [|y l IH]; intros i [|k] Hk; simpl in *;
    try discriminate.
  - inversion Hk; subst. now rewrite Nat.add_0_r.
  - rewrite (IH (S i) k Hk). f_equal. f_equal. lia.
Qed.

Lemma mapi_nth_error (l : list A) (k : nat) (x : A) :
  nth_error l k = Some x -> nth_error (mapi f l) k = Some (f x k).
Proof. intros H. unfold mapi. now rewrite (mapi_from_nth_error l 0 k x H). Qed.
End MapiFacts.

(** C5. For each of the five talk types, the duration percentages of the
    sections of [getTemplate talkType] add up to exactly 100. *)
Theorem template_percentages_sum_to_100 (talkType : TalkType.t) :
  totalPercent (getTemplate talkType) = 100%float.
Proof. destruct talkType; vm_compute; reflexivity. Qed.

(** C4. For every template, topic and integer duration [D] in [5,120],
    [generateOutlineFromTemplate] yields one section per template section;
    the [i]-th has duration [Math.round((durationPercent / 100) * D)], id
    [section-i], order [i], and the title, type, key points and notes of
    the [i]-th template section. *)
Theorem generateOutlineFromTemplate_sections
    (template : TalkTemplate.t) (topic : string) (D : Z) :
  (5 <= D <= 120)%Z ->
  let outline := generateOutlineFromTemplate template topic (number_of_Z D) in
  List.length (TalkOutline.sections outline) = List.length (TalkTemplate.structure template) /\
  forall (i : nat) (ts : TemplateSection.t),
    nth_error (TalkTemplate.structure template) i = Some ts ->
    exists s : OutlineSection.t,
      nth_error (TalkOutline.sections outline) i = Some s /\
      OutlineSection.duration s =
        Math_round ((TemplateSection.durationPercent ts / 100) * number_of_Z D)%float /\
      OutlineSection.id s = ("section-" ++ nat_to_string i)%string /\
      OutlineSection.order s = i /\
      OutlineSection.title s = TemplateSection.title ts /\
      OutlineSection.type s = TemplateSection.type ts /\
      OutlineSection.keyPoints s = TemplateSection.keyPointPrompts ts /\
      OutlineSection.notes s = Some (TemplateSection.notes ts).
Proof.
  intros _ outline. split.
  - apply mapi_from_length.
  - intros i ts Hi. eexists. split.
    + unfold outline, generateOutlineFromTemplate; simpl.
      apply mapi_nth_error, Hi.
    + simpl. repeat split; reflexivity.
Qed.

Lemma generateOutlineFromTemplate_sections_witness :
  (5 <= 30 <= 120)%Z /\
  List.length (TalkOutline.sections
            (generateOutlineFromTemplate technicalDeepDiveTemplate "Building APIs" (number_of_Z 30)))
  = 6%nat.
Proof.
  split; [lia|].
  exact (proj1 (generateOutlineFromTemplate_sections
                  technicalDeepDiveTemplate "Building APIs" 30 ltac:(lia))).
Defined.

(** The integer a number stands for, when it is one (0 otherwise). *)
Definition integer_of (x : number) : Z :=
  match Prim2SF x with
  | S754_finite s m e =>
      let v := if s then (- Zpos m)%Z else Zpos m in
      if (0 <=? e)%Z then (v * 2 ^ e)%Z else (v / 2 ^ (- e))%Z
  | _ => 0%Z
  end.

(** The durations of the outline built from [template] for [D] minutes,
    and what rounding [percent * D / 100] half up in exact arithmetic
    gives for them. *)
Definition outlineDurations (template : TalkTemplate.t) (D : Z) : list number :=
  map OutlineSection.duration
      (TalkOutline.sections (generateOutlineFromTemplate template EmptyString (number_of_Z D))).

Definition exactDurations (template : TalkTemplate.t) (D : Z) : list number :=
  map (fun ts =>
         number_of_Z ((integer_of (TemplateSection.durationPercent ts) * D + 50) / 100))
      (TalkTemplate.structure template).

(** The percentages of the five templates are integers. *)
Lemma template_percentages_integers (talkType : TalkType.t) :
  map (fun ts => number_of_Z (integer_of (TemplateSection.durationPercent ts)))
      (TalkTemplate.structure (getTemplate talkType))
  = map TemplateSection.durationPercent (TalkTemplate.structure (getTemplate talkType)).
Proof. destruct talkType; vm_compute; reflexivity. Qed.

(** The integer durations the configuration schema lets through. *)
Definition schemaDurations : list Z := map (fun k => (5 + Z.of_nat k)%Z) (seq 0 116).

Lemma schemaDurations_range (D : Z) : (5 <= D <= 120)%Z -> In D schemaDurations.
Proof.
  intros HD. apply in_map_iff. exists (Z.to_nat (D - 5)). split; [lia|].
  apply in_seq. lia.
Qed.

(** For the five templates of the repository and the durations the
    configuration schema admits, the floating-point computation of a
    section duration agrees with rounding [percent * D / 100] half up
    in exact arithmetic. *)
Lemma shipped_durations_exact (talkType : TalkType.t) (D : Z) :
  (5 <= D <= 120)%Z ->
  outlineDurations (getTemplate talkType) D = exactDurations (getTemplate talkType) D.
Proof.
  intros HD. apply schemaDurations_range in HD. revert D HD.
  apply ext_in_map.
  destruct talkType; vm_compute; reflexivity.
Qed.

(** With a percentage outside the templates the two can differ: 29% of
    50 minutes is 14.5 exactly, yet the product of the doubles lies
    just below it and [Math.round] gives 14. *)
Example rounding_of_29_percent :
  Math_round ((29 / 100) * number_of_Z 50)%float = 14%float /\
  number_of_Z ((29 * 50 + 50) / 100) = 15%float.
Proof. vm_compute. split; reflexivity. Qed.

(** Sample values of [Number::toString]. *)
Example Number_toString_samples :
  map Number_toString
      [0.5; 1.5; 100; 0.000001; 1e21; 5e-324; 1.7976931348623157e308;
       -7.5; -0; 0.30000000000000004; 123456789012345680000]%float
  = ["0.5"; "1.5"; "100"; "0.000001"; "1e+21"; "5e-324";
     "1.7976931348623157e+308"; "-7.5"; "0"; "0.30000000000000004";
     "123456789012345680000"].
Proof. vm_compute. reflexivity. Qed.

Example Math_round_samples :
  map Math_round [2.5; -2.5; 0.49999999999999994; -0.2; 14.499999999999998]%float
  = [3; -2; 0; -0; 14]%float.
Proof. vm_compute. reflexivity. Qed.

(** Lengths in UTF-16 code units: ASCII, a two-byte letter, two
    three-byte characters, and a four-byte character (a surrogate
    pair). *)
Example String_length_samples :
  map String_length ["abc"; "é"; "日本"; "😀"; ""] = [3; 1; 2; 2; 0]%nat.
Proof. vm_compute. reflexivity. Qed.

(* ================================================================== *)
(** * Properties of the rehearsal module                                *)
(* ================================================================== *)

Lemma mapi_from_app {A B : Type} (f : A -> nat -> B) (l1 l2 : list A) (i : nat) :
  mapi_from f i (l1 ++ l2)
  = mapi_from f i l1 ++ mapi_from f (i + List.length l1) l2.
Proof.
  revert i; induction l1 as [|x l1 IH]; intros i; simpl.
  - now rewrite Nat.add_0_r.
  - rewrite IH. do 3 f_equal. lia.
Qed.

Lemma mapi_from_map {A B C : Type} (f : A -> nat -> B) (g : B -> C) (l : list A) (i : nat) :
  map g (mapi_from f i l) = mapi_from (fun x k => g (f x k)) i l.
Proof.
  revert i; induction l as [|x l IH]; intros i; simpl; [reflexivity|].
  now rewrite IH.
Qed.

Lemma mapi_from_const {A B : Type} (g : A -> B) (l : list A) (i : nat) :
  mapi_from (fun x _ => g x) i l = map g l.
Proof.
  revert i; induction l as [|x l IH]; intros i; simpl; [reflexivity|].
  now rewrite IH.
Qed.

Lemma mapi_from_ext {A B : Type} (f g : A -> nat -> B) (l : list A) (i : nat) :
  (forall x k, f x k = g x k) -> mapi_from f i l = mapi_from g i l.
Proof.
  intros E. revert i; induction l as [|x l IH]; intros i; simpl; [reflexivity|].
  now rewrite E, IH.
Qed.

Lemma with_id_of_pair (q : QAPairBody.t) (id : string) :
  QAPairBody.of_pair (QAPairBody.with_id q id) = q.
Proof. now destruct q. Qed.

(** The identifier given to the question pushed when the counter is [n]. *)
Definition numbered (q : QAPairBody.t) (n : nat) : QAPair.t :=
  QAPairBody.with_id q ("q-" ++ nat_to_string n)%string.

Lemma fold_push_question (qs : list QAPairBody.t) (acc : list QAPair.t) (n : nat) :
  fold_left push_question qs (acc, n)
  = (acc ++ mapi_from numbered n qs, n + List.length qs).
Proof.
  revert acc n; induction qs as [|q qs IH]; intros acc n; simpl.
  - now rewrite app_nil_r, Nat.add_0_r.
  - rewrite IH. rewrite <- app_assoc. simpl. f_equal. lia.
Qed.

(** The sections that get a question of their own: [main] sections with
    at least one key point. *)
Definition asksAbout (section : OutlineSection.t) : bool :=
  OutlineSection.type_eqb (OutlineSection.type section) OutlineSection.main
  && (0 <? List.length (OutlineSection.keyPoints section))%nat.

Definition firstKeyPoint (section : OutlineSection.t) : string :=
  hd EmptyString (OutlineSection.keyPoints section).

Lemma push_section_question_eq (st : list QAPair.t * nat) (s : OutlineSection.t) :
  push_section_question st s
  = fold_left push_question
      (if asksAbout s then [sectionQuestion (firstKeyPoint s)] else []) st.
Proof.
  unfold push_section_question, asksAbout, firstKeyPoint.
  destruct (OutlineSection.type s), (OutlineSection.keyPoints s); reflexivity.
Qed.

Lemma fold_push_section_question
    (secs : list OutlineSection.t) (st : list QAPair.t * nat) :
  fold_left push_section_question secs st
  = fold_left push_question
      (map (fun s => sectionQuestion (firstKeyPoint s)) (filter asksAbout secs)) st.
Proof.
  revert st; induction secs as [|s secs IH]; intros st; [reflexivity|].
  cbn [fold_left filter]. rewrite push_section_question_eq.
  destruct (asksAbout s); cbn [map fold_left]; apply IH.
Qed.

Lemma generateAnticipatedQuestions_eq (config : TalkConfig.t) (outline : TalkOutline.t) :
  generateAnticipatedQuestions config outline
  = mapi_from numbered 1
      (genericQuestions
       ++ audienceQuestions (TalkConfig.audience config)
       ++ map (fun s => sectionQuestion (firstKeyPoint s))
              (filter asksAbout (TalkOutline.sections outline))).
Proof.
  unfold generateAnticipatedQuestions.
  rewrite fold_push_section_question, !fold_push_question. cbn [fst app].
  rewrite !mapi_from_app, app_assoc. reflexivity.
Qed.

(** C8. The anticipated questions are the 5 generic questions, then the 2
    questions of the configured audience, then, for each [main] section
    with a key point, in outline order, the question
    [Can you tell us more about "<first key point>"?] (category
    expansion, difficulty medium, with its suggested answer and pitfall);
    the [i]-th question (from 0) has id [q-(i+1)]; and the redirect
    strategies are a fixed list of 6 entries. *)
Theorem createQAPreparation_questions (config : TalkConfig.t) (outline : TalkOutline.t) :
  let qa := createQAPreparation config outline in
  let generic := genericQuestions in
  let specific := audienceQuestions (TalkConfig.audience config) in
  let perSection :=
    map (fun s =>
           {| QAPairBody.question :=
                ("Can you tell us more about " ++ dq ++ firstKeyPoint s ++ dq ++ "?")%string;
              QAPairBody.category := QAPair.expansion;
              QAPairBody.difficulty := QAPair.medium;
              QAPairBody.suggestedAnswer :=
                ("Expand with additional details, examples, or context about "
                 ++ firstKeyPoint s ++ ".")%string;
              QAPairBody.followUpQuestions := None;
              QAPairBody.pitfalls := Some ["Don't just repeat what you said"] |})
        (filter asksAbout (TalkOutline.sections outline)) in
  map QAPairBody.of_pair (QAPreparation.anticipatedQuestions qa)
    = generic ++ specific ++ perSection /\
  List.length generic = 5%nat /\
  List.length specific = 2%nat /\
  (forall (i : nat) (q : QAPair.t),
      nth_error (QAPreparation.anticipatedQuestions qa) i = Some q ->
      QAPair.id q = ("q-" ++ nat_to_string (S i))%string) /\
  QAPreparation.redirectStrategies qa = generateRedirectStrategies /\
  List.length generateRedirectStrategies = 6%nat.
Proof.
  intros qa generic specific perSection.
  assert (E : QAPreparation.anticipatedQuestions qa
              = mapi_from numbered 1 (generic ++ specific ++ perSection))
    by apply generateAnticipatedQuestions_eq.
  repeat split.
  - rewrite E, mapi_from_map.
    rewrite (mapi_from_ext _ (fun (b : QAPairBody.t) (_ : nat) => b)).
    + rewrite mapi_from_const. apply map_id.
    + intros b k. apply with_id_of_pair.
  - unfold specific. now destruct (TalkConfig.audience config).
  - intros i q Hq. rewrite E in Hq.
    destruct (nth_error (generic ++ specific ++ perSection) i) as [b|] eqn:Hb.
    + rewrite (mapi_from_nth_error numbered _ 1 i b Hb) in Hq.
      inversion Hq; subst. reflexivity.
    + apply nth_error_None in Hb.
      assert (Hlen : (i < List.length (mapi_from numbered 1 (generic ++ specific ++ perSection)))%nat)
        by (apply nth_error_Some; congruence).
      rewrite mapi_from_length in Hlen. lia.
Qed.

(** The redirect strategies do not depend on the inputs. *)
Lemma redirectStrategies_constant
    (config config' : TalkConfig.t) (outline outline' : TalkOutline.t) :
  QAPreparation.redirectStrategies (createQAPreparation config outline)
  = QAPreparation.redirectStrategies (createQAPreparation config' outline').
Proof. reflexivity. Qed.

Lemma sectionQuestion_text (point : string) :
  QAPairBody.question (sectionQuestion point)
  = ("Can you tell us more about " ++ dq ++ point ++ dq ++ "?")%string.
Proof. reflexivity. Qed.

(** C6. [updateSectionTiming] returns a session with the same number of
    timing records; a record whose [sectionId] is the given id gets the
    given actual duration and status [completed] and keeps its other
    fields, every other record is unchanged; the session's other fields
    are unchanged; and when no record has the id, the list of records is
    the input's. *)
Theorem updateSectionTiming_frame
    (session : RehearsalSession.t) (sectionId : string) (actualDuration : number) :
  let session' := updateSectionTiming session sectionId actualDuration in
  List.length (RehearsalSession.sections session')
    = List.length (RehearsalSession.sections session) /\
  (forall (i : nat) (s : RehearsalSectionTiming.t),
      nth_error (RehearsalSession.sections session) i = Some s ->
      exists s' : RehearsalSectionTiming.t,
        nth_error (RehearsalSession.sections session') i = Some s' /\
        (RehearsalSectionTiming.sectionId s = sectionId ->
           RehearsalSectionTiming.actualDuration s' = Some actualDuration /\
           RehearsalSectionTiming.status s' = RehearsalSectionTiming.completed /\
           RehearsalSectionTiming.sectionId s' = RehearsalSectionTiming.sectionId s /\
           RehearsalSectionTiming.targetDuration s'
             = RehearsalSectionTiming.targetDuration s) /\
        (RehearsalSectionTiming.sectionId s <> sectionId -> s' = s)) /\
  RehearsalSession.id session' = RehearsalSession.id session /\
  RehearsalSession.startTime session' = RehearsalSession.startTime session /\
  RehearsalSession.endTime session' = RehearsalSession.endTime session /\
  RehearsalSession.feedback session' = RehearsalSession.feedback session /\
  ((forall s, In s (RehearsalSession.sections session) ->
              RehearsalSectionTiming.sectionId s <> sectionId) ->
   RehearsalSession.sections session' = RehearsalSession.sections session).
Proof.
  intros session'. cbn [session' updateSectionTiming RehearsalSession.sections
    RehearsalSession.id RehearsalSession.startTime RehearsalSession.endTime
    RehearsalSession.feedback].
  split; [apply length_map|].
  split.
  - intros i s Hi. eexists. split.
    + apply map_nth_error, Hi.
    + destruct (String.eqb_spec (RehearsalSectionTiming.sectionId s) sectionId) as [E|N];
        split; intros H; try contradiction; auto.
  - repeat split.
    intros Hno. rewrite <- (map_id (RehearsalSession.sections session)) at 2.
    apply map_ext_in. intros s Hs.
    destruct (String.eqb_spec (RehearsalSectionTiming.sectionId s) sectionId) as [E|N];
      [exfalso; exact (Hno s Hs E) | reflexivity].
Qed.

(* ================================================================== *)
(** * The JSON printer and parser agree                                 *)
(* ================================================================== *)

Module JSONFacts.
Import JSON.
Local Open Scope string_scope.

(** ** Strings *)

Lemma append_assoc (a b c : string) : (a ++ b) ++ c = a ++ (b ++ c).
Proof. induction a as [|x a IH]; simpl; [reflexivity | now rewrite IH]. Qed.

Lemma append_nil_r (a : string) : a ++ EmptyString = a.
Proof. induction a as [|x a IH]; simpl; [reflexivity | now rewrite IH]. Qed.

Lemma length_append (a b : string) :
  String.length (a ++ b) = (String.length a + String.length b)%nat.
Proof. induction a as [|x a IH]; simpl; [reflexivity | now rewrite IH]. Qed.

(** ** Digits *)

(** What may follow a number in a text: nothing, or a character that
    cannot continue it. *)
Definition delimited (rest : string) : bool :=
  match rest with
  | EmptyString => true
  | String c _ =>
      match digit_of_char c with
      | Some _ => false
      | None => negb ((c =? ".") || (c =? "e") || (c =? "E"))%char
      end
  end.

Definition no_digit_ahead (rest : string) : bool :=
  match rest with
  | EmptyString => true
  | String c _ =>
      match digit_of_char c with
      | Some _ => false
      | None => true
      end
  end.

Lemma take_digits_none (rest : string) :
  no_digit_ahead rest = true -> take_digits rest = (Nil, rest).
Proof.
  destruct rest as [|c r]; simpl; [reflexivity|].
  destruct (digit_of_char c); [discriminate | reflexivity].
Qed.

Lemma take_digits_print (u : uint) (rest : string) :
  no_digit_ahead rest = true ->
  take_digits (NilEmpty.string_of_uint u ++ rest) = (u, rest).
Proof.
  intros H. induction u as [|u IH|u IH|u IH|u IH|u IH|u IH|u IH|u IH|u IH|u IH];
    simpl; try (rewrite IH; reflexivity).
  now apply take_digits_none.
Qed.

Lemma delimited_no_digit (rest : string) :
  delimited rest = true -> no_digit_ahead rest = true.
Proof.
  destruct rest as [|c r]; simpl; [reflexivity|].
  now destruct (digit_of_char c).
Qed.

Lemma unorm_valid_int (u : uint) : unorm u = u -> valid_int u = true.
Proof.
  destruct u as [|u|u|u|u|u|u|u|u|u|u]; try reflexivity.
  - discriminate.
  - intros H. rewrite DecimalFacts.unorm_D0 in H.
    destruct u; try reflexivity;
      match type of H with
      | unorm ?x = _ =>
          assert (L : (nb_digits (unorm x) <= nb_digits x)%nat)
            by (apply DecimalFacts.nb_digits_unorm; discriminate)
      end;
      rewrite H in L; simpl in L; lia.
Qed.

Lemma valid_int_of_N (n : N) : valid_int (N.to_uint n) = true.
Proof.
  apply unorm_valid_int.
  rewrite <- (DecimalN.Unsigned.of_to n) at 2.
  symmetry. apply DecimalN.Unsigned.to_of.
Qed.

Lemma valid_int_of_nat (n : nat) : valid_int (Nat.to_uint n) = true.
Proof.
  apply unorm_valid_int.
  rewrite <- (DecimalNat.Unsigned.of_to n) at 2.
  symmetry. apply DecimalNat.Unsigned.to_of.
Qed.

(** ** Numbers *)

Lemma number_starts (l : literal) (rest : string) :
  valid_int (lit_int l) = true ->
  exists c r, print_literal l ++ rest = String c r /\
              (c = "-"%char \/ exists d, digit_of_char c = Some d).
Proof.
  intros H. unfold print_literal.
  destruct (lit_neg l).
  - simpl. do 2 eexists. split; [reflexivity | now left].
  - destruct (lit_int l); try discriminate H; simpl;
      do 2 eexists; (split; [reflexivity | right; eexists; reflexivity]).
Qed.

Lemma parse_fraction_print (f : uint) (rest : string) :
  no_digit_ahead rest = true ->
  match rest with String "." _ => False | _ => True end ->
  parse_fraction (print_fraction f ++ rest) = Some (f, rest).
Proof.
  intros Hd Hp. unfold print_fraction.
  assert (E : forall x : string,
             parse_fraction (("." ++ x) ++ rest)
             = let '(f, r') := take_digits (x ++ rest) in
               if is_nil f then None else Some (f, r')) by reflexivity.
  destruct f as [|u|u|u|u|u|u|u|u|u|u];
    try (rewrite E, take_digits_print by assumption; reflexivity).
  simpl. destruct rest as [|c r]; [reflexivity|].
  destruct c as [[] [] [] [] [] [] [] []]; try reflexivity; contradiction.
Qed.

Lemma is_nil_valid (u : uint) : valid_int u = true -> is_nil u = false.
Proof. now destruct u. Qed.

Lemma parse_exponent_digits_print (negative : bool) (n : N) (rest : string) :
  no_digit_ahead rest = true ->
  parse_exponent_digits negative (NilEmpty.string_of_uint (N.to_uint n) ++ rest)
  = Some (Some (if negative then (- Z.of_N n)%Z else Z.of_N n), rest).
Proof.
  intros H. unfold parse_exponent_digits.
  rewrite take_digits_print by assumption.
  rewrite (is_nil_valid _ (valid_int_of_N n)).
  now rewrite DecimalN.Unsigned.of_to.
Qed.

Lemma parse_exponent_print (e : option Z) (rest : string) :
  delimited rest = true ->
  parse_exponent (print_exponent e ++ rest) = Some (e, rest).
Proof.
  intros H. unfold print_exponent. destruct e as [z|].
  - unfold Z_to_uint.
    destruct (z <? 0)%Z eqn:Hz; cbn [append parse_exponent Ascii.eqb Bool.eqb orb];
      rewrite parse_exponent_digits_print by (now apply delimited_no_digit);
      rewrite Z2N.id by lia; do 3 f_equal.
    + apply Z.ltb_lt in Hz. lia.
    + apply Z.ltb_ge in Hz. lia.
  - simpl. destruct rest as [|c r]; [reflexivity|].
    destruct c as [[] [] [] [] [] [] [] []]; try reflexivity; discriminate H.
Qed.

Lemma parse_number_print (l : literal) (rest : string) :
  valid_int (lit_int l) = true ->
  delimited rest = true ->
  parse_number (print_literal l ++ rest) = Some (l, rest).
Proof.
  intros Hv Hd. destruct l as [neg ip f e]. cbn [lit_int] in Hv.
  unfold print_literal. cbn [lit_neg lit_int lit_frac lit_exp].
  set (fs := print_fraction f). set (es := print_exponent e).
  assert (Hes : no_digit_ahead (es ++ rest) = true /\
                match es ++ rest with String "." _ => False | _ => True end).
  { subst es. destruct e as [z|].
    - split; reflexivity || exact I.
    - simpl. split; [now apply delimited_no_digit|].
      destruct rest as [|c r]; [exact I|].
      destruct c as [[] [] [] [] [] [] [] []]; try exact I; discriminate Hd. }
  destruct Hes as [Hes1 Hes2].
  assert (Hfs : no_digit_ahead (fs ++ es ++ rest) = true).
  { subst fs. destruct f; try reflexivity. exact Hes1. }
  assert (Hbody : forall sign : bool,
             (let '(ip', s2) := take_digits (NilEmpty.string_of_uint ip ++ fs ++ es ++ rest) in
              if valid_int ip' then
                match parse_fraction s2 with
                | Some (f', s3) =>
                    match parse_exponent s3 with
                    | Some (e', s4) =>
                        Some ({| lit_neg := sign; lit_int := ip'; lit_frac := f';
                                 lit_exp := e' |}, s4)
                    | None => None
                    end
                | None => None
                end
              else None)
             = Some ({| lit_neg := sign; lit_int := ip; lit_frac := f; lit_exp := e |}, rest)).
  { intros sign. rewrite take_digits_print by assumption. rewrite Hv.
    subst fs. rewrite parse_fraction_print by assumption.
    subst es. rewrite parse_exponent_print by assumption. reflexivity. }
  rewrite !append_assoc.
  destruct neg.
  - exact (Hbody true).
  - cbn [append]. rewrite <- (Hbody false).
    destruct ip; try discriminate Hv; reflexivity.
Qed.

(** ** Strings of a JSON text *)

Lemma parse_chars_quote_char (c : ascii) (tail : string) :
  parse_chars (quote_char c ++ tail)
  = match parse_chars tail with
    | Some (str, r) => Some (String c str, r)
    | None => None
    end.
Proof.
  destruct c as [[] [] [] [] [] [] [] []]; simpl;
    destruct (parse_chars tail) as [[str r]|]; reflexivity.
Qed.

Lemma parse_chars_quote (s rest : string) :
  parse_chars (quote_chars s ++ rest) = Some (s, rest).
Proof.
  induction s as [|c s IH]; [reflexivity|].
  cbn [quote_chars]. rewrite append_assoc, parse_chars_quote_char, IH.
  reflexivity.
Qed.

(** ** White space *)

Lemma skip_ws_indent (d : nat) (s : string) : skip_ws (indent d ++ s) = skip_ws s.
Proof. induction d as [|d IH]; [reflexivity | exact IH]. Qed.

Lemma skip_ws_idem (s : string) : skip_ws (skip_ws s) = skip_ws s.
Proof.
  induction s as [|c s IH]; [reflexivity|]. simpl.
  destruct (is_ws c) eqn:E; [exact IH|]. simpl. now rewrite E.
Qed.

Lemma separator_break (d : nat) (s : string) :
  separator (nl ++ indent d ++ s) = separator s.
Proof. unfold separator. cbn. now rewrite skip_ws_indent. Qed.

Lemma separator_space (s : string) : separator (String " " s) = separator s.
Proof. reflexivity. Qed.

Lemma parse_value_separator (fuel : nat) (s1 s2 : string) :
  separator s1 = separator s2 -> parse_value fuel s1 = parse_value fuel s2.
Proof. intros H. destruct fuel; [reflexivity|]. cbn [parse_value]. now rewrite H. Qed.

Lemma parse_elements_separator (fuel : nat) (s1 s2 : string) :
  separator s1 = separator s2 -> parse_elements fuel s1 = parse_elements fuel s2.
Proof.
  intros H. destruct fuel; [reflexivity|]. cbn [parse_elements].
  now rewrite (parse_value_separator fuel s1 s2 H).
Qed.

Lemma parse_members_separator (fuel : nat) (s1 s2 : string) :
  separator s1 = separator s2 -> parse_members fuel s1 = parse_members fuel s2.
Proof. intros H. destruct fuel; [reflexivity|]. cbn [parse_members]. now rewrite H. Qed.

(** ** Values *)

Lemma value_induction (P : value -> Prop) :
  P JNull ->
  (forall b, P (JBool b)) ->
  (forall l, P (JNum l)) ->
  (forall s, P (JStr s)) ->
  (forall items, Forall P items -> P (JArr items)) ->
  (forall members, Forall (fun m => P (snd m)) members -> P (JObj members)) ->
  forall v, P v.
Proof.
  intros Hnull Hbool Hnum Hstr Harr Hobj.
  fix IH 1. intros [|b|l|s|items|members].
  - exact Hnull.
  - apply Hbool.
  - apply Hnum.
  - apply Hstr.
  - apply Harr. induction items as [|x xs IHxs]; constructor; [apply IH | exact IHxs].
  - apply Hobj. induction members as [|m ms IHms]; constructor; [apply IH | exact IHms].
Qed.

(** The characters a value can start with are neither white space nor a
    closing bracket. *)
Definition opens_value (c : ascii) : bool :=
  negb (is_ws c) && negb (c =? "]")%char && negb (c =? "}")%char.

Definition starts_number (c : ascii) : bool :=
  match digit_of_char c with
  | Some _ => true
  | None => (c =? "-")%char
  end.

Lemma number_head (l : literal) (rest : string) :
  valid_int (lit_int l) = true ->
  exists c r, print_literal l ++ rest = String c r /\ starts_number c = true.
Proof.
  intros H. unfold print_literal.
  destruct (lit_neg l).
  - simpl. do 2 eexists. split; reflexivity.
  - destruct (lit_int l); try discriminate H; simpl;
      do 2 eexists; (split; reflexivity).
Qed.

Lemma starts_number_opens (c : ascii) : starts_number c = true -> opens_value c = true.
Proof. destruct c as [[] [] [] [] [] [] [] []]; intros H; try discriminate H; reflexivity. Qed.

Lemma parse_value_number (f : nat) (c : ascii) (r : string) :
  starts_number c = true ->
  parse_value (S f) (String c r)
  = match parse_number (String c r) with
    | Some (l, r') => Some (JNum l, r')
    | None => None
    end.
Proof. destruct c as [[] [] [] [] [] [] [] []]; intros H; try discriminate H; reflexivity. Qed.

Lemma separator_opens (c : ascii) (r : string) :
  opens_value c = true -> separator (String c r) = Some (c, r).
Proof.
  unfold opens_value, separator. intros H. cbn [skip_ws].
  destruct (is_ws c); [discriminate H | reflexivity].
Qed.

Lemma value_head (d : nat) (v : value) (rest : string) :
  well_formed v = true ->
  exists c r, stringify_at d v ++ rest = String c r /\ opens_value c = true.
Proof.
  intros H. destruct v as [|[]|l|s|[|x xs]|[|m ms]];
    try (do 2 eexists; split; reflexivity).
  cbn [stringify_at well_formed] in *.
  destruct (number_head l rest H) as (c & r & E & Hc).
  exists c, r. split; [exact E | now apply starts_number_opens].
Qed.

Lemma join_head (sep a : string) (l : list string) (tail : string) :
  exists tail', join sep (a :: l) ++ tail = a ++ tail'.
Proof.
  destruct l as [|b l].
  - exists tail. reflexivity.
  - exists (sep ++ join sep (b :: l) ++ tail). cbn [join]. now rewrite !append_assoc.
Qed.

(** The round trip of one value, for every depth of indentation, every
    sufficient fuel and every text that may follow. *)
Definition reads_back (v : value) : Prop :=
  forall (d fuel : nat) (rest : string),
    well_formed v = true ->
    size v <= fuel ->
    delimited rest = true ->
    parse_value fuel (stringify_at d v ++ rest) = Some (v, rest).

Lemma delimited_break (s : string) : delimited (nl ++ s) = true.
Proof. reflexivity. Qed.

Lemma delimited_comma (s : string) : delimited (String "," s) = true.
Proof. reflexivity. Qed.

Lemma join_cons (sep a b : string) (l : list string) :
  join sep (a :: b :: l) = a ++ sep ++ join sep (b :: l).
Proof. reflexivity. Qed.

Lemma separator_comma (s : string) : separator (String "," s) = Some (","%char, s).
Proof. reflexivity. Qed.

Lemma parse_elements_step (f : nat) (s : string) :
  parse_elements (S f) s
  = match parse_value f s with
    | Some (v, r) =>
        match separator r with
        | Some (c, r') =>
            if (c =? ",")%char then
              match parse_elements f r' with
              | Some (vs, r'') => Some (v :: vs, r'')
              | None => None
              end
            else if (c =? "]")%char then Some ([v], r')
            else None
        | None => None
        end
    | None => None
    end.
Proof. reflexivity. Qed.

Definition elements_size (items : list value) : nat :=
  list_sum (map (fun x => S (size x)) items).

Lemma parse_elements_print (xs : list value) :
  forall (x : value) (d f : nat) (rest : string),
    Forall reads_back (x :: xs) ->
    forallb well_formed (x :: xs) = true ->
    elements_size (x :: xs) <= f ->
    parse_elements f
      (join ("," ++ nl ++ indent (S d)) (map (stringify_at (S d)) (x :: xs))
       ++ nl ++ indent d ++ "]" ++ rest)
    = Some (x :: xs, rest).
Proof.
  induction xs as [|y ys IH]; intros x d f rest HP Hwf Hsize.
  - inversion HP as [|? ? Hx _]; subst.
    cbn [forallb] in Hwf. apply andb_prop in Hwf as [Hwx _].
    unfold elements_size, list_sum in Hsize. cbn [map fold_right] in Hsize.
    destruct f as [|f]; [lia|].
    cbn [parse_elements map join].
    rewrite Hx by (assumption || lia || apply delimited_break).
    rewrite separator_break. reflexivity.
  - inversion HP as [|? ? Hx HP']; subst.
    cbn [forallb] in Hwf. apply andb_prop in Hwf as [Hwx Hwf'].
    unfold elements_size, list_sum in Hsize. cbn [map fold_right] in Hsize.
    destruct f as [|f]; [lia|].
    cbn [map]. rewrite join_cons, !append_assoc.
    change ("," ++ ?t) with (String "," t).
    rewrite parse_elements_step.
    rewrite Hx by (assumption || lia || apply delimited_comma).
    rewrite separator_comma, Ascii.eqb_refl.
    rewrite (parse_elements_separator f _ _ (separator_break (S d) _)).
    specialize (IH y d f rest HP' Hwf'
                  ltac:(unfold elements_size, list_sum; cbn [map fold_right]; lia)).
    cbn [map] in IH. rewrite IH. reflexivity.
Qed.

Definition members_size (members : list (string * value)) : nat :=
  list_sum (map (fun m => S (size (snd m))) members).

Definition member_text (d : nat) (m : string * value) : string :=
  quote (fst m) ++ ": " ++ stringify_at d (snd m).

Lemma parse_members_step (f : nat) (s : string) :
  parse_members (S f) s
  = match separator s with
    | Some (c, r) =>
        if (c =? dq_char)%char then
          match parse_chars r with
          | Some (key, r1) =>
              match separator r1 with
              | Some (c1, r2) =>
                  if (c1 =? ":")%char then
                    match parse_value f r2 with
                    | Some (v, r3) =>
                        match separator r3 with
                        | Some (c3, r4) =>
                            if (c3 =? ",")%char then
                              match parse_members f r4 with
                              | Some (ms, r5) => Some ((key, v) :: ms, r5)
                              | None => None
                              end
                            else if (c3 =? "}")%char then Some ([(key, v)], r4)
                            else None
                        | None => None
                        end
                    | None => None
                    end
                  else None
              | None => None
              end
          | None => None
          end
        else None
    | None => None
    end.
Proof. reflexivity. Qed.

Lemma separator_quote (s : string) : separator (String dq_char s) = Some (dq_char, s).
Proof. reflexivity. Qed.

Lemma separator_colon (s : string) : separator (String ":" s) = Some (":"%char, s).
Proof. reflexivity. Qed.

(** The start of a member: its key, the colon and its value. *)
Lemma parse_member_print (f d : nat) (k : string) (v : value) (tail : string) :
  reads_back v ->
  well_formed v = true ->
  size v <= f ->
  delimited tail = true ->
  parse_members (S f) (member_text d (k, v) ++ tail)
  = match separator tail with
    | Some (c3, r4) =>
        if (c3 =? ",")%char then
          match parse_members f r4 with
          | Some (ms, r5) => Some ((k, v) :: ms, r5)
          | None => None
          end
        else if (c3 =? "}")%char then Some ([(k, v)], r4)
        else None
    | None => None
    end.
Proof.
  intros Hv Hw Hs Hd. unfold member_text, quote. cbn [fst snd].
  rewrite !append_assoc.
  change (String dq_char (quote_chars k) ++ ?t) with (String dq_char (quote_chars k ++ t)).
  change (": " ++ ?t) with (String ":" (String " " t)).
  rewrite parse_members_step, separator_quote, Ascii.eqb_refl.
  rewrite parse_chars_quote, separator_colon, Ascii.eqb_refl.
  rewrite (parse_value_separator f _ _ (separator_space _)).
  rewrite Hv by assumption. reflexivity.
Qed.

Lemma parse_members_print (ms : list (string * value)) :
  forall (m : string * value) (d f : nat) (rest : string),
    Forall (fun m => reads_back (snd m)) (m :: ms) ->
    forallb (fun m => well_formed (snd m)) (m :: ms) = true ->
    members_size (m :: ms) <= f ->
    parse_members f
      (join ("," ++ nl ++ indent (S d)) (map (member_text (S d)) (m :: ms))
       ++ nl ++ indent d ++ "}" ++ rest)
    = Some (m :: ms, rest).
Proof.
  induction ms as [|m' ms IH]; intros [k v] d f rest HP Hwf Hsize.
  - inversion HP as [|? ? Hv _]; subst.
    cbn [forallb snd] in Hwf. apply andb_prop in Hwf as [Hw _].
    unfold members_size, list_sum in Hsize. cbn [map fold_right snd] in Hsize.
    destruct f as [|f]; [lia|].
    cbn [map join].
    rewrite parse_member_print by (assumption || lia || apply delimited_break).
    rewrite separator_break. reflexivity.
  - inversion HP as [|? ? Hv HP']; subst.
    cbn [forallb snd] in Hwf. apply andb_prop in Hwf as [Hw Hwf'].
    unfold members_size, list_sum in Hsize. cbn [map fold_right snd] in Hsize.
    destruct f as [|f]; [lia|].
    cbn [map]. rewrite join_cons, !append_assoc.
    change ("," ++ ?t) with (String "," t).
    rewrite parse_member_print by (assumption || lia || apply delimited_comma).
    rewrite separator_comma, Ascii.eqb_refl.
    rewrite (parse_members_separator f _ _ (separator_break (S d) _)).
    specialize (IH m' d f rest HP' Hwf'
                  ltac:(unfold members_size, list_sum; cbn [map fold_right]; lia)).
    cbn [map] in IH. rewrite IH. reflexivity.
Qed.

Lemma stringify_at_array (d : nat) (x : value) (xs : list value) :
  stringify_at d (JArr (x :: xs))
  = "[" ++ nl ++ indent (S d)
    ++ join ("," ++ nl ++ indent (S d)) (map (stringify_at (S d)) (x :: xs))
    ++ nl ++ indent d ++ "]".
Proof. reflexivity. Qed.

Lemma stringify_at_object (d : nat) (m : string * value) (ms : list (string * value)) :
  stringify_at d (JObj (m :: ms))
  = "{" ++ nl ++ indent (S d)
    ++ join ("," ++ nl ++ indent (S d)) (map (member_text (S d)) (m :: ms))
    ++ nl ++ indent d ++ "}".
Proof. reflexivity. Qed.

Lemma parse_value_array (f : nat) (r : string) :
  parse_value (S f) (String "[" r)
  = match separator r with
    | Some (c', r') =>
        if (c' =? "]")%char then Some (JArr [], r')
        else
          match parse_elements f r with
          | Some (items, r'') => Some (JArr items, r'')
          | None => None
          end
    | None => None
    end.
Proof. reflexivity. Qed.

Lemma parse_value_object (f : nat) (r : string) :
  parse_value (S f) (String "{" r)
  = match separator r with
    | Some (c', r') =>
        if (c' =? "}")%char then Some (JObj [], r')
        else
          match parse_members f r with
          | Some (members, r'') => Some (JObj members, r'')
          | None => None
          end
    | None => None
    end.
Proof. reflexivity. Qed.

Lemma parse_value_string (f : nat) (r : string) :
  parse_value (S f) (String dq_char r)
  = match parse_chars r with
    | Some (str, r') => Some (JStr str, r')
    | None => None
    end.
Proof. reflexivity. Qed.

Lemma opens_value_brackets (c : ascii) :
  opens_value c = true -> (c =? "]")%char = false /\ (c =? "}")%char = false.
Proof.
  unfold opens_value. intros H.
  apply andb_prop in H as [H H2]. apply andb_prop in H as [_ H1].
  split; now apply negb_true_iff.
Qed.

(** Every well-formed value is read back from its text. *)
Lemma reads_back_all (v : value) : reads_back v.
Proof.
  induction v as [|b|l|s|items IH|members IH] using value_induction;
    intros d fuel rest Hwf Hsize Hd;
    (destruct fuel as [|f]; [cbn in Hsize; lia|]).
  - reflexivity.
  - destruct b; reflexivity.
  - cbn [well_formed stringify_at] in *.
    destruct (number_head l rest Hwf) as (c & r & E & Hc).
    rewrite E, parse_value_number, <- E by assumption.
    now rewrite parse_number_print.
  - cbn [stringify_at]. unfold quote.
    change (String dq_char (quote_chars s) ++ rest)
      with (String dq_char (quote_chars s ++ rest)).
    now rewrite parse_value_string, parse_chars_quote.
  - destruct items as [|x xs]; [reflexivity|].
    cbn [well_formed size] in Hwf, Hsize.
    rewrite stringify_at_array, !append_assoc.
    change ("[" ++ ?t) with (String "[" t).
    rewrite parse_value_array.
    assert (Hx : well_formed x = true) by (cbn [forallb] in Hwf; now apply andb_prop in Hwf).
    destruct (join_head ("," ++ nl ++ indent (S d)) (stringify_at (S d) x)
                        (map (stringify_at (S d)) xs)
                        (nl ++ indent d ++ "]" ++ rest)) as (tail & Et).
    destruct (value_head (S d) x tail Hx) as (c & r & Ec & Hc).
    rewrite separator_break.
    change (map (stringify_at (S d)) (x :: xs))
      with (stringify_at (S d) x :: map (stringify_at (S d)) xs).
    rewrite Et, Ec, (separator_opens c r Hc).
    destruct (opens_value_brackets c Hc) as [Hb _]. rewrite Hb.
    rewrite (parse_elements_separator f _ _ (separator_break (S d) _)).
    rewrite <- Ec, <- Et.
    change (stringify_at (S d) x :: map (stringify_at (S d)) xs)
      with (map (stringify_at (S d)) (x :: xs)).
    rewrite parse_elements_print; [reflexivity | exact IH | exact Hwf |].
    unfold elements_size. lia.
  - destruct members as [|m ms]; [reflexivity|].
    cbn [well_formed size] in Hwf, Hsize.
    rewrite stringify_at_object, !append_assoc.
    change ("{" ++ ?t) with (String "{" t).
    rewrite parse_value_object.
    rewrite separator_break.
    assert (Hsep : exists r,
               separator (join ("," ++ nl ++ indent (S d)) (map (member_text (S d)) (m :: ms))
                          ++ nl ++ indent d ++ "}" ++ rest)
               = Some (dq_char, r)).
    { destruct (join_head ("," ++ nl ++ indent (S d)) (member_text (S d) m)
                          (map (member_text (S d)) ms)
                          (nl ++ indent d ++ "}" ++ rest)) as (tail & Et).
      change (map (member_text (S d)) (m :: ms))
        with (member_text (S d) m :: map (member_text (S d)) ms).
      rewrite Et. unfold member_text, quote. eexists. reflexivity. }
    destruct Hsep as (r & Hsep). rewrite Hsep.
    change ((dq_char =? "}")%char) with false. cbv iota.
    rewrite (parse_members_separator f _ _ (separator_break (S d) _)).
    rewrite parse_members_print; [reflexivity | exact IH | exact Hwf |].
    unfold members_size. lia.
Qed.

(** ** Fuel: the length of a text bounds the size of its tree *)

Lemma join_size {A : Type} (sep : string) (g : A -> string) (weight : A -> nat)
    (items : list A) :
  1 <= String.length sep ->
  Forall (fun x => weight x <= String.length (g x)) items ->
  list_sum (map (fun x => S (weight x)) items)
  <= String.length (join sep (map g items)) + 1.
Proof.
  intros Hsep H. induction H as [|x xs Hx Hxs IH]; [cbn; lia|].
  destruct xs as [|y ys].
  - cbn. lia.
  - change (map g (x :: y :: ys)) with (g x :: g y :: map g ys).
    rewrite join_cons, !length_append.
    change (g y :: map g ys) with (map g (y :: ys)).
    unfold list_sum in *. cbn [map fold_right] in *. lia.
Qed.

Lemma length_separator (d : nat) : 1 <= String.length ("," ++ nl ++ indent d).
Proof. cbn. lia. Qed.

Lemma size_le_length (v : value) :
  forall d : nat, well_formed v = true -> size v <= String.length (stringify_at d v).
Proof.
  induction v as [|b|l|s|items IH|members IH] using value_induction; intros d Hwf.
  - cbn. lia.
  - destruct b; cbn; lia.
  - cbn [well_formed stringify_at size] in *.
    destruct (number_head l EmptyString Hwf) as (c & r & E & _).
    rewrite append_nil_r in E. rewrite E. cbn. lia.
  - cbn. lia.
  - destruct items as [|x xs]; [cbn; lia|].
    rewrite stringify_at_array, !length_append. cbn [size well_formed] in *.
    assert (H : list_sum (map (fun x => S (size x)) (x :: xs))
                <= String.length
                     (join ("," ++ nl ++ indent (S d)) (map (stringify_at (S d)) (x :: xs)))
                   + 1).
    { apply join_size; [apply length_separator|].
      apply Forall_forall. intros y Hy.
      rewrite Forall_forall in IH. apply (IH y Hy).
      rewrite forallb_forall in Hwf. now apply Hwf. }
    cbn [String.length]. lia.
  - destruct members as [|m ms]; [cbn; lia|].
    rewrite stringify_at_object, !length_append. cbn [size well_formed] in *.
    assert (H : list_sum (map (fun m => S (size (snd m))) (m :: ms))
                <= String.length
                     (join ("," ++ nl ++ indent (S d)) (map (member_text (S d)) (m :: ms)))
                   + 1).
    { apply (join_size _ (member_text (S d)) (fun m => size (snd m)));
        [apply length_separator|].
      apply Forall_forall. intros y Hy.
      rewrite Forall_forall in IH. unfold member_text. rewrite !length_append.
      specialize (IH y Hy (S d)).
      rewrite forallb_forall in Hwf. specialize (Hwf y Hy). cbn beta in Hwf.
      specialize (IH Hwf). lia. }
    cbn [String.length]. lia.
Qed.

(** Parsing the text of a well-formed tree gives the tree back. *)
Theorem parse_stringify (v : value) :
  well_formed v = true -> parse (stringify v) = Some v.
Proof.
  intros Hwf. unfold parse, stringify.
  pose proof (reads_back_all v 0 (String.length (stringify_at 0 v)) EmptyString
                Hwf (size_le_length v 0 Hwf) eq_refl) as H.
  rewrite append_nil_r in H. rewrite H. reflexivity.
Qed.

(** ** The trees of the JSON export are well formed *)

Definition all_well_formed (members : list (string * value)) : bool :=
  forallb (fun m => well_formed (snd m)) members.

Lemma all_well_formed_app (a b : list (string * value)) :
  all_well_formed (a ++ b)%list = all_well_formed a && all_well_formed b.
Proof. apply forallb_app. Qed.

Lemma all_well_formed_property (key : string) (v : option value) :
  (forall j, v = Some j -> well_formed j = true) ->
  all_well_formed (property key v) = true.
Proof.
  intros H. destruct v as [j|]; [|reflexivity].
  cbn. now rewrite (H j eq_refl).
Qed.

Lemma format_digits_valid (neg : bool) (s p : Z) :
  valid_int (lit_int (format_digits neg s p)) = true.
Proof.
  unfold format_digits.
  repeat match goal with
         | |- context [if ?b then _ else _] => destruct b
         end;
    cbn [lit_int]; try reflexivity; apply valid_int_of_N.
Qed.

Lemma Number_toLiteral_valid (x : number) (l : literal) :
  Number_toLiteral x = Some l -> valid_int (lit_int l) = true.
Proof.
  unfold Number_toLiteral. destruct (Prim2SF x) as [sz|si| |sf m e]; try discriminate.
  - intros H. inversion H. reflexivity.
  - destruct (shortest_digits m e) as [s p]. intros H. inversion H.
    apply format_digits_valid.
Qed.

Lemma json_number_well_formed (x : number) : well_formed (json_number x) = true.
Proof.
  unfold json_number. destruct (Number_toLiteral x) as [l|] eqn:E; [|reflexivity].
  exact (Number_toLiteral_valid x l E).
Qed.

Lemma json_strings_well_formed (l : list string) : well_formed (json_strings l) = true.
Proof.
  unfold json_strings. cbn [well_formed]. induction l as [|s l IH]; [reflexivity | exact IH].
Qed.

Ltac well_formed_option :=
  let j := fresh "j" in
  let H := fresh "H" in
  intros j H;
  match type of H with
  | option_map _ ?o = Some _ => destruct o; inversion H; subst; clear H
  end.

Lemma CodeExample_json_well_formed (c : CodeExample.t) :
  well_formed (CodeExample_json c) = true.
Proof.
  unfold CodeExample_json. cbn [well_formed].
  change (forallb (fun m => well_formed (snd m)) ?l) with (all_well_formed l).
  rewrite all_well_formed_app. apply andb_true_intro. split; [reflexivity|].
  apply all_well_formed_property. well_formed_option.
  cbn [well_formed]. induction l as [|x l IH]; [reflexivity|].
  cbn [map forallb]. now rewrite json_number_well_formed.
Qed.

Lemma SlideQuote_json_well_formed (q : SlideQuote.t) :
  well_formed (SlideQuote_json q) = true.
Proof.
  unfold SlideQuote_json. cbn [well_formed].
  change (forallb (fun m => well_formed (snd m)) ?l) with (all_well_formed l).
  rewrite all_well_formed_app. apply andb_true_intro. split; [reflexivity|].
  apply all_well_formed_property. well_formed_option. reflexivity.
Qed.

Lemma SlideTheme_json_well_formed (t : SlideTheme.t) :
  well_formed (SlideTheme_json t) = true.
Proof.
  unfold SlideTheme_json. cbn [well_formed].
  change (forallb (fun m => well_formed (snd m)) ?l) with (all_well_formed l).
  rewrite !all_well_formed_app.
  repeat (apply andb_true_intro; split); try reflexivity;
    apply all_well_formed_property; well_formed_option; reflexivity.
Qed.

Lemma SlideMetadata_json_well_formed (m : SlideMetadata.t) :
  well_formed (SlideMetadata_json m) = true.
Proof.
  unfold SlideMetadata_json. cbn [well_formed forallb snd].
  now rewrite !json_number_well_formed.
Qed.

Lemma exportSlide_json_well_formed
    (slide : Slide.t) (speakerNotes : option string) (duration : option number) :
  well_formed (exportSlide_json slide speakerNotes duration) = true.
Proof.
  unfold exportSlide_json. cbn [well_formed].
  change (forallb (fun m => well_formed (snd m)) ?l) with (all_well_formed l).
  rewrite !all_well_formed_app.
  repeat (apply andb_true_intro; split);
    try (apply all_well_formed_property; well_formed_option);
    try reflexivity.
  - cbn [all_well_formed forallb snd well_formed json_string].
    now rewrite json_number_well_formed.
  - apply json_strings_well_formed.
  - apply CodeExample_json_well_formed.
  - apply SlideQuote_json_well_formed.
  - apply json_number_well_formed.
Qed.

Lemma property_string_well_formed (key : string) (o : option string) :
  all_well_formed (property key (option_map json_string o)) = true.
Proof. now destruct o. Qed.

Lemma exportData_json_well_formed (deck : SlideDeck.t) (slides : list value) :
  forallb well_formed slides = true ->
  well_formed (exportData_json deck slides) = true.
Proof.
  intros Hs. unfold exportData_json. cbn [well_formed].
  change (forallb (fun m => well_formed (snd m)) ?l) with (all_well_formed l).
  rewrite !all_well_formed_app, !property_string_well_formed.
  unfold all_well_formed. cbn [forallb snd].
  rewrite SlideTheme_json_well_formed, SlideMetadata_json_well_formed.
  cbn [well_formed json_string]. now rewrite Hs.
Qed.

(** ** Reading the parsed document *)

Lemma lookup_app (key : string) (a b : list (string * value)) :
  lookup key (a ++ b)%list
  = match lookup key b with
    | Some v => Some v
    | None => lookup key a
    end.
Proof.
  induction a as [|[k v] a IH]; cbn [lookup List.app].
  - now destruct (lookup key b).
  - rewrite IH. now destruct (lookup key b).
Qed.

Lemma lookup_property (key key' : string) (v : option value) :
  (key' =? key)%string = false -> lookup key (property key' v) = None.
Proof. intros H. destruct v; cbn; [now rewrite H | reflexivity]. Qed.

Lemma get_slides (deck : SlideDeck.t) (slides : list value) :
  get "slides" (exportData_json deck slides) = Some (JArr slides).
Proof.
  unfold exportData_json, get. rewrite !lookup_app. reflexivity.
Qed.





(** The slides of [exportData], as [exportToJson] builds them. *)
Definition exportedSlide (includeNotes includeTimings : bool) (slide : Slide.t) : value :=
  exportSlide_json slide
    (if includeNotes then Some (Slide.speakerNotes slide) else None)
    (if includeTimings then Some (Slide.duration slide) else None).

Lemma exportToJson_parses (deck : SlideDeck.t) (options : ExportOptions.t) :
  parse (ExportResult.content (exportToJson deck options))
  = Some (exportData_json deck
            (map (exportedSlide (ExportOptions.includeNotes options)
                                (ExportOptions.includeTimings options))
                 (SlideDeck.slides deck))).
Proof.
  unfold exportToJson. cbn [ExportResult.content].
  apply parse_stringify, exportData_json_well_formed.
  apply forallb_forall. intros j Hj. apply in_map_iff in Hj as (slide & <- & _).
  apply exportSlide_json_well_formed.
Qed.



(** A run on the deck [Sample.scriptSlides] with its single slide. *)
Example scriptSlides_round_trip :
  exists document slide,
    parse (ExportResult.content
             (exportSlideDeck Sample.scriptSlides
                {| ExportOptions.format := ExportFormat.json;
                   ExportOptions.includeNotes := false;
                   ExportOptions.includeTimings := true;
                   ExportOptions.theme := None |}))
    = Some document /\
    get "slides" document = Some (JArr [slide]) /\
    get "id" slide = Some (JStr "slide-0") /\
    get "order" slide = Some (JNum (literal_of_nat 0)) /\
    get "speakerNotes" slide = None /\
    get "duration" slide = Some (JNum (literal_of_nat 60)).
Proof.
  exists (exportData_json Sample.scriptSlides [exportedSlide false true Sample.scriptSlide]),
         (exportedSlide false true Sample.scriptSlide).
  repeat split; vm_compute; reflexivity.
Qed.

End JSONFacts.

(* ================================================================== *)
(** * HTML export                                                       *)
(* ================================================================== *)

Section HtmlFacts.

Local Open Scope string_scope.

(** [contains c s]: the character [c] occurs in [s]. *)
Fixpoint contains (c : ascii) (s : string) : bool :=
  match s with
  | EmptyString => false
  | String x s' => (x =? c)%char || contains c s'
  end.

Lemma contains_append (c : ascii) (a b : string) :
  contains c (a ++ b) = contains c a || contains c b.
Proof.
  induction a as [|x a IH]; simpl; [reflexivity|].
  rewrite IH. apply orb_assoc.
Qed.

Lemma replaceAll_removes (c : ascii) (r text : string) :
  contains c r = false -> contains c (replaceAll c r text) = false.
Proof.
  intros Hr. induction text as [|x text IH]; simpl; [reflexivity|].
  destruct (x =? c)%char eqn:E.
  - rewrite contains_append, Hr, IH. reflexivity.
  - simpl. rewrite E, IH. reflexivity.
Qed.

Lemma replaceAll_preserves (c d : ascii) (r text : string) :
  contains c r = false -> contains c text = false ->
  contains c (replaceAll d r text) = false.
Proof.
  intros Hr. induction text as [|x text IH]; simpl; [reflexivity|].
  intros H. apply orb_false_elim in H as [Hx Ht].
  destruct (x =? d)%char.
  - rewrite contains_append, Hr, (IH Ht). reflexivity.
  - simpl. rewrite Hx, (IH Ht). reflexivity.
Qed.

(** A text without any of the five characters is left alone. *)
Lemma replaceAll_absent (c : ascii) (r text : string) :
  contains c text = false -> replaceAll c r text = text.
Proof.
  induction text as [|x text IH]; simpl; [reflexivity|].
  intros H. apply orb_false_elim in H as [Hx Ht].
  rewrite Hx, (IH Ht). reflexivity.
Qed.

(** What [escapeHtml] returns holds no angle bracket, double quote or
    apostrophe. *)
Lemma escapeHtml_no_markup (text : string) (c : ascii) :
  In c ["<"; ">"; JSON.dq_char; "'"]%char ->
  contains c (escapeHtml text) = false.
Proof.
  unfold escapeHtml.
  intros [<-|[<-|[<-|[<-|[]]]]];
    repeat first
      [ apply replaceAll_removes; reflexivity
      | apply replaceAll_preserves; [reflexivity|] ].
Qed.

Lemma prefix_refl_append (a b : string) : prefix a (a ++ b) = true.
Proof.
  induction a as [|x a IH]; simpl; [destruct b; reflexivity|].
  destruct (ascii_dec x x) as [_|N]; [exact IH | contradiction N; reflexivity].
Qed.

Lemma prefix_append_r (sub s q : string) :
  prefix sub s = true -> prefix sub (s ++ q) = true.
Proof.
  revert s. induction sub as [|x sub IH]; intros s.
  - intros _. destruct (s ++ q); reflexivity.
  - destruct s as [|y s]; simpl; [discriminate|].
    destruct (ascii_dec x y); [apply IH | discriminate].
Qed.

Lemma includes_here (s sub : string) : prefix sub s = true -> includes s sub = true.
Proof.
  intros H. destruct s; cbn [includes]; rewrite H; reflexivity.
Qed.

Lemma includes_append_l (p s sub : string) :
  includes s sub = true -> includes (p ++ s) sub = true.
Proof.
  intros H. induction p as [|x p IH]; simpl; [exact H|].
  rewrite IH. apply orb_true_r.
Qed.

Lemma includes_append_r (s q sub : string) :
  includes s sub = true -> includes (s ++ q) sub = true.
Proof.
  induction s as [|x s IH]; cbn [includes].
  - rewrite orb_false_r. intros H.
    apply includes_here. apply (prefix_append_r sub EmptyString q H).
  - intros H. apply orb_true_iff in H as [H|H].
    + apply includes_here. apply (prefix_append_r sub (String x s) q H).
    + change (String x s ++ q) with (String x (s ++ q)). cbn [includes].
      rewrite (IH H). apply orb_true_r.
Qed.

Lemma includes_after (p a t b q : string) :
  includes ((p ++ a) ++ (t ++ (b ++ q))) (a ++ (t ++ b)) = true.
Proof.
  rewrite JSONFacts.append_assoc. apply includes_append_l.
  apply includes_here.
  replace (a ++ (t ++ (b ++ q))) with ((a ++ (t ++ b)) ++ q)
    by (now rewrite !JSONFacts.append_assoc).
  apply prefix_refl_append.
Qed.

(** X30. The document head carries the title of the deck as it is. *)
Lemma exportToHtml_title_verbatim (deck : SlideDeck.t) (options : ExportOptions.t) :
  includes (ExportResult.content (exportToHtml deck options))
           ("<title>" ++ SlideDeck.title deck ++ "</title>") = true.
Proof.
  unfold exportToHtml. cbn [ExportResult.content].
  apply includes_append_r. unfold htmlHead.
  repeat first
    [ apply (includes_after (String ">" (nl ++ "  ")) "<title>"
                            (SlideDeck.title deck) "</title>")
    | apply includes_append_l ].
Qed.

(** The texts of a slide go through [escapeHtml]; the language of a code
    example, like the title of the deck, does not. *)
Example scriptSlides_html :
  let html := ExportResult.content (exportSlideDeck Sample.scriptSlides Sample.htmlOptions) in
  includes html "<h1>&lt;script&gt;alert(1)&lt;/script&gt;</h1>" = true /\
  includes html "<script>" = false /\
  includes html ">a &lt; b</code>" = true /\
  includes html "language-<b>" = true.
Proof. vm_compute. repeat split. Qed.

(** C3. The HTML export does not escape every user-supplied text: for
    the deck without slides whose title is [<script>alert(1)</script>],
    the exported document holds that title as it is between [<title>]
    and [</title>], and holds its entity-encoded form
    [&lt;script&gt;alert(1)&lt;/script&gt;] nowhere. *)
Theorem exportToHtml_script_title_unescaped :
  let html := ExportResult.content (exportSlideDeck Sample.scriptDeck Sample.htmlOptions) in
  escapeHtml (SlideDeck.title Sample.scriptDeck) = "&lt;script&gt;alert(1)&lt;/script&gt;" /\
  includes html "<title><script>alert(1)</script></title>" = true /\
  includes html (escapeHtml (SlideDeck.title Sample.scriptDeck)) = false.
Proof. vm_compute. repeat split. Qed.

End HtmlFacts.

(* ================================================================== *)
(** * Properties of the workflow coordinator                            *)
(* ================================================================== *)

Module SkillFacts.

(** The template table, under a name the coordinator's method of the same
    name does not hide. *)
Local Abbreviation templateFor := getTemplate (only parsing).

Import TalkPrepSkill.

Lemma completeStep_currentStep (step : WorkflowStep.t) (st : WorkflowState.t) :
  WorkflowState.currentStep (completeStep step st) = WorkflowState.currentStep st.
Proof. unfold completeStep. now destruct (existsb _ _). Qed.

(** The step a call leaves the session in, read off the method bodies:
    the four setters and [initialize] assign a fixed step (two of the
    setters and [initialize] only when their check passes), and no other
    method assigns one. None of them reads the step the session is in. *)
Definition stepAfter (env : Collaborators.t) (c : call) (st : WorkflowState.t)
  : WorkflowStep.t :=
  match c with
  | Initialize configInput =>
      match TalkConfigSchema_data configInput with
      | Some _ => WorkflowStep.ideation
      | None => WorkflowState.currentStep st
      end
  | SetResearchResults _ => WorkflowStep.outline
  | SetOutline outline =>
      if OutlineTimingValidation.isValid (validateOutlineTiming outline)
      then WorkflowStep.content
      else WorkflowState.currentStep st
  | SetScript script =>
      if ContentValidation.isValid
           (validateContent (Collaborators.contentSuggestions env) script
                            (WorkflowState.config st))
      then WorkflowStep.export
      else WorkflowState.currentStep st
  | SetSlides _ => WorkflowStep.rehearsal
  | _ => WorkflowState.currentStep st
  end.

(** [next] is [step] or the step right after it. *)
Definition forward (step next : WorkflowStep.t) : bool :=
  (position next =? position step)%nat || (position next =? S (position step))%nat.

(** A call made in workflow order: the step it leaves the session in is
    the step the session is in, or the next one. *)
Definition inOrder (env : Collaborators.t) (c : call) (st : WorkflowState.t) : bool :=
  forward (WorkflowState.currentStep st) (stepAfter env c st).

Fixpoint allInOrder (env : Collaborators.t) (calls : list call) (st : WorkflowState.t)
  : bool :=
  match calls with
  | [] => true
  | c :: rest =>
      inOrder env c st
      && match snd (perform env c (Some st)) with
         | Some st' => allInOrder env rest st'
         | None => false
         end
  end.

(** Each state of the list is initialized and its step is the step before
    it or that step's successor. *)
Fixpoint stepwise (step : WorkflowStep.t) (states : list (option WorkflowState.t)) : Prop :=
  match states with
  | [] => True
  | Some st :: rest =>
      (position (WorkflowState.currentStep st) = position step \/
       position (WorkflowState.currentStep st) = S (position step)) /\
      stepwise (WorkflowState.currentStep st) rest
  | None :: _ => False
  end.

(** A call made in place: a setter called in the step it completes or
    in the step it leads to, [initialize] called in step ideation, any
    other call anywhere. *)
Definition inPlace (c : call) (step : WorkflowStep.t) : bool :=
  match c, step with
  | Initialize _, WorkflowStep.ideation => true
  | Initialize _, _ => false
  | SetResearchResults _, (WorkflowStep.ideation | WorkflowStep.outline) => true
  | SetResearchResults _, _ => false
  | SetOutline _, (WorkflowStep.outline | WorkflowStep.content) => true
  | SetOutline _, _ => false
  | SetScript _, (WorkflowStep.content | WorkflowStep.export) => true
  | SetScript _, _ => false
  | SetSlides _, (WorkflowStep.export | WorkflowStep.rehearsal) => true
  | SetSlides _, _ => false
  | _, _ => true
  end.

Ltac unfold_methods :=
  unfold perform, observe, getSystemPrompt, getDiscoveryQuestions, getTopicSuggestions,
    generateIdeationPrompt, setResearchResults, generateOutline, getOutlinePrompt,
    setOutline, getOutlineMarkdown, generateScript, getScriptPrompt, setScript,
    getScriptMarkdown, getHookSuggestions, generateSlides, getSlidesPrompt, setSlides,
    exportSlides, generateQAPrep, getQAPrompt, getQAMarkdown, startRehearsal,
    getTimingCues, getPracticeSuggestions, getState, getCurrentStep, isStepCompleted,
    getResearchGuidance, TalkPrepSkill.getTemplate, withState, withOutline.

(** Whatever the session's step, a call leaves an initialized session
    initialized, in the step [stepAfter] names. *)
Lemma perform_stepAfter (env : Collaborators.t) (c : call) (st : WorkflowState.t) :
  exists st' : WorkflowState.t,
    snd (perform env c (Some st)) = Some st' /\
    WorkflowState.currentStep st' = stepAfter env c st.
Proof.
  destruct c; unfold_methods; unfold initialize, safeParse; cbn [stepAfter];
    cbv zeta; cbn [WorkflowState.config set_script set_outline];
    repeat match goal with
           | |- context [TalkConfigSchema_data ?i] => destruct (TalkConfigSchema_data i)
           | |- context [WorkflowState.outline ?s] => destruct (WorkflowState.outline s)
           | |- context [WorkflowState.script ?s] => destruct (WorkflowState.script s)
           | |- context [WorkflowState.slides ?s] => destruct (WorkflowState.slides s)
           | |- context [WorkflowState.qaPrep ?s] => destruct (WorkflowState.qaPrep s)
           | |- context [if ?b then _ else _] => destruct b
           end;
    cbn [snd]; eexists; (split; [reflexivity |]);
    cbn; rewrite ?completeStep_currentStep; reflexivity.
Qed.

Lemma forward_spec (step next : WorkflowStep.t) :
  forward step next = true <->
  (position next = position step \/ position next = S (position step)).
Proof.
  unfold forward. rewrite orb_true_iff, !Nat.eqb_eq. reflexivity.
Qed.

Lemma stepwise_allInOrder
    (env : Collaborators.t) (calls : list call) (st : WorkflowState.t) :
  stepwise (WorkflowState.currentStep st) (run env calls (Some st))
  <-> allInOrder env calls st = true.
Proof.
  revert st. induction calls as [|c rest IH]; intros st; [now split|].
  cbn [run allInOrder].
  destruct (perform_stepAfter env c st) as (st' & Hp & Hstep).
  rewrite Hp. cbn [stepwise]. rewrite andb_true_iff, IH.
  unfold inOrder. rewrite forward_spec, Hstep. reflexivity.
Qed.

(** C1 (as amended). On an initialized session every call leaves a
    session in place, in a step that does not depend on the step the
    session was in: [setResearchResults] sets it to outline, [setOutline]
    to content when the outline's timing validates, [setScript] to export
    when the script validates, [setSlides] to rehearsal, [initialize] to
    ideation when the configuration is accepted, and in every other case
    the step stays as it was. So the steps of a sequence of calls go
    through ideation -> outline -> content -> export -> rehearsal without
    going back and without skipping exactly when each call's step is the
    step the session is in or the next one; that is so in particular for
    a setter called in the step it completes or in the step it leads to,
    for [initialize] called in step ideation, and for every other
    call. *)
Lemma inPlace_inOrder (env : Collaborators.t) (c : call) (st : WorkflowState.t) :
  inPlace c (WorkflowState.currentStep st) = true -> inOrder env c st = true.
Proof.
  unfold inOrder, stepAfter.
  destruct c; destruct (WorkflowState.currentStep st); cbn [inPlace];
    try discriminate;
    repeat match goal with
           | |- context [match ?x with Some _ => _ | None => _ end] => destruct x
           | |- context [if ?b then _ else _] => destruct b
           end;
    reflexivity.
Qed.

Theorem steps_forward_in_order
    (env : Collaborators.t) (calls : list call) (st : WorkflowState.t) :
  (forall c : call,
      exists st' : WorkflowState.t,
        snd (perform env c (Some st)) = Some st' /\
        WorkflowState.currentStep st'
        = match c with
          | Initialize configInput =>
              match TalkConfigSchema_data configInput with
              | Some _ => WorkflowStep.ideation
              | None => WorkflowState.currentStep st
              end
          | SetResearchResults _ => WorkflowStep.outline
          | SetOutline outline =>
              if OutlineTimingValidation.isValid (validateOutlineTiming outline)
              then WorkflowStep.content
              else WorkflowState.currentStep st
          | SetScript script =>
              if ContentValidation.isValid
                   (validateContent (Collaborators.contentSuggestions env) script
                                    (WorkflowState.config st))
              then WorkflowStep.export
              else WorkflowState.currentStep st
          | SetSlides _ => WorkflowStep.rehearsal
          | _ => WorkflowState.currentStep st
          end) /\
  (stepwise (WorkflowState.currentStep st) (run env calls (Some st))
   <-> allInOrder env calls st = true) /\
  (forall c : call,
      inPlace c (WorkflowState.currentStep st) = true -> inOrder env c st = true).
Proof.
  split; [intros c; apply perform_stepAfter|].
  split; [apply stepwise_allInOrder | intros c; apply inPlace_inOrder].
Qed.

(** The calls of a preparation in workflow order; the outline is set a
    second time once the session is in step content. *)
Definition orderedCalls : list call :=
  [GetDiscoveryQuestions;
   SetResearchResults Sample.research;
   GenerateOutline None;
   SetOutline Sample.outline;
   GenerateScript;
   SetOutline Sample.outline;
   SetScript Sample.script;
   GenerateSlides 0;
   SetSlides Sample.scriptDeck;
   GenerateQAPrep;
   StartRehearsal 0;
   GetPracticeSuggestions].

Lemma steps_forward_in_order_witness :
  allInOrder Sample.collaborators orderedCalls Sample.fresh = true /\
  stepwise WorkflowStep.ideation (run Sample.collaborators orderedCalls (Some Sample.fresh)).
Proof.
  assert (H : allInOrder Sample.collaborators orderedCalls Sample.fresh = true)
    by (vm_compute; reflexivity).
  split; [exact H|].
  exact (proj2 (proj1 (proj2 (steps_forward_in_order
                                Sample.collaborators orderedCalls Sample.fresh)))
               H).
Defined.

(** The steps that run goes through. *)
Example orderedCalls_steps :
  map (option_map WorkflowState.currentStep)
      (run Sample.collaborators orderedCalls (Some Sample.fresh))
  = map Some
      [WorkflowStep.ideation; WorkflowStep.outline; WorkflowStep.outline;
       WorkflowStep.content; WorkflowStep.content; WorkflowStep.content;
       WorkflowStep.export; WorkflowStep.export; WorkflowStep.rehearsal;
       WorkflowStep.rehearsal; WorkflowStep.rehearsal; WorkflowStep.rehearsal].
Proof. vm_compute. reflexivity. Qed.

(** The run a new coordinator makes of [initialize], [setSlides],
    [setResearchResults]. *)
Definition outOfOrderCalls : list call :=
  [Initialize Sample.input; SetSlides Sample.scriptDeck; SetResearchResults Sample.research].

(** C1 (as stated) fails: on a coordinator without a session, the calls
    [initialize], [setSlides], [setResearchResults] all return normally
    and take the session through the steps ideation, rehearsal, outline:
    [setSlides] skips three steps and [setResearchResults] goes back
    three. *)
Lemma setResearchResults_moves_back_setSlides_skips :
  map (option_map WorkflowState.currentStep) (run Sample.collaborators outOfOrderCalls None)
  = [Some WorkflowStep.ideation; Some WorkflowStep.rehearsal; Some WorkflowStep.outline] /\
  position WorkflowStep.ideation + 1 < position WorkflowStep.rehearsal /\
  position WorkflowStep.outline < position WorkflowStep.rehearsal /\
  snd (perform Sample.collaborators (Initialize Sample.input) None) = Some Sample.fresh /\
  ~ stepwise WorkflowStep.ideation
      (run Sample.collaborators
           [SetSlides Sample.scriptDeck; SetResearchResults Sample.research]
           (Some Sample.fresh)).
Proof.
  split; [vm_compute; reflexivity|].
  cbn [position]. split; [lia|]. split; [lia|]. split; [vm_compute; reflexivity|].
  cbn. intros [[H|H] _]; discriminate H.
Qed.

(** C2 (as amended). Without a session, the methods guarded by
    [if (!this.state) throw] fail with "Session not initialized";
    [getDiscoveryQuestions] and [getTopicSuggestions] return an empty list
    instead; the methods that need an artifact fail with the message of
    that artifact; none of them creates a session. *)
Theorem calls_without_session (env : Collaborators.t) :
  let notInitialized {A : Type} (r : outcome A * option WorkflowState.t) :=
    r = (Throw "Session not initialized", None) in
  let failsWith {A : Type} (message : string) (r : outcome A * option WorkflowState.t) :=
    r = (Throw message, None) in
  (notInitialized (generateIdeationPrompt env None) /\
   (forall research, notInitialized (setResearchResults research None)) /\
   (forall keyConcepts, notInitialized (generateOutline keyConcepts None)) /\
   (forall keyConcepts, notInitialized (getOutlinePrompt env keyConcepts None)) /\
   (forall outline, notInitialized (setOutline outline None)) /\
   (forall script, notInitialized (setScript env script None)) /\
   notInitialized (getHookSuggestions env None) /\
   (forall slides, notInitialized (setSlides slides None)) /\
   notInitialized (getPracticeSuggestions None) /\
   (forall keyConcepts, notInitialized (getResearchGuidance env keyConcepts None)) /\
   notInitialized (TalkPrepSkill.getTemplate None)) /\
  (getDiscoveryQuestions None = (Return [], None) /\
   getTopicSuggestions env None = (Return [], None)) /\
  (failsWith "No outline available" (getOutlineMarkdown env None) /\
   failsWith "Outline required before generating script" (generateScript None) /\
   failsWith "Outline required" (getScriptPrompt env None) /\
   failsWith "No script available" (getScriptMarkdown env None) /\
   (forall now, failsWith "Outline required before generating slides"
                          (generateSlides env now None)) /\
   failsWith "Outline required" (getSlidesPrompt env None) /\
   (forall options, failsWith "No slides available" (exportSlides options None)) /\
   failsWith "Outline required" (generateQAPrep None) /\
   failsWith "Outline required" (getQAPrompt env None) /\
   failsWith "No Q&A preparation available" (getQAMarkdown env None) /\
   (forall now, failsWith "Outline required" (startRehearsal now None)) /\
   failsWith "Outline required" (getTimingCues env None)).
Proof. cbv zeta. repeat split. Qed.

(** C2 (as stated) fails: without a session [getDiscoveryQuestions]
    returns the empty list and throws nothing, and [generateScript] throws
    another error than "Session not initialized". *)
Lemma getDiscoveryQuestions_without_session_returns :
  getDiscoveryQuestions None = (Return [], None) /\
  getDiscoveryQuestions None <> (Throw "Session not initialized", None) /\
  generateScript None = (Throw "Outline required before generating script", None) /\
  generateScript None <> (Throw "Session not initialized", None).
Proof. repeat split; discriminate. Qed.

(** With a session, the discovery questions are never the empty list, so
    the empty answer is specific to the missing session. *)
Lemma getDiscoveryQuestions_with_session (st : WorkflowState.t) :
  exists q qs, getDiscoveryQuestions (Some st) = (Return (q :: qs), Some st).
Proof. unfold getDiscoveryQuestions, generateDiscoveryQuestions. cbn. eauto. Qed.

(** C9. On an initialized session [generateOutline] succeeds, stores the
    outline it returns in the session's outline slot, and leaves the
    current step, the completed steps and every other slot as they were;
    the outline is the one built from the template of the configured talk
    type. *)
Theorem generateOutline_keeps_workflow_position
    (st : WorkflowState.t) (keyConcepts : option (list string)) :
  exists (outline : TalkOutline.t) (st' : WorkflowState.t),
    generateOutline keyConcepts (Some st) = (Return outline, Some st') /\
    WorkflowState.outline st' = Some outline /\
    WorkflowState.currentStep st' = WorkflowState.currentStep st /\
    WorkflowState.completedSteps st' = WorkflowState.completedSteps st /\
    WorkflowState.config st' = WorkflowState.config st /\
    WorkflowState.research st' = WorkflowState.research st /\
    WorkflowState.script st' = WorkflowState.script st /\
    WorkflowState.slides st' = WorkflowState.slides st /\
    WorkflowState.qaPrep st' = WorkflowState.qaPrep st /\
    WorkflowState.rehearsals st' = WorkflowState.rehearsals st /\
    TalkOutline.sections outline
      = TalkOutline.sections
          (generateOutlineFromTemplate
             (templateFor (TalkConfig.talkType (WorkflowState.config st)))
             (TalkConfig.topic (WorkflowState.config st))
             (TalkConfig.duration (WorkflowState.config st))).
Proof.
  unfold generateOutline, withState. do 2 eexists. split; [reflexivity|].
  cbn. repeat split.
Qed.

(** By contrast [setOutline] moves the session to step content when the
    timing of the outline is valid, and only then. *)
Lemma setOutline_step (st : WorkflowState.t) (outline : TalkOutline.t) :
  exists st' : WorkflowState.t,
    snd (setOutline outline (Some st)) = Some st' /\
    WorkflowState.currentStep st'
      = if OutlineTimingValidation.isValid (validateOutlineTiming outline)
        then WorkflowStep.content
        else WorkflowState.currentStep st.
Proof.
  unfold setOutline, withState.
  destruct (OutlineTimingValidation.isValid (validateOutlineTiming outline));
    eexists; split; reflexivity.
Qed.

(** C10. A call of [initialize] that reports success leaves a fresh
    session, whatever the state before: step ideation, no completed step,
    no rehearsal, no research, outline, script, slides or Q&A artifact,
    and the parsed configuration; the result carries that same session. *)
Theorem initialize_fresh_session
    (env : Collaborators.t) (configInput : Raw.value)
    (prior : option WorkflowState.t)
    (result : InitializeResult.t) (state' : option WorkflowState.t) :
  initialize env configInput prior = (Return result, state') ->
  InitializeResult.success result = true ->
  exists st : WorkflowState.t,
    state' = Some st /\
    InitializeResult.state result = Some st /\
    WorkflowState.currentStep st = WorkflowStep.ideation /\
    WorkflowState.completedSteps st = [] /\
    WorkflowState.rehearsals st = [] /\
    WorkflowState.research st = None /\
    WorkflowState.outline st = None /\
    WorkflowState.script st = None /\
    WorkflowState.slides st = None /\
    WorkflowState.qaPrep st = None /\
    TalkConfigSchema_data configInput = Some (WorkflowState.config st).
Proof.
  unfold initialize, safeParse. intros H Hs.
  destruct (TalkConfigSchema_data configInput) as [config|] eqn:E.
  - inversion H; subst. eexists. repeat split.
  - inversion H; subst. discriminate Hs.
Qed.

Lemma initialize_fresh_session_witness :
  initialize Sample.collaborators Sample.input (Some Sample.rehearsing)
    = (Return Sample.initialized, Some Sample.fresh) /\
  InitializeResult.success Sample.initialized = true /\
  exists st : WorkflowState.t,
    Some Sample.fresh = Some st /\
    WorkflowState.currentStep st = WorkflowStep.ideation /\
    WorkflowState.completedSteps st = [] /\
    WorkflowState.slides st = None.
Proof.
  assert (H : initialize Sample.collaborators Sample.input (Some Sample.rehearsing)
              = (Return Sample.initialized, Some Sample.fresh))
    by (vm_compute; reflexivity).
  assert (Hs : InitializeResult.success Sample.initialized = true) by reflexivity.
  split; [exact H|]. split; [exact Hs|].
  destruct (initialize_fresh_session Sample.collaborators Sample.input
              (Some Sample.rehearsing) Sample.initialized (Some Sample.fresh) H Hs)
    as (st & H1 & _ & H3 & H4 & _ & _ & _ & _ & H9 & _).
  exists st. auto.
Defined.

(** The schema counts the characters of a topic, not its bytes: a topic
    of two CJK characters is rejected as too short, and one of three is
    accepted. *)
Example topic_length_in_characters :
  TalkConfigSchema_data (Raw.object [("topic", Raw.str "日本")]) = None /\
  option_map TalkConfig.topic (TalkConfigSchema_data (Raw.object [("topic", Raw.str "日本語")]))
  = Some "日本語".
Proof. split; vm_compute; reflexivity. Qed.

End SkillFacts.

(* ================================================================== *)
(** * Rehearsal sessions: timing updates and feedback                  *)
(* ================================================================== *)

Section RehearsalFacts.

(** A timing record has been timed. *)
Definition timed (r : RehearsalSectionTiming.t) : bool :=
  match RehearsalSectionTiming.actualDuration r with
  | Some _ => true
  | None => false
  end.

(** A record is coherent when it is completed exactly if it is timed,
    and is never left in progress. *)
Definition coherent (r : RehearsalSectionTiming.t) : bool :=
  match RehearsalSectionTiming.status r, RehearsalSectionTiming.actualDuration r with
  | RehearsalSectionTiming.completed, Some _ => true
  | RehearsalSectionTiming.not_started, None => true
  | _, _ => false
  end.

(** A run of [updateSectionTiming] calls, oldest first. *)
Definition updateAll (session : RehearsalSession.t) (updates : list (string * number))
  : RehearsalSession.t :=
  fold_left (fun s u => updateSectionTiming s (fst u) (snd u)) updates session.

(** X1. Timing the same section again overwrites the earlier reading; in
    particular a repeated update changes nothing. *)
Lemma updateSectionTiming_overwrites
    (session : RehearsalSession.t) (sectionId : string) (first second : number) :
  updateSectionTiming (updateSectionTiming session sectionId first) sectionId second
  = updateSectionTiming session sectionId second.
Proof.
  unfold updateSectionTiming; cbn. f_equal.
  rewrite map_map. apply map_ext. intros r.
  destruct (RehearsalSectionTiming.sectionId r =? sectionId)%string eqn:E; cbn; rewrite E;
    reflexivity.
Qed.

(** X2. Updates of different section ids can be made in either order. *)
Lemma updateSectionTiming_commutes
    (session : RehearsalSession.t) (id1 id2 : string) (d1 d2 : number) :
  id1 <> id2 ->
  updateSectionTiming (updateSectionTiming session id1 d1) id2 d2
  = updateSectionTiming (updateSectionTiming session id2 d2) id1 d1.
Proof.
  intros Hne. unfold updateSectionTiming; cbn. f_equal.
  rewrite !map_map. apply map_ext. intros r.
  destruct (RehearsalSectionTiming.sectionId r =? id1)%string eqn:E1;
    destruct (RehearsalSectionTiming.sectionId r =? id2)%string eqn:E2;
    cbn; rewrite ?E1, ?E2; try reflexivity.
  apply String.eqb_eq in E1, E2. congruence.
Qed.

Lemma updateSectionTiming_commutes_witness :
  "section-0" <> "section-1" /\
  updateSectionTiming
    (updateSectionTiming (createRehearsalSession 0 Sample.outline) "section-0" 100%float) "section-1" 200%float
  = updateSectionTiming
      (updateSectionTiming (createRehearsalSession 0 Sample.outline) "section-1" 200%float) "section-0" 100%float.
Proof.
  assert (H : "section-0" <> "section-1") by discriminate.
  split; [exact H|].
  exact (updateSectionTiming_commutes (createRehearsalSession 0 Sample.outline)
           "section-0" "section-1" 100%float 200%float H).
Defined.

Lemma updateAll_sections (session : RehearsalSession.t) (updates : list (string * number)) :
  RehearsalSession.sections (updateAll session updates)
  = map (fun r =>
           fold_left
             (fun r u =>
                if (RehearsalSectionTiming.sectionId r =? fst u)%string then
                  {| RehearsalSectionTiming.sectionId := RehearsalSectionTiming.sectionId r;
                     RehearsalSectionTiming.targetDuration :=
                       RehearsalSectionTiming.targetDuration r;
                     RehearsalSectionTiming.actualDuration := Some (snd u);
                     RehearsalSectionTiming.status := RehearsalSectionTiming.completed |}
                else r)
             updates r)
        (RehearsalSession.sections session).
Proof.
  unfold updateAll. revert session.
  induction updates as [|u updates IH]; intros session; cbn [fold_left].
  - now rewrite map_id.
  - rewrite IH. unfold updateSectionTiming; cbn. now rewrite map_map.
Qed.

Lemma updateAll_id (session : RehearsalSession.t) (updates : list (string * number)) :
  RehearsalSession.id (updateAll session updates) = RehearsalSession.id session.
Proof.
  unfold updateAll. revert session.
  induction updates as [|u updates IH]; intros session; cbn [fold_left]; [reflexivity|].
  now rewrite IH.
Qed.

(** The record a run of updates leaves of one record. *)
Lemma updated_record (updates : list (string * number)) (r : RehearsalSectionTiming.t) :
  let r' :=
    fold_left
      (fun r u =>
         if (RehearsalSectionTiming.sectionId r =? fst u)%string then
           {| RehearsalSectionTiming.sectionId := RehearsalSectionTiming.sectionId r;
              RehearsalSectionTiming.targetDuration := RehearsalSectionTiming.targetDuration r;
              RehearsalSectionTiming.actualDuration := Some (snd u);
              RehearsalSectionTiming.status := RehearsalSectionTiming.completed |}
         else r)
      updates r in
  RehearsalSectionTiming.sectionId r' = RehearsalSectionTiming.sectionId r /\
  RehearsalSectionTiming.targetDuration r' = RehearsalSectionTiming.targetDuration r /\
  (coherent r = true -> coherent r' = true) /\
  timed r' = timed r
             || existsb (String.eqb (RehearsalSectionTiming.sectionId r)) (map fst updates).
Proof.
  revert r. induction updates as [|u updates IH]; intros r; cbn [fold_left map existsb].
  - rewrite orb_false_r. repeat split. auto.
  - destruct (RehearsalSectionTiming.sectionId r =? fst u)%string eqn:E.
    + match goal with |- context [fold_left _ updates ?x] => specialize (IH x) end.
      cbn zeta in IH. cbn [RehearsalSectionTiming.sectionId
                            RehearsalSectionTiming.targetDuration] in IH.
      destruct IH as (Hid & Htarget & Hcoh & Htimed).
      cbn zeta. repeat split; try assumption.
      * intros _. apply Hcoh. reflexivity.
      * rewrite Htimed. cbn. now rewrite orb_true_r.
    + specialize (IH r). cbn zeta in IH. destruct IH as (Hid & Htarget & Hcoh & Htimed).
      cbn zeta. repeat split; assumption.
Qed.

(** X3. Whatever sections are timed and however often, the records of a
    session made by [createRehearsalSession] keep mirroring the sections
    of the outline, in order: same ids, targets of 60 times the planned
    minutes, and each record either not started and without a reading or
    completed and with one. *)
Theorem rehearsal_records_mirror_outline
    (now : Z) (outline : TalkOutline.t) (updates : list (string * number)) :
  let session := updateAll (createRehearsalSession now outline) updates in
  map RehearsalSectionTiming.sectionId (RehearsalSession.sections session)
    = map OutlineSection.id (TalkOutline.sections outline) /\
  map RehearsalSectionTiming.targetDuration (RehearsalSession.sections session)
    = map (fun s => (OutlineSection.duration s * 60)%float) (TalkOutline.sections outline) /\
  forallb coherent (RehearsalSession.sections session) = true /\
  RehearsalSession.id session = ("rehearsal-" ++ Z_to_string now)%string.
Proof.
  intros session. unfold session.
  split; [|split; [|split]]; [| | |now rewrite updateAll_id];
    rewrite updateAll_sections;
    cbn [createRehearsalSession RehearsalSession.sections]; rewrite ?map_map.
  - apply map_ext. intros s. apply (updated_record updates).
  - apply map_ext. intros s. apply (updated_record updates).
  - apply forallb_forall. intros r Hr. apply in_map_iff in Hr as (s & <- & _).
    apply (updated_record updates). reflexivity.
Qed.

(** The loop of [generateRehearsalFeedback], as a sum and a list. *)
Lemma feedback_loop (sections : list RehearsalSectionTiming.t)
    (total : number) (feedback : list SectionFeedback.t) :
  fold_left
    (fun (acc : number * list SectionFeedback.t) section =>
       match RehearsalSectionTiming.actualDuration section with
       | Some actualDuration =>
           ((fst acc + actualDuration)%float,
            snd acc ++ [timedSectionFeedback section actualDuration])
       | None => acc
       end)
    sections (total, feedback)
  = (fold_left (fun t section =>
                  match RehearsalSectionTiming.actualDuration section with
                  | Some actualDuration => (t + actualDuration)%float
                  | None => t
                  end) sections total,
     feedback ++ flat_map (fun section =>
                             match RehearsalSectionTiming.actualDuration section with
                             | Some actualDuration =>
                                 [timedSectionFeedback section actualDuration]
                             | None => []
                             end) sections).
Proof.
  revert total feedback. induction sections as [|s sections IH]; intros total feedback;
    cbn [fold_left flat_map].
  - now rewrite app_nil_r.
  - destruct (RehearsalSectionTiming.actualDuration s) as [a|]; cbn [fst snd].
    + rewrite IH. now rewrite <- app_assoc.
    + apply IH.
Qed.

Lemma timedSectionFeedback_shape (section : RehearsalSectionTiming.t) (actual : number) :
  let f := timedSectionFeedback section actual in
  SectionFeedback.sectionId f = RehearsalSectionTiming.sectionId section /\
  List.length (SectionFeedback.suggestions f) = (if is_on_track f then 1 else 2)%nat.
Proof.
  unfold timedSectionFeedback.
  destruct (15 <? _)%float; [now split|].
  destruct (_ <? -15)%float; now split.
Qed.

Lemma sectionFeedback_eq (session : RehearsalSession.t) (outline : TalkOutline.t) :
  RehearsalFeedback.sectionFeedback (generateRehearsalFeedback session outline)
  = flat_map (fun section =>
                match RehearsalSectionTiming.actualDuration section with
                | Some actualDuration => [timedSectionFeedback section actualDuration]
                | None => []
                end) (RehearsalSession.sections session).
Proof.
  unfold generateRehearsalFeedback. rewrite feedback_loop. reflexivity.
Qed.

(** X4. The feedback has one entry per timed section, in the order of the
    session, under that section's id, with one suggestion when on track
    and two otherwise; the two overall checks each put one line into the
    strengths or into the improvements, and every improvement comes with
    one suggestion. *)
Theorem generateRehearsalFeedback_shape
    (session : RehearsalSession.t) (outline : TalkOutline.t) :
  let feedback := generateRehearsalFeedback session outline in
  map SectionFeedback.sectionId (RehearsalFeedback.sectionFeedback feedback)
    = map RehearsalSectionTiming.sectionId (filter timed (RehearsalSession.sections session)) /\
  Forall (fun f => List.length (SectionFeedback.suggestions f)
                   = (if is_on_track f then 1 else 2)%nat)
         (RehearsalFeedback.sectionFeedback feedback) /\
  (List.length (RehearsalFeedback.strengthAreas feedback)
   + List.length (RehearsalFeedback.improvementAreas feedback) = 2)%nat /\
  List.length (RehearsalFeedback.suggestions feedback)
    = List.length (RehearsalFeedback.improvementAreas feedback).
Proof.
  intros feedback. split; [|split].
  - unfold feedback. rewrite sectionFeedback_eq.
    induction (RehearsalSession.sections session) as [|s l IH]; [reflexivity|].
    cbn [flat_map filter]. unfold timed at 1.
    destruct (RehearsalSectionTiming.actualDuration s) as [a|]; [|exact IH].
    cbn [List.app map]. rewrite IH. f_equal. apply timedSectionFeedback_shape.
  - unfold feedback. rewrite sectionFeedback_eq.
    induction (RehearsalSession.sections session) as [|s l IH]; [constructor|].
    cbn [flat_map]. destruct (RehearsalSectionTiming.actualDuration s) as [a|]; [|exact IH].
    constructor; [apply timedSectionFeedback_shape | exact IH].
  - unfold feedback, generateRehearsalFeedback. rewrite feedback_loop.
    cbv beta iota zeta.
    cbn [RehearsalFeedback.strengthAreas RehearsalFeedback.improvementAreas
         RehearsalFeedback.suggestions].
    destruct (_ <? _)%float; destruct (_ <=? _)%float; try destruct (0 <? _)%float;
      split; reflexivity.
Qed.

(** X5. From a new session through any run of timing updates to the
    feedback: the feedback lists exactly the sections of the outline
    whose id was given in some update, in outline order. *)
Theorem feedback_lists_timed_sections
    (now : Z) (outline reported : TalkOutline.t) (updates : list (string * number)) :
  map SectionFeedback.sectionId
      (RehearsalFeedback.sectionFeedback
         (generateRehearsalFeedback
            (updateAll (createRehearsalSession now outline) updates) reported))
  = filter (fun id => existsb (String.eqb id) (map fst updates))
           (map OutlineSection.id (TalkOutline.sections outline)).
Proof.
  rewrite sectionFeedback_eq, updateAll_sections.
  cbn [createRehearsalSession RehearsalSession.sections]. rewrite map_map.
  induction (TalkOutline.sections outline) as [|s l IH]; [reflexivity|].
  cbn [map flat_map filter].
  match goal with |- context [fold_left ?f updates ?r] =>
    pose proof (updated_record updates r) as H; cbn zeta in H;
    destruct H as (Hid & _ & _ & Htimed); set (r' := fold_left f updates r) in * end.
  cbn [RehearsalSectionTiming.sectionId timed RehearsalSectionTiming.actualDuration] in Hid, Htimed.
  cbn [orb] in Htimed. rewrite <- Htimed. unfold timed.
  destruct (RehearsalSectionTiming.actualDuration r') as [a|]; cbn [List.app map].
  - rewrite IH. f_equal.
    rewrite (proj1 (timedSectionFeedback_shape r' a)). exact Hid.
  - exact IH.
Qed.

(** A new session has been timed nowhere: its feedback has no section
    entry and a total of 0 seconds spoken. *)
Lemma feedback_of_new_session (now : Z) (outline reported : TalkOutline.t) :
  let feedback := generateRehearsalFeedback (createRehearsalSession now outline) reported in
  RehearsalFeedback.sectionFeedback feedback = [] /\
  RehearsalFeedback.actual (RehearsalFeedback.overallTiming feedback) = 0%float.
Proof.
  cbn zeta. unfold generateRehearsalFeedback. rewrite feedback_loop.
  cbn [createRehearsalSession RehearsalSession.sections RehearsalFeedback.sectionFeedback
       RehearsalFeedback.overallTiming RehearsalFeedback.actual List.app].
  induction (TalkOutline.sections outline) as [|s l IH]; [split; reflexivity|].
  cbn [map flat_map fold_left RehearsalSectionTiming.actualDuration List.app]. exact IH.
Qed.

(** The whole minutes a talk can be planned for or run to. *)
Definition wholeMinutes : list Z := map Z.of_nat (seq 0 601).

Lemma wholeMinutes_range (m : Z) : (0 <= m <= 600)%Z -> In m wholeMinutes.
Proof.
  intros H. apply in_map_iff. exists (Z.to_nat m). split; [lia|].
  apply in_seq. lia.
Qed.

(** X6. A whole number of minutes from 0 to 600 is shown with at least two
    digits of minutes and 00 seconds. *)
Theorem formatTime_whole_minutes (m : Z) :
  (0 <= m <= 600)%Z ->
  formatTime (number_of_Z m)
  = ((if (m <? 10)%Z then "0" else "") ++ Z_to_string m ++ ":00")%string.
Proof.
  intros H. apply wholeMinutes_range in H. revert m H.
  apply ext_in_map. vm_compute. reflexivity.
Qed.

Lemma formatTime_whole_minutes_witness :
  (0 <= 7 <= 600)%Z /\ formatTime (number_of_Z 7) = "07:00".
Proof.
  split; [lia|]. exact (formatTime_whole_minutes 7 ltac:(lia)).
Defined.

(** Seconds are rounded after the minutes are cut off, so a time just
    below a whole minute is shown with 60 seconds. *)
Example formatTime_sixty_seconds :
  map formatTime [1.5; 12.25; 1.9999; 0.999]%float = ["01:30"; "12:15"; "01:60"; "00:60"].
Proof. vm_compute. reflexivity. Qed.

End RehearsalFacts.

(* ================================================================== *)
(** * The durations the configuration schema lets through               *)
(* ================================================================== *)

Section DurationFacts.

(** The duration the schema lets through: an integer from 5 to 120. *)
Definition durationInRange (d : number) : bool :=
  Number_isInteger d && (5 <=? d)%float && (d <=? 120)%float.

Lemma digits2_pos_bounds (m : positive) :
  (2 ^ (Z.pos (digits2_pos m) - 1) <= Z.pos m < 2 ^ Z.pos (digits2_pos m))%Z.
Proof.
  induction m as [m IH|m IH|]; cbn [digits2_pos].
  - rewrite Pos2Z.inj_succ.
    replace (Z.succ (Z.pos (digits2_pos m)) - 1)%Z with (Z.succ (Z.pos (digits2_pos m) - 1))%Z
      by lia.
    rewrite !Z.pow_succ_r by lia. lia.
  - rewrite Pos2Z.inj_succ.
    replace (Z.succ (Z.pos (digits2_pos m)) - 1)%Z with (Z.succ (Z.pos (digits2_pos m) - 1))%Z
      by lia.
    rewrite !Z.pow_succ_r by lia. lia.
  - cbn. lia.
Qed.

Lemma in_range (lo : Z) (n : nat) (k : Z) :
  (lo <= k < lo + Z.of_nat n)%Z -> In k (map (fun i => (lo + Z.of_nat i)%Z) (seq 0 n)).
Proof.
  intros H. apply in_map_iff. exists (Z.to_nat (k - lo)). split; [lia|].
  apply in_seq. lia.
Qed.

(** The double with mantissa [k * 2^shift] and exponent [-shift]. *)
Definition scaled (shift : Z) (k : Z) : number :=
  SF2Prim (S754_finite false (Z.to_pos (k * 2 ^ shift)) (- shift)).

Lemma scaled_integer (shift lo : Z) (n : nat) (k : Z) :
  map (scaled shift) (map (fun i => (lo + Z.of_nat i)%Z) (seq 0 n))
  = map number_of_Z (map (fun i => (lo + Z.of_nat i)%Z) (seq 0 n)) ->
  (lo <= k < lo + Z.of_nat n)%Z ->
  scaled shift k = number_of_Z k.
Proof.
  intros E H. apply (ext_in_map E). now apply in_range.
Qed.

(** A double that is an integer and lies between 5 and 120 is the double
    of one of the integers 5, ..., 120. *)
Lemma durationInRange_integer (d : number) :
  durationInRange d = true -> exists D : Z, (5 <= D <= 120)%Z /\ d = number_of_Z D.
Proof.
  unfold durationInRange. intros H.
  apply andb_prop in H as [H H120]. apply andb_prop in H as [Hint H5].
  rewrite leb_spec in H5, H120. unfold Number_isInteger in Hint.
  pose proof (Prim2SF_valid d) as Hv. pose proof (SF2Prim_Prim2SF d) as Hd.
  change (Prim2SF 5) with (S754_finite false 5629499534213120 (-50)) in H5.
  change (Prim2SF 120) with (S754_finite false 8444249301319680 (-46)) in H120.
  destruct (Prim2SF d) as [s|s| |s m e]; try discriminate Hint.
  - cbv in H5. discriminate H5.
  - destruct s; [cbv in H5; discriminate H5|].
    unfold SFleb, SFcompare in H5, H120.
    unfold SpecFloat.valid_binary, bounded, canonical_mantissa, fexp in Hv.
    apply andb_prop in Hv as [Hc _]. apply Z.eqb_eq in Hc.
    change (SpecFloat.emin prec emax) with (-1074)%Z in Hc. change prec with 53%Z in Hc.
    pose proof (digits2_pos_bounds m) as Hm.
    assert (He : (-50 <= e <= -46)%Z).
    { destruct (Z.compare_spec (-50) e), (Z.compare_spec e (-46)); try discriminate; lia. }
    assert (Hdigits : Z.pos (digits2_pos m) = 53%Z) by lia.
    rewrite Hdigits in Hm. clear Hc Hdigits.
    destruct (0 <=? e)%Z eqn:E0; [apply Z.leb_le in E0; lia|]. cbn [orb] in Hint.
    apply Z.eqb_eq in Hint.
    assert (Hlo : e = (-50)%Z -> (5629499534213120 <= Z.pos m)%Z).
    { intros ->. rewrite Z.compare_refl in H5.
      apply (Pos2Z.pos_le_pos 5629499534213120 m), Pos.leb_le. exact H5. }
    assert (Hhi : e = (-46)%Z -> (Z.pos m <= 8444249301319680)%Z).
    { intros ->. rewrite Z.compare_refl in H120.
      apply (Pos2Z.pos_le_pos m 8444249301319680), Pos.leb_le. exact H120. }
    clear H5 H120.
    exists (Z.pos m / 2 ^ (- e))%Z.
    assert (Hk : Z.pos m = (Z.pos m / 2 ^ (- e) * 2 ^ (- e))%Z).
    { rewrite Z.mul_comm. apply Z.div_exact; [|exact Hint].
      apply Z.pow_nonzero; lia. }
    generalize dependent (Z.pos m / 2 ^ (- e))%Z. intros k Hk.
    assert (Hshape : d = scaled (- e) k).
    { unfold scaled. rewrite <- Hk, Z.opp_involutive. cbn [Z.to_pos]. now symmetry. }
    clear Hd Hint. rewrite Hshape.
    assert (Cases : e = (-50)%Z \/ e = (-49)%Z \/ e = (-48)%Z \/ e = (-47)%Z \/ e = (-46)%Z)
      by lia.
    destruct Cases as [->|[->|[->|[->| ->]]]]; cbn [Z.opp] in *.
    + specialize (Hlo eq_refl). change (2 ^ 50)%Z with 1125899906842624%Z in Hk.
      assert (B : (5 <= k < 5 + Z.of_nat 3)%Z) by (cbn; lia).
      split; [lia|]. apply (scaled_integer 50 5 3); [vm_compute; reflexivity | exact B].
    + change (2 ^ 49)%Z with 562949953421312%Z in Hk.
      assert (B : (8 <= k < 8 + Z.of_nat 8)%Z) by (cbn; lia).
      split; [lia|]. apply (scaled_integer 49 8 8); [vm_compute; reflexivity | exact B].
    + change (2 ^ 48)%Z with 281474976710656%Z in Hk.
      assert (B : (16 <= k < 16 + Z.of_nat 16)%Z) by (cbn; lia).
      split; [lia|]. apply (scaled_integer 48 16 16); [vm_compute; reflexivity | exact B].
    + change (2 ^ 47)%Z with 140737488355328%Z in Hk.
      assert (B : (32 <= k < 32 + Z.of_nat 32)%Z) by (cbn; lia).
      split; [lia|]. apply (scaled_integer 47 32 32); [vm_compute; reflexivity | exact B].
    + specialize (Hhi eq_refl). change (2 ^ 46)%Z with 70368744177664%Z in Hk.
      assert (B : (64 <= k < 64 + Z.of_nat 57)%Z) by (cbn; lia).
      split; [lia|]. apply (scaled_integer 46 64 57); [vm_compute; reflexivity | exact B].
Qed.

End DurationFacts.

(* ================================================================== *)
(** * Challenging topics                                               *)
(* ================================================================== *)

Lemma flat_map_nil_iff {A B : Type} (f : A -> list B) (l : list A) :
  flat_map f l = [] <-> forall x, In x l -> f x = [].
Proof.
  induction l as [|a l IH]; cbn [flat_map].
  - split; [intros _ x [] | reflexivity].
  - split.
    + intros H. apply app_eq_nil in H as [Ha Hl]. intros x [<-|Hx]; [exact Ha|].
      now apply IH.
    + intros H. rewrite (H a (or_introl eq_refl)). cbn. apply IH.
      intros x Hx. apply H. now right.
Qed.

(** X8. [identifyChallengingTopics] reports nothing exactly when no section
    has more than 4 key points and no key point, read in lower case,
    contains one of the words best, only, always, never, wrong. *)
Theorem identifyChallengingTopics_nothing_iff (outline : TalkOutline.t) :
  identifyChallengingTopics outline = [] <->
  forall section : OutlineSection.t,
    In section (TalkOutline.sections outline) ->
    (List.length (OutlineSection.keyPoints section) <= 4)%nat /\
    forall point : string,
      In point (OutlineSection.keyPoints section) ->
      forall keyword : string,
        In keyword ["best"; "only"; "always"; "never"; "wrong"] ->
        includes (toLowerCase point) keyword = false.
Proof.
  unfold identifyChallengingTopics. rewrite flat_map_nil_iff.
  split; intros H section Hs; specialize (H section Hs).
  - apply app_eq_nil in H as [Hlen Hpoints]. split.
    + destruct (4 <? _)%nat eqn:E; [discriminate Hlen|]. apply Nat.ltb_ge in E. exact E.
    + rewrite flat_map_nil_iff in Hpoints. intros point Hp keyword Hk.
      specialize (Hpoints point Hp). unfold some in Hpoints.
      destruct (existsb _ controversialKeywords) eqn:E; [discriminate Hpoints|].
      destruct (includes (toLowerCase point) keyword) eqn:Ei; [|reflexivity].
      rewrite <- E. symmetry. apply existsb_exists. exists keyword. split; assumption.
  - destruct H as [Hlen Hpoints].
    apply Nat.ltb_ge in Hlen. rewrite Hlen. cbn [List.app].
    apply flat_map_nil_iff. intros point Hp. unfold some.
    destruct (existsb _ controversialKeywords) eqn:E; [|reflexivity].
    apply existsb_exists in E as (keyword & Hk & Hi).
    rewrite (Hpoints point Hp keyword Hk) in Hi. discriminate Hi.
Qed.

(** Two key points with an absolute word, in a section of five. *)
Example identifyChallengingTopics_sample :
  identifyChallengingTopics
    {| TalkOutline.title := "t"; TalkOutline.subtitle := None;
       TalkOutline.totalDuration := 30%float;
       TalkOutline.sections :=
         [{| OutlineSection.id := "s"; OutlineSection.title := "Caching";
             OutlineSection.duration := 10%float; OutlineSection.order := 0;
             OutlineSection.type := OutlineSection.main;
             OutlineSection.keyPoints :=
               ["Never cache secrets"; "TTL"; "The BEST eviction policy"; "Keys"; "Warmup"];
             OutlineSection.subsections := None; OutlineSection.notes := None |}];
       TalkOutline.learningObjectives := []; TalkOutline.callToAction := None |}
  = ["Caching - complex with many sub-points";
     (dq ++ "Never cache secrets" ++ dq ++ " - absolute claims may be challenged")%string;
     (dq ++ "The BEST eviction policy" ++ dq ++ " - absolute claims may be challenged")%string].
Proof. vm_compute. reflexivity. Qed.

(* ================================================================== *)
(** * The workflow coordinator: what every reachable session satisfies *)
(* ================================================================== *)

Module CoordinatorFacts.

Local Abbreviation templateFor := getTemplate (only parsing).

Import TalkPrepSkill.

(** [P] holds of the session, if there is one. *)
Definition holds (P : WorkflowState.t -> Prop) (state : option WorkflowState.t) : Prop :=
  match state with
  | Some st => P st
  | None => True
  end.

(** [completed step st]: what [isStepCompleted step] answers. *)
Definition completed (step : WorkflowStep.t) (st : WorkflowState.t) : bool :=
  existsb (WorkflowStep.eqb step) (WorkflowState.completedSteps st).

Definition present {A : Type} (slot : option A) : bool :=
  match slot with
  | Some _ => true
  | None => false
  end.

(** What holds of a session however it was reached. *)
Record wellFormed (st : WorkflowState.t) : Prop := {
  wf_nodup : NoDup (WorkflowState.completedSteps st);
  wf_research :
    completed WorkflowStep.ideation st = true -> present (WorkflowState.research st) = true;
  wf_outline :
    completed WorkflowStep.outline st = true -> present (WorkflowState.outline st) = true;
  wf_script :
    completed WorkflowStep.content st = true -> present (WorkflowState.script st) = true;
  wf_slides :
    completed WorkflowStep.export st = true -> present (WorkflowState.slides st) = true;
  wf_rehearsed :
    completed WorkflowStep.rehearsal st = negb (List.length (WorkflowState.rehearsals st) =? 0)%nat;
  wf_rehearsal_outline :
    completed WorkflowStep.rehearsal st = true -> present (WorkflowState.outline st) = true;
  wf_step :
    match WorkflowState.currentStep st with
    | WorkflowStep.ideation => True
    | WorkflowStep.outline => completed WorkflowStep.ideation st = true
    | WorkflowStep.content => completed WorkflowStep.outline st = true
    | WorkflowStep.export => completed WorkflowStep.content st = true
    | WorkflowStep.rehearsal => completed WorkflowStep.export st = true
    end;
  wf_duration : durationInRange (TalkConfig.duration (WorkflowState.config st)) = true
}.

Lemma eqb_true (a b : WorkflowStep.t) : WorkflowStep.eqb a b = true <-> a = b.
Proof. destruct a, b; cbn; split; intros H; try reflexivity; discriminate H. Qed.

Lemma completed_In (step : WorkflowStep.t) (st : WorkflowState.t) :
  completed step st = true <-> In step (WorkflowState.completedSteps st).
Proof.
  unfold completed. rewrite existsb_exists. split.
  - intros (x & Hx & E). apply eqb_true in E. now subst.
  - intros H. exists step. split; [exact H | now apply eqb_true].
Qed.

Lemma completed_completeStep (step done : WorkflowStep.t) (st : WorkflowState.t) :
  completed step (completeStep done st) = completed step st || WorkflowStep.eqb step done.
Proof.
  unfold completeStep.
  destruct (existsb (WorkflowStep.eqb done) (WorkflowState.completedSteps st)) eqn:E.
  - destruct (WorkflowStep.eqb step done) eqn:Es; [|now rewrite orb_false_r].
    apply eqb_true in Es. subst. unfold completed. rewrite E. reflexivity.
  - unfold completed. cbn. rewrite existsb_app. cbn. now rewrite orb_false_r.
Qed.

Lemma NoDup_completeStep (done : WorkflowStep.t) (st : WorkflowState.t) :
  NoDup (WorkflowState.completedSteps st) ->
  NoDup (WorkflowState.completedSteps (completeStep done st)).
Proof.
  intros H. unfold completeStep.
  destruct (existsb (WorkflowStep.eqb done) (WorkflowState.completedSteps st)) eqn:E;
    [exact H|].
  cbn. apply NoDup_app; [exact H | repeat constructor; intros [] |].
  intros x Hx [<-|[]].
  apply (completed_In done st) in Hx. unfold completed in Hx. congruence.
Qed.

Lemma completeStep_frame (done : WorkflowStep.t) (st : WorkflowState.t) :
  let st' := completeStep done st in
  WorkflowState.currentStep st' = WorkflowState.currentStep st /\
  WorkflowState.config st' = WorkflowState.config st /\
  WorkflowState.research st' = WorkflowState.research st /\
  WorkflowState.outline st' = WorkflowState.outline st /\
  WorkflowState.script st' = WorkflowState.script st /\
  WorkflowState.slides st' = WorkflowState.slides st /\
  WorkflowState.qaPrep st' = WorkflowState.qaPrep st /\
  WorkflowState.rehearsals st' = WorkflowState.rehearsals st.
Proof. cbn zeta. unfold completeStep. destruct (existsb _ _); repeat split. Qed.

(** What the schema lets through has a duration in range. *)
Lemma schema_duration (input : Raw.value) (config : TalkConfig.t) :
  TalkConfigSchema_data input = Some config ->
  durationInRange (TalkConfig.duration config) = true.
Proof.
  unfold TalkConfigSchema_data. destruct input as [| | | | |items|fields]; try discriminate.
  destruct (topicField _); [|discriminate].
  destruct (enumField _ _ (Raw.get "audience" fields)); [|discriminate].
  destruct (durationField (Raw.get "duration" fields)) as [d|] eqn:Ed; [|discriminate].
  destruct (enumField _ _ (Raw.get "expertiseLevel" fields)); [|discriminate].
  destruct (enumField _ _ (Raw.get "talkType" fields)); [|discriminate].
  destruct (enumField _ _ (Raw.get "tone" fields)); [|discriminate].
  destruct (optionalString _ (Raw.get "speakerName" fields)); [|discriminate].
  destruct (optionalString _ (Raw.get "conferenceContext" fields)); [|discriminate].
  destruct (optionalString _ (Raw.get "additionalNotes" fields)); [|discriminate].
  intros H. injection H as <-. cbn [TalkConfig.duration].
  unfold durationField in Ed. destruct (Raw.get "duration" fields); try discriminate Ed.
  - injection Ed as <-. vm_compute. reflexivity.
  - fold (durationInRange n) in Ed. destruct (durationInRange n) eqn:E; [|discriminate Ed].
    injection Ed as <-. exact E.
Qed.

Ltac frame_completeStep :=
  repeat match goal with
  | |- context [completeStep ?d ?s] =>
      let H := fresh "Hframe" in
      pose proof (completeStep_frame d s) as H; cbn zeta in H;
      destruct H as (Hcur & Hcfg & Hres & Hout & Hscr & Hsli & Hqa & Hrehs);
      let Hc := fresh "Hdone" in
      pose proof (fun step => completed_completeStep step d s) as Hc;
      let Hn := fresh "Hnodup" in
      pose proof (NoDup_completeStep d s) as Hn;
      generalize dependent (completeStep d s); intros
  end.

(** Every call keeps a well-formed session well-formed, and
    [initialize] makes one. *)
Lemma perform_wellFormed (env : Collaborators.t) (c : call) (state : option WorkflowState.t) :
  holds wellFormed state -> holds wellFormed (snd (perform env c state)).
Proof.
  destruct c; SkillFacts.unfold_methods; unfold initialize, safeParse;
    destruct state as [st|]; cbn [holds]; intros Hwf; cbn [snd fst];
    repeat match goal with
           | |- context [TalkConfigSchema_data ?i] =>
               let E := fresh "Eschema" in destruct (TalkConfigSchema_data i) eqn:E
           | |- context [WorkflowState.outline st] =>
               destruct (WorkflowState.outline st) eqn:?
           | |- context [WorkflowState.script st] => destruct (WorkflowState.script st) eqn:?
           | |- context [WorkflowState.slides st] => destruct (WorkflowState.slides st) eqn:?
           | |- context [WorkflowState.qaPrep st] => destruct (WorkflowState.qaPrep st) eqn:?
           | |- context [if ?b then _ else _] => destruct b eqn:?
           end;
    cbn [snd fst holds observe]; try exact Hwf; try exact I.
  all: try (constructor; cbn; try reflexivity; try constructor;
            eauto using schema_duration; fail).
  all: destruct Hwf as [Hn Hr Ho Hs Hsl Hreh Hro Hst Hd].
  all: frame_completeStep.
  all: constructor.
  all: unfold completed, present in *.
  all: cbn [WorkflowState.currentStep WorkflowState.completedSteps
         WorkflowState.config WorkflowState.research WorkflowState.outline
         WorkflowState.script WorkflowState.slides WorkflowState.qaPrep
         WorkflowState.rehearsals set_currentStep set_research set_outline set_script
         set_slides set_qaPrep push_rehearsal] in *.
  all: cbn [WorkflowState.currentStep WorkflowState.completedSteps
         WorkflowState.config WorkflowState.research WorkflowState.outline
         WorkflowState.script WorkflowState.slides WorkflowState.qaPrep
         WorkflowState.rehearsals set_currentStep set_research set_outline set_script
         set_slides set_qaPrep push_rehearsal];
       rewrite ?Hdone, ?Hcur, ?Hcfg, ?Hres, ?Hout, ?Hscr, ?Hsli, ?Hqa, ?Hrehs;
       cbn [WorkflowState.currentStep WorkflowState.completedSteps
         WorkflowState.config WorkflowState.research WorkflowState.outline
         WorkflowState.script WorkflowState.slides WorkflowState.qaPrep
         WorkflowState.rehearsals set_currentStep set_research set_outline set_script
         set_slides set_qaPrep push_rehearsal WorkflowStep.eqb orb];
       rewrite ?orb_false_r, ?orb_true_r, ?length_app, ?Nat.add_1_r;
       auto.
  match goal with H : WorkflowState.outline st = Some _ |- _ => rewrite H end. reflexivity.
Qed.

Lemma run_invariant (env : Collaborators.t) (P : WorkflowState.t -> Prop) :
  (forall c state, holds P state -> holds P (snd (perform env c state))) ->
  forall calls state, holds P state -> Forall (holds P) (run env calls state).
Proof.
  intros step calls. induction calls as [|c calls IH]; intros state H; cbn [run].
  - constructor.
  - constructor; [now apply step | apply IH; now apply step].
Qed.

Lemma reachable_wellFormed (env : Collaborators.t) (calls : list call) :
  Forall (holds wellFormed) (run env calls None).
Proof. apply run_invariant; [apply perform_wellFormed | exact I]. Qed.

Lemma reachable_implies (env : Collaborators.t) (P : WorkflowState.t -> Prop) :
  (forall st, wellFormed st -> P st) ->
  forall calls, Forall (holds P) (run env calls None).
Proof.
  intros H calls. eapply Forall_impl; [|apply reachable_wellFormed].
  intros [st|]; cbn [holds]; auto.
Qed.

(** X9. Whatever is called on a coordinator, in whatever order and with
    whatever arguments, [completedSteps] never lists a step twice. *)
Theorem completedSteps_never_repeat (env : Collaborators.t) (calls : list call) :
  Forall (holds (fun st => NoDup (WorkflowState.completedSteps st))) (run env calls None).
Proof. apply reachable_implies. intros st H. apply H. Qed.

(** X10. In every session a coordinator can reach, a step marked complete has
    left its artifact: research for ideation, an outline for outline, a
    script for content, slides for export; and rehearsal is marked
    complete exactly when a rehearsal session is stored, in which case
    there is an outline. *)
Theorem completed_step_has_artifact (env : Collaborators.t) (calls : list call) :
  Forall
    (holds (fun st =>
       (completed WorkflowStep.ideation st = true -> WorkflowState.research st <> None) /\
       (completed WorkflowStep.outline st = true -> WorkflowState.outline st <> None) /\
       (completed WorkflowStep.content st = true -> WorkflowState.script st <> None) /\
       (completed WorkflowStep.export st = true -> WorkflowState.slides st <> None) /\
       (completed WorkflowStep.rehearsal st = true <-> WorkflowState.rehearsals st <> []) /\
       (WorkflowState.rehearsals st <> [] -> WorkflowState.outline st <> None)))
    (run env calls None).
Proof.
  apply reachable_implies. intros st [Hn Hr Ho Hs Hsl Hreh Hro Hst Hd].
  assert (P : forall (A : Type) (slot : option A), present slot = true -> slot <> None)
    by (intros A [a|]; [discriminate | discriminate]).
  assert (R : completed WorkflowStep.rehearsal st = true <-> WorkflowState.rehearsals st <> []).
  { rewrite Hreh. destruct (WorkflowState.rehearsals st); cbn; split; congruence. }
  repeat split; auto; try apply R.
  intros H. apply P, Hro, R, H.
Qed.

(** X11. In every session a coordinator can reach, the current step is
    ideation or the step right before it is marked complete. *)
Theorem current_step_follows_completed (env : Collaborators.t) (calls : list call) :
  Forall
    (holds (fun st =>
       forall before : WorkflowStep.t,
         position (WorkflowState.currentStep st) = S (position before) ->
         completed before st = true))
    (run env calls None).
Proof.
  apply reachable_implies. intros st [Hn Hr Ho Hs Hsl Hreh Hro Hst Hd] before.
  destruct (WorkflowState.currentStep st), before; cbn [position]; intros E;
    try discriminate E; exact Hst.
Qed.

(** X12. In every session a coordinator can reach, the configured duration is
    the double of a whole number of minutes from 5 to 120. *)
Theorem session_duration_in_range (env : Collaborators.t) (calls : list call) :
  Forall
    (holds (fun st =>
       exists D : Z,
         (5 <= D <= 120)%Z /\
         TalkConfig.duration (WorkflowState.config st) = number_of_Z D))
    (run env calls None).
Proof.
  apply reachable_implies. intros st [Hn Hr Ho Hs Hsl Hreh Hro Hst Hd].
  apply durationInRange_integer, Hd.
Qed.

(** The methods that write to the session. *)
Definition isMutator (c : call) : bool :=
  match c with
  | Initialize _ | SetResearchResults _ | GenerateOutline _ | SetOutline _
  | GenerateScript | SetScript _ | GenerateSlides _ | SetSlides _
  | GenerateQAPrep | StartRehearsal _ => true
  | _ => false
  end.

(** X13. A call leaves the state of the coordinator exactly as it was unless
    it is one of the ten writing methods and returns normally: the twenty
    reading methods never write, and a method that throws has written
    nothing. *)
Theorem state_changes_only_on_success
    (env : Collaborators.t) (c : call) (state : option WorkflowState.t) :
  snd (perform env c state) = state \/
  (isMutator c = true /\ fst (perform env c state) = None).
Proof.
  destruct c; SkillFacts.unfold_methods; unfold initialize;
    destruct state as [st|]; cbn [isMutator];
    repeat match goal with
           | |- context [safeParse ?e ?i] => destruct (safeParse e i)
           | |- context [WorkflowState.outline st] => destruct (WorkflowState.outline st)
           | |- context [WorkflowState.script st] => destruct (WorkflowState.script st)
           | |- context [WorkflowState.slides st] => destruct (WorkflowState.slides st)
           | |- context [WorkflowState.qaPrep st] => destruct (WorkflowState.qaPrep st)
           end;
    cbn [snd fst observe]; auto.
Qed.

(** X14. A rejected configuration changes nothing: the session held before,
    if any, is still there, and the result carries no state and the
    joined messages of the issues. *)
Theorem initialize_rejected_keeps_session
    (env : Collaborators.t) (configInput : Raw.value) (state : option WorkflowState.t) :
  TalkConfigSchema_data configInput = None ->
  exists result : InitializeResult.t,
    initialize env configInput state = (Return result, state) /\
    InitializeResult.success result = false /\
    InitializeResult.state result = None /\
    InitializeResult.error result
      = Some ("Invalid configuration: "
              ++ join ", " (Collaborators.issueMessages env configInput))%string.
Proof.
  intros H. unfold initialize, safeParse. rewrite H. eexists. repeat split.
Qed.

Lemma initialize_rejected_keeps_session_witness :
  TalkConfigSchema_data (Raw.object [("topic", Raw.str "AI"); ("duration", Raw.num 30%float)]) = None /\
  exists result : InitializeResult.t,
    initialize Sample.collaborators
      (Raw.object [("topic", Raw.str "AI"); ("duration", Raw.num 30%float)])
      (Some Sample.fresh)
    = (Return result, Some Sample.fresh) /\
    InitializeResult.success result = false.
Proof.
  assert (H : TalkConfigSchema_data
                (Raw.object [("topic", Raw.str "AI"); ("duration", Raw.num 30%float)]) = None)
    by (vm_compute; reflexivity).
  split; [exact H|].
  destruct (initialize_rejected_keeps_session Sample.collaborators _ (Some Sample.fresh) H)
    as (result & E & Hs & _).
  exists result. split; assumption.
Defined.






(** The timing of an outline built from one of the five templates for a
    whole number of minutes from 5 to 120 passes [validateOutlineTiming]:
    the rounded section durations add up to within 2 minutes of the
    total, no section is shorter than a minute and none but a main one
    takes more than half of the time. *)
Lemma template_outline_timing (talkType : TalkType.t) (topic : string) (D : Z) :
  (5 <= D <= 120)%Z ->
  OutlineTimingValidation.isValid
    (validateOutlineTiming
       (generateOutlineFromTemplate (templateFor talkType) topic (number_of_Z D)))
  = true.
Proof.
  intros HD. apply schemaDurations_range in HD. revert D HD.
  apply (ext_in_map (g := fun _ => true)).
  destruct talkType; vm_compute; reflexivity.
Qed.

(** X16. In a session whose duration the schema let through, the outline
    [generateOutline] returns is accepted by [setOutline] as it is: the
    check is valid, the outline step is marked complete and the session
    moves to step content. *)
Theorem generated_outline_is_accepted
    (st : WorkflowState.t) (keyConcepts : option (list string)) :
  durationInRange (TalkConfig.duration (WorkflowState.config st)) = true ->
  exists (outline : TalkOutline.t) (st1 : WorkflowState.t)
         (check : OutlineCheck.t) (st2 : WorkflowState.t),
    generateOutline keyConcepts (Some st) = (Return outline, Some st1) /\
    setOutline outline (Some st1) = (Return check, Some st2) /\
    OutlineCheck.valid check = true /\
    WorkflowState.currentStep st2 = WorkflowStep.content /\
    completed WorkflowStep.outline st2 = true /\
    WorkflowState.outline st2 = Some outline.
Proof.
  intros Hd. apply durationInRange_integer in Hd as (D & HD & E).
  unfold generateOutline, withState.
  do 4 eexists. split; [reflexivity|]. unfold setOutline, withState. cbv zeta.
  match goal with
  | |- context [validateOutlineTiming ?o] =>
      assert (V : OutlineTimingValidation.isValid (validateOutlineTiming o) = true)
  end.
  { rewrite E.
    exact (template_outline_timing (TalkConfig.talkType (WorkflowState.config st))
             (TalkConfig.topic (WorkflowState.config st)) D HD). }
  rewrite V.
  split; [reflexivity|]. split; [reflexivity|]. split; [reflexivity|].
  split.
  - match goal with
    | |- completed _ (set_currentStep _ (completeStep ?d ?s)) = true =>
        change (completed WorkflowStep.outline (completeStep d s) = true)
    end.
    rewrite completed_completeStep. apply orb_true_r.
  - cbn [set_currentStep WorkflowState.outline].
    match goal with
    | |- WorkflowState.outline (completeStep ?d ?s) = _ =>
        rewrite (proj1 (proj2 (proj2 (proj2 (completeStep_frame d s)))))
    end.
    reflexivity.
Qed.

Lemma generated_outline_is_accepted_witness :
  durationInRange (TalkConfig.duration (WorkflowState.config Sample.fresh)) = true /\
  exists (outline : TalkOutline.t) (st1 : WorkflowState.t)
         (check : OutlineCheck.t) (st2 : WorkflowState.t),
    generateOutline None (Some Sample.fresh) = (Return outline, Some st1) /\
    setOutline outline (Some st1) = (Return check, Some st2) /\
    OutlineCheck.valid check = true.
Proof.
  assert (H : durationInRange (TalkConfig.duration (WorkflowState.config Sample.fresh)) = true)
    by (vm_compute; reflexivity).
  split; [exact H|].
  destruct (generated_outline_is_accepted Sample.fresh None H)
    as (outline & st1 & check & st2 & E1 & E2 & V & _).
  exists outline, st1, check, st2. repeat split; assumption.
Defined.

Lemma contentIssues_template (outline : TalkOutline.t) :
  contentIssues (createScriptTemplate outline)
  = "Introduction is too short or missing"
    :: "Conclusion is too short or missing"
    :: map (fun s => ("Section " ++ dq ++ OutlineSection.title s ++ dq
                      ++ " needs more content")%string)
           (filter (fun s => negb (OutlineSection.type_eqb (OutlineSection.type s)
                                                           OutlineSection.qa))
                   (TalkOutline.sections outline)).
Proof.
  unfold contentIssues, createScriptTemplate.
  cbn [Script.introduction Script.conclusion Script.sections].
  change (String_length EmptyString <? 100)%nat with true. cbn [List.app]. do 2 f_equal.
  induction (filter _ (TalkOutline.sections outline)) as [|s l IH]; [reflexivity|].
  cbn [map flat_map ScriptSection.content ScriptSection.title].
  change (String_length EmptyString <? 50)%nat with true. cbn [List.app]. f_equal. exact IH.
Qed.

(** X17. The script [generateScript] returns is a template to fill in:
    handed back to [setScript] as it is, it is never accepted. The
    issues are the introduction, the conclusion and every section of the
    script (one per outline section that is not a Q&A section), and the
    session stays in its step. *)
Theorem generated_script_is_not_accepted
    (env : Collaborators.t) (st : WorkflowState.t) (outline : TalkOutline.t) :
  WorkflowState.outline st = Some outline ->
  exists (script : Script.t) (st1 : WorkflowState.t)
         (validation : ContentValidation.t) (st2 : WorkflowState.t),
    generateScript (Some st) = (Return script, Some st1) /\
    setScript env script (Some st1) = (Return validation, Some st2) /\
    ContentValidation.isValid validation = false /\
    ContentValidation.issues validation
      = "Introduction is too short or missing"
        :: "Conclusion is too short or missing"
        :: map (fun s => ("Section " ++ dq ++ OutlineSection.title s ++ dq
                          ++ " needs more content")%string)
               (filter (fun s => negb (OutlineSection.type_eqb (OutlineSection.type s)
                                                               OutlineSection.qa))
                       (TalkOutline.sections outline)) /\
    WorkflowState.currentStep st2 = WorkflowState.currentStep st /\
    WorkflowState.completedSteps st2 = WorkflowState.completedSteps st /\
    WorkflowState.script st2 = Some script.
Proof.
  intros Ho. unfold generateScript, withOutline. rewrite Ho.
  do 4 eexists. split; [reflexivity|]. unfold setScript, withState. cbv zeta.
  unfold validateContent. cbn [ContentValidation.isValid].
  rewrite contentIssues_template. cbn [List.length Nat.eqb].
  split; [reflexivity|]. cbn [ContentValidation.issues ContentValidation.isValid].
  repeat split; reflexivity.
Qed.

Lemma generated_script_is_not_accepted_witness :
  WorkflowState.outline Sample.outlined = Some Sample.outline /\
  exists (script : Script.t) (st1 : WorkflowState.t)
         (validation : ContentValidation.t) (st2 : WorkflowState.t),
    generateScript (Some Sample.outlined) = (Return script, Some st1) /\
    setScript Sample.collaborators script (Some st1) = (Return validation, Some st2) /\
    ContentValidation.isValid validation = false.
Proof.
  assert (H : WorkflowState.outline Sample.outlined = Some Sample.outline) by reflexivity.
  split; [exact H|].
  destruct (generated_script_is_not_accepted Sample.collaborators Sample.outlined
              Sample.outline H)
    as (script & st1 & validation & st2 & E1 & E2 & V & _).
  exists script, st1, validation, st2. repeat split; assumption.
Defined.

(** [Sample.outlined] is the session after [initialize] and
    [generateOutline]. *)
Example outlined_reached :
  run Sample.collaborators [Initialize Sample.input; GenerateOutline None] None
  = [Some Sample.fresh; Some Sample.outlined].
Proof. vm_compute. reflexivity. Qed.

End CoordinatorFacts.

(* ================================================================== *)
(** * Slide export and validation                                      *)
(* ================================================================== *)

Module ExportFacts.

Import JSON.

Local Open Scope string_scope.

(** X18. [exportSlideDeck] knows three formats: a request for markdown, json
    or html is served in that format with its content type, and a
    request for pdf is served as markdown; no result is ever marked
    pdf. *)
Theorem exportSlideDeck_formats (deck : SlideDeck.t) (options : ExportOptions.t) :
  let result := exportSlideDeck deck options in
  ExportResult.format result
  = match ExportOptions.format options with
    | ExportFormat.pdf => ExportFormat.markdown
    | format => format
    end /\
  ExportResult.format result <> ExportFormat.pdf /\
  ExportResult.mimeType result
  = match ExportResult.format result with
    | ExportFormat.json => "application/json"
    | ExportFormat.html => "text/html"
    | _ => "text/markdown"
    end /\
  (ExportOptions.format options = ExportFormat.pdf ->
   result = exportSlideDeck deck
              {| ExportOptions.format := ExportFormat.markdown;
                 ExportOptions.includeNotes := ExportOptions.includeNotes options;
                 ExportOptions.includeTimings := ExportOptions.includeTimings options;
                 ExportOptions.theme := ExportOptions.theme options |}).
Proof.
  cbn zeta. unfold exportSlideDeck.
  destruct (ExportOptions.format options) eqn:E; cbn;
    repeat split; try discriminate; reflexivity.
Qed.

Lemma get_speakerNotes
    (slide : Slide.t) (speakerNotes : option string) (duration : option number) :
  get "speakerNotes" (exportSlide_json slide speakerNotes duration)
  = option_map JStr speakerNotes.
Proof.
  unfold exportSlide_json, get. rewrite !JSONFacts.lookup_app.
  rewrite (JSONFacts.lookup_property "speakerNotes" "duration") by reflexivity.
  destruct speakerNotes as [notes|]; [reflexivity|].
  cbn [property option_map lookup].
  rewrite !JSONFacts.lookup_property by reflexivity. reflexivity.
Qed.

Lemma get_duration
    (slide : Slide.t) (speakerNotes : option string) (duration : option number) :
  get "duration" (exportSlide_json slide speakerNotes duration)
  = option_map json_number duration.
Proof.
  unfold exportSlide_json, get. rewrite !JSONFacts.lookup_app.
  destruct duration as [d|]; [reflexivity|].
  cbn [property option_map lookup].
  rewrite !JSONFacts.lookup_property by reflexivity. reflexivity.
Qed.

Lemma get_title (deck : SlideDeck.t) (slides : list value) :
  get "title" (exportData_json deck slides) = Some (JStr (SlideDeck.title deck)).
Proof.
  unfold exportData_json, get. rewrite !JSONFacts.lookup_app.
  cbn [lookup]. rewrite !JSONFacts.lookup_property by reflexivity. reflexivity.
Qed.

(** X19. In the JSON export the speaker notes and the duration of a slide are
    written exactly when the options ask for them: with [includeNotes]
    the parsed slide has the notes of the source slide, without it it
    has no [speakerNotes] member at all; likewise for [includeTimings]
    and [duration]. The title of the deck is read back unchanged,
    whatever characters it holds. *)
Theorem exportToJson_notes_and_timings
    (deck : SlideDeck.t) (includeNotes includeTimings : bool)
    (theme : option SlideTheme.t) :
  let options :=
    {| ExportOptions.format := ExportFormat.json;
       ExportOptions.includeNotes := includeNotes;
       ExportOptions.includeTimings := includeTimings;
       ExportOptions.theme := theme |} in
  exists (document : value) (slides : list value),
    parse (ExportResult.content (exportSlideDeck deck options)) = Some document /\
    get "title" document = Some (JStr (SlideDeck.title deck)) /\
    get "slides" document = Some (JArr slides) /\
    forall (i : nat) (slide : Slide.t),
      nth_error (SlideDeck.slides deck) i = Some slide ->
      exists parsed : value,
        nth_error slides i = Some parsed /\
        get "speakerNotes" parsed
        = (if includeNotes then Some (JStr (Slide.speakerNotes slide)) else None) /\
        get "duration" parsed
        = (if includeTimings
           then Some match Number_toLiteral (Slide.duration slide) with
                     | Some seconds => JNum seconds
                     | None => JNull
                     end
           else None).
Proof.
  intros options.
  exists (exportData_json deck
            (map (JSONFacts.exportedSlide includeNotes includeTimings) (SlideDeck.slides deck))),
         (map (JSONFacts.exportedSlide includeNotes includeTimings) (SlideDeck.slides deck)).
  split; [exact (JSONFacts.exportToJson_parses deck options)|].
  split; [apply get_title|].
  split; [apply JSONFacts.get_slides|].
  intros i slide Hi.
  exists (JSONFacts.exportedSlide includeNotes includeTimings slide).
  split; [now apply map_nth_error|].
  unfold JSONFacts.exportedSlide. rewrite get_speakerNotes, get_duration.
  destruct includeNotes, includeTimings; split; reflexivity.
Qed.

(** The per-slide warnings of [validateSlideDeck]: none exactly when no
    slide has more than 6 bullet points. *)
Lemma bullet_warnings_none {A : Type} (f : Slide.t -> nat -> A) (slides : list Slide.t)
    (start : nat) :
  List.concat
    (mapi_from (fun slide index =>
                  if (6 <? List.length (items_of (Slide.bulletPoints slide)))%nat
                  then [f slide index] else [])
               start slides) = []
  <-> forallb (fun slide => (List.length (items_of (Slide.bulletPoints slide)) <=? 6)%nat)
              slides = true.
Proof.
  revert start. induction slides as [|s l IH]; intros start; cbn [mapi_from List.concat forallb].
  - split; reflexivity.
  - rewrite andb_true_iff, <- (IH (S start)). rewrite Nat.leb_antisym.
    destruct (6 <? _)%nat; cbn [negb List.app]; split.
    + discriminate.
    + intros [H _]; discriminate H.
    + intros H. split; [reflexivity | exact H].
    + intros [_ H]. exact H.
Qed.

(** X20. A deck is valid for [validateSlideDeck] exactly when it has no more
    than one and a half slides per minute of the talk and no slide with
    more than 6 bullet points; missing titles, missing notes and a low
    slide count only produce suggestions. *)
Theorem validateSlideDeck_valid_iff (deck : SlideDeck.t) (config : TalkConfig.t) :
  SlideDeckValidation.isValid (validateSlideDeck deck config) = true <->
  (TalkConfig.duration config * 1.5
     <? number_of_nat (List.length (SlideDeck.slides deck)))%float = false /\
  forall slide : Slide.t,
    In slide (SlideDeck.slides deck) ->
    (List.length (items_of (Slide.bulletPoints slide)) <= 6)%nat.
Proof.
  unfold validateSlideDeck. cbn [SlideDeckValidation.isValid].
  rewrite Nat.eqb_eq, length_zero_iff_nil.
  unfold mapi.
  destruct (_ <? _)%float.
  - split; [discriminate | intros [H _]; discriminate H].
  - cbn [List.app]. rewrite bullet_warnings_none, forallb_forall.
    split.
    + intros H. split; [reflexivity|]. intros slide Hs. apply Nat.leb_le, H, Hs.
    + intros [_ H] slide Hs. apply Nat.leb_le, H, Hs.
Qed.

End ExportFacts.

(* ================================================================== *)
(** * Outline templates                                                 *)
(* ================================================================== *)

Section OutlineTemplateFacts.

(** X21. For every configuration the schema lets through, the outline of
    [createOutlineTemplate] has its sections numbered 0, 1, 2, ... in
    order, five of them or four for a lightning talk (which has no Q&A),
    and its timing passes [validateOutlineTiming]. *)
Theorem createOutlineTemplate_timing_valid (config : TalkConfig.t) (D : Z) :
  (5 <= D <= 120)%Z ->
  TalkConfig.duration config = number_of_Z D ->
  let outline := createOutlineTemplate config in
  OutlineTimingValidation.isValid (validateOutlineTiming outline) = true /\
  map OutlineSection.order (TalkOutline.sections outline)
    = seq 0 (List.length (TalkOutline.sections outline)) /\
  map OutlineSection.id (TalkOutline.sections outline)
    = match TalkConfig.talkType config with
      | TalkType.lightning_talk => ["intro"; "main-1"; "main-2"; "conclusion"]
      | _ => ["intro"; "main-1"; "main-2"; "conclusion"; "qa"]
      end /\
  TalkOutline.totalDuration outline = TalkConfig.duration config.
Proof.
  intros HD E outline. unfold outline. clear outline.
  destruct config as [topic audience duration expertise talkType tone speaker context notes].
  cbn [TalkConfig.duration TalkConfig.talkType] in *. subst duration.
  split; [|destruct talkType; repeat split; vm_compute; reflexivity].
  apply schemaDurations_range in HD. revert D HD.
  apply (ext_in_map (g := fun _ => true)).
  destruct talkType; vm_compute; reflexivity.
Qed.

Lemma createOutlineTemplate_timing_valid_witness :
  (5 <= 30 <= 120)%Z /\
  TalkConfig.duration Sample.config = number_of_Z 30 /\
  OutlineTimingValidation.isValid (validateOutlineTiming (createOutlineTemplate Sample.config))
  = true.
Proof.
  assert (H : (5 <= 30 <= 120)%Z) by lia.
  assert (E : TalkConfig.duration Sample.config = number_of_Z 30) by reflexivity.
  split; [exact H|]. split; [exact E|].
  exact (proj1 (createOutlineTemplate_timing_valid Sample.config 30 H E)).
Defined.

End OutlineTemplateFacts.

(* ================================================================== *)
(** * Reordering sections: what the shared section objects show        *)
(* ================================================================== *)

Section ReorderFacts.

(** The array after the two splices, for a [fromIndex] within it. *)
Definition reordered (sections : list Store.ref) (fromIndex toIndex : nat) : list Store.ref :=
  let rest := firstn fromIndex sections ++ skipn (S fromIndex) sections in
  firstn toIndex rest ++ firstn 1 (skipn fromIndex sections) ++ skipn toIndex rest.

(** Every reference of the outline has an object behind it and no two
    elements of its array are the same object. *)
Definition sound (store : Store.t) (outline : SharedOutline.t) : Prop :=
  NoDup (SharedOutline.sections outline) /\
  Forall (fun r => r < List.length store)%nat (SharedOutline.sections outline).

Lemma get_update_same (store : Store.t) (r : Store.ref)
    (f : OutlineSection.t -> OutlineSection.t) :
  Store.get (Store.update store r f) r = option_map f (Store.get store r).
Proof.
  revert r. induction store as [|s store IH]; intros [|r]; cbn; try reflexivity. apply IH.
Qed.

Lemma get_update_other (store : Store.t) (r r' : Store.ref)
    (f : OutlineSection.t -> OutlineSection.t) :
  r <> r' -> Store.get (Store.update store r f) r' = Store.get store r'.
Proof.
  revert r r'. induction store as [|s store IH]; intros [|r] [|r'] H; cbn;
    try reflexivity; try congruence.
  apply IH. congruence.
Qed.

Lemma update_length (store : Store.t) (r : Store.ref)
    (f : OutlineSection.t -> OutlineSection.t) :
  List.length (Store.update store r f) = List.length store.
Proof.
  revert r. induction store as [|s store IH]; intros [|r]; cbn; try reflexivity.
  now rewrite IH.
Qed.

(** The loop over an array of distinct references comes to its end and
    writes its index to each of them, and to nothing else. *)
Lemma renumber_references (refs : list Store.ref) (index : nat) (store : Store.t) :
  NoDup refs ->
  snd (renumber index (map Some refs) store) = true /\
  List.length (fst (renumber index (map Some refs) store)) = List.length store /\
  (forall (i : nat) (r : Store.ref),
     nth_error refs i = Some r ->
     Store.get (fst (renumber index (map Some refs) store)) r
     = option_map (set_order (index + i)) (Store.get store r)) /\
  (forall r : Store.ref,
     ~ In r refs -> Store.get (fst (renumber index (map Some refs) store)) r = Store.get store r).
Proof.
  intros Hnd. revert index store.
  induction Hnd as [|r refs Hr Hnd IH]; intros index store; cbn [map renumber].
  - repeat split; try reflexivity. intros [|i] r H; discriminate H.
  - destruct (IH (S index) (Store.update store r (set_order index))) as (Hf & Hlen & Hin & Hout).
    split; [exact Hf|]. split; [now rewrite Hlen, update_length|]. split.
    + intros [|i] r' H; cbn in H.
      * injection H as <-. rewrite Hout by exact Hr.
        rewrite get_update_same, Nat.add_0_r. reflexivity.
      * rewrite (Hin i r' H), get_update_other.
        -- now rewrite Nat.add_succ_r.
        -- intros <-. apply Hr. eapply nth_error_In, H.
    + intros r' H. rewrite Hout by (intros H'; apply H; now right).
      apply get_update_other. intros <-. apply H. now left.
Qed.

(** The loop stops at the first [undefined]. *)
Lemma renumber_undefined (refs : list Store.ref) (rest : list (option Store.ref))
    (index : nat) (store : Store.t) :
  renumber index (map Some refs ++ None :: rest) store
  = (fst (renumber index (map Some refs) store), false).
Proof.
  revert index store. induction refs as [|r refs IH]; intros index store; cbn; [reflexivity|].
  apply IH.
Qed.

Lemma references_Some (refs : list Store.ref) : references (map Some refs) = refs.
Proof.
  unfold references.
  induction refs as [|r refs IH]; cbn [map flat_map List.app]; [reflexivity | now rewrite IH].
Qed.

(** The array after the splices, when [fromIndex] is within it. *)
Lemma spliced_in_range (sections : list Store.ref) (fromIndex toIndex : nat) :
  (fromIndex < List.length sections)%nat ->
  let elements := map Some sections in
  let rest := firstn fromIndex elements ++ skipn (S fromIndex) elements in
  firstn toIndex rest ++ [nth fromIndex elements None] ++ skipn toIndex rest
  = map Some (reordered sections fromIndex toIndex).
Proof.
  intros H. cbn zeta. unfold reordered. cbv zeta.
  rewrite !firstn_map, !skipn_map, <- !map_app, !firstn_map, !skipn_map.
  rewrite (map_app Some (firstn toIndex _)), (map_app Some (firstn 1 _)).
  do 2 f_equal.
  destruct (nth_error sections fromIndex) as [r|] eqn:E;
    [|apply nth_error_None in E; lia].
  rewrite (nth_error_nth _ _ None (map_nth_error Some _ _ E)).
  apply nth_error_split in E as (l1 & l2 & -> & <-).
  rewrite skipn_app, skipn_all, Nat.sub_diag. reflexivity.
Qed.

(** The array after the splices, when [fromIndex] is beyond it. *)
Lemma spliced_out_of_range (sections : list Store.ref) (fromIndex toIndex : nat) :
  (List.length sections <= fromIndex)%nat ->
  let elements := map Some sections in
  let rest := firstn fromIndex elements ++ skipn (S fromIndex) elements in
  firstn toIndex rest ++ [nth fromIndex elements None] ++ skipn toIndex rest
  = map Some (firstn toIndex sections) ++ None :: map Some (skipn toIndex sections).
Proof.
  intros H. cbn zeta.
  rewrite nth_overflow by (rewrite length_map; exact H).
  rewrite (firstn_all2 (n := fromIndex)) by (rewrite length_map; exact H).
  rewrite (skipn_all2 (n := S fromIndex)) by (rewrite length_map; lia).
  rewrite app_nil_r, firstn_map, skipn_map. reflexivity.
Qed.

Lemma reordered_Permutation (sections : list Store.ref) (fromIndex toIndex : nat) :
  Permutation (reordered sections fromIndex toIndex) sections.
Proof.
  unfold reordered. cbv zeta.
  set (before := firstn fromIndex sections).
  set (after := skipn (S fromIndex) sections).
  set (moved := firstn 1 (skipn fromIndex sections)).
  assert (E : sections = before ++ moved ++ after).
  { unfold before, moved, after.
    replace (S fromIndex) with (1 + fromIndex)%nat by reflexivity.
    now rewrite <- skipn_skipn, !firstn_skipn. }
  clearbody before after moved. subst sections.
  rewrite Permutation_app_swap_app, firstn_skipn.
  apply Permutation_app_swap_app.
Qed.

Lemma reordered_split (before after : list Store.ref) (r : Store.ref) (toIndex : nat) :
  reordered (before ++ r :: after) (List.length before) toIndex
  = firstn toIndex (before ++ after) ++ r :: skipn toIndex (before ++ after).
Proof.
  unfold reordered. cbv zeta.
  assert (S0 : skipn (List.length before) (before ++ r :: after) = r :: after).
  { induction before as [|x l IH]; cbn; [reflexivity | exact IH]. }
  assert (S1 : skipn (S (List.length before)) (before ++ r :: after) = after).
  { change (S (List.length before)) with (1 + List.length before)%nat.
    now rewrite <- skipn_skipn, S0. }
  assert (F : firstn (List.length before) (before ++ r :: after) = before).
  { clear S0 S1. induction before as [|x l IH]; cbn; [reflexivity | now rewrite IH]. }
  rewrite F, S0, S1. reflexivity.
Qed.

(** X26. Moving a section within the array: for a [fromIndex] within the
    array the call returns an outline with the same sections, the one at
    [fromIndex] moved to [toIndex] (or to the end if [toIndex] is
    beyond it) and the others in their old order, and with every other
    property of the outline as it was. *)
Theorem reorderSections_moves
    (store : Store.t) (outline : SharedOutline.t) (fromIndex toIndex : nat) :
  (fromIndex < List.length (SharedOutline.sections outline))%nat ->
  NoDup (SharedOutline.sections outline) ->
  exists result : SharedOutline.t,
    snd (reorderSections store outline fromIndex toIndex) = Some result /\
    SharedOutline.sections result
    = reordered (SharedOutline.sections outline) fromIndex toIndex /\
    Permutation (SharedOutline.sections result) (SharedOutline.sections outline) /\
    nth_error (SharedOutline.sections result)
              (Nat.min toIndex (List.length (SharedOutline.sections outline) - 1))
    = nth_error (SharedOutline.sections outline) fromIndex /\
    SharedOutline.title result = SharedOutline.title outline /\
    SharedOutline.subtitle result = SharedOutline.subtitle outline /\
    SharedOutline.totalDuration result = SharedOutline.totalDuration outline /\
    SharedOutline.learningObjectives result = SharedOutline.learningObjectives outline /\
    SharedOutline.callToAction result = SharedOutline.callToAction outline.
Proof.
  intros Hfrom Hnd. unfold reorderSections. cbv zeta.
  rewrite (spliced_in_range _ _ toIndex Hfrom).
  pose proof (reordered_Permutation (SharedOutline.sections outline) fromIndex toIndex) as Hp.
  destruct (renumber_references (reordered (SharedOutline.sections outline) fromIndex toIndex)
              0 store) as (Hf & _); [eapply Permutation_NoDup; [symmetry; exact Hp | exact Hnd]|].
  destruct (renumber 0 _ store) as [store' finished]. cbn [snd] in Hf. subst finished.
  eexists. split; [reflexivity|]. cbn. rewrite references_Some.
  repeat split; try exact Hp.
  destruct (nth_error (SharedOutline.sections outline) fromIndex) as [r|] eqn:E;
    [|apply nth_error_None in E; lia].
  apply nth_error_split in E as (l1 & l2 & E & <-). rewrite E, reordered_split.
  rewrite length_app. cbn [List.length].
  rewrite nth_error_app2 by (rewrite length_firstn, length_app; lia).
  rewrite length_firstn, length_app.
  replace (Nat.min toIndex (List.length l1 + S (List.length l2) - 1)
           - Nat.min toIndex (List.length l1 + List.length l2))%nat with 0%nat by lia.
  reflexivity.
Qed.

Lemma reorderSections_moves_witness :
  exists result : SharedOutline.t,
    snd (reorderSections SharedSample.store SharedSample.outline 4 1) = Some result /\
    SharedOutline.sections result = [0; 4; 1; 2; 3; 5]%nat.
Proof.
  assert (Hfrom : (4 < List.length (SharedOutline.sections SharedSample.outline))%nat)
    by (vm_compute; lia).
  assert (Hnd : NoDup (SharedOutline.sections SharedSample.outline))
    by (apply seq_NoDup).
  destruct (reorderSections_moves SharedSample.store SharedSample.outline 4 1 Hfrom Hnd)
    as (result & Hr & Hs & _).
  exists result. split; [exact Hr|]. rewrite Hs. reflexivity.
Defined.

(** X27. The call writes to the section objects it was given: for a
    [fromIndex] within the array, the object that stands at index [i] of
    the returned outline has order [i] afterwards and is otherwise as it
    was, and no other object of the store is written. The outline passed
    in holds the same objects, so each of its sections now shows the
    index it has in the returned outline, whatever its own index is. *)
Theorem reorderSections_writes_shared_sections
    (store : Store.t) (outline : SharedOutline.t) (fromIndex toIndex : nat) :
  (fromIndex < List.length (SharedOutline.sections outline))%nat ->
  NoDup (SharedOutline.sections outline) ->
  let store' := fst (reorderSections store outline fromIndex toIndex) in
  let moved := reordered (SharedOutline.sections outline) fromIndex toIndex in
  List.length store' = List.length store /\
  (forall (i : nat) (r : Store.ref),
     nth_error moved i = Some r ->
     Store.get store' r = option_map (set_order i) (Store.get store r)) /\
  (forall r : Store.ref,
     ~ In r (SharedOutline.sections outline) -> Store.get store' r = Store.get store r) /\
  (forall (j : nat) (r : Store.ref),
     nth_error (SharedOutline.sections outline) j = Some r ->
     exists i : nat,
       nth_error moved i = Some r /\
       nth_error (SharedOutline.read store' outline) j
       = Some (option_map (set_order i) (Store.get store r))).
Proof.
  intros Hfrom Hnd. cbv zeta. unfold reorderSections. cbv zeta.
  rewrite (spliced_in_range _ _ toIndex Hfrom).
  pose proof (reordered_Permutation (SharedOutline.sections outline) fromIndex toIndex) as Hp.
  destruct (renumber_references (reordered (SharedOutline.sections outline) fromIndex toIndex)
              0 store) as (Hf & Hlen & Hin & Hout);
    [eapply Permutation_NoDup; [symmetry; exact Hp | exact Hnd]|].
  destruct (renumber 0 _ store) as [store' finished]. cbn [fst snd] in *. subst finished.
  cbn [fst]. split; [exact Hlen|]. split; [exact Hin|]. split.
  - intros r Hr. apply Hout. intros H. apply Hr. eapply Permutation_in; [exact Hp | exact H].
  - intros j r Hj.
    assert (Hr : In r (reordered (SharedOutline.sections outline) fromIndex toIndex)).
    { eapply Permutation_in; [symmetry; exact Hp|]. eapply nth_error_In, Hj. }
    apply In_nth_error in Hr as [i Hi]. exists i. split; [exact Hi|].
    unfold SharedOutline.read. rewrite (map_nth_error _ _ _ Hj). f_equal.
    exact (Hin i r Hi).
Qed.

Lemma reorderSections_writes_shared_sections_witness :
  map (option_map OutlineSection.order)
      (SharedOutline.read (fst (reorderSections SharedSample.store SharedSample.outline 4 1))
                          SharedSample.outline)
  = [Some 0; Some 2; Some 3; Some 4; Some 1; Some 5]%nat /\
  List.length (fst (reorderSections SharedSample.store SharedSample.outline 4 1))
  = List.length SharedSample.store.
Proof.
  assert (Hfrom : (4 < List.length (SharedOutline.sections SharedSample.outline))%nat)
    by (vm_compute; lia).
  assert (Hnd : NoDup (SharedOutline.sections SharedSample.outline))
    by (apply seq_NoDup).
  split; [vm_compute; reflexivity|].
  exact (proj1 (reorderSections_writes_shared_sections
                  SharedSample.store SharedSample.outline 4 1 Hfrom Hnd)).
Defined.

Lemma firstn_nth_error {A : Type} (l : list A) (n i : nat) (x : A) :
  nth_error (firstn n l) i = Some x -> (i < n)%nat /\ nth_error l i = Some x.
Proof.
  revert n i. induction l as [|a l IH]; intros [|n] [|i] H; cbn in H; try discriminate H.
  - split; [lia | exact H].
  - apply IH in H as [H1 H2]. split; [lia | exact H2].
Qed.

(** X28. A [fromIndex] beyond the array makes the call throw, but not before
    it has written: nothing is removed, [undefined] is inserted at
    [toIndex], and the loop has renumbered the sections before [toIndex]
    when it reaches it. Those sections now have their index as order
    (which overwrites whatever order they had); the sections from
    [toIndex] on are as they were. *)
Theorem reorderSections_beyond_the_array
    (store : Store.t) (outline : SharedOutline.t) (fromIndex toIndex : nat) :
  (List.length (SharedOutline.sections outline) <= fromIndex)%nat ->
  NoDup (SharedOutline.sections outline) ->
  let result := reorderSections store outline fromIndex toIndex in
  snd result = None /\
  forall (i : nat) (r : Store.ref),
    nth_error (SharedOutline.sections outline) i = Some r ->
    Store.get (fst result) r
    = if (i <? toIndex)%nat then option_map (set_order i) (Store.get store r)
      else Store.get store r.
Proof.
  intros Hfrom Hnd. cbv zeta. unfold reorderSections. cbv zeta.
  rewrite (spliced_out_of_range _ _ toIndex Hfrom), renumber_undefined.
  split; [reflexivity|]. cbn [fst].
  assert (Hnd' : NoDup (firstn toIndex (SharedOutline.sections outline))).
  { rewrite <- (firstn_skipn toIndex (SharedOutline.sections outline)) in Hnd.
    eapply NoDup_app_remove_r, Hnd. }
  destruct (renumber_references (firstn toIndex (SharedOutline.sections outline)) 0 store Hnd')
    as (_ & _ & Hin & Hout).
  intros i r Hi. destruct (i <? toIndex)%nat eqn:E.
  - apply Nat.ltb_lt in E. apply Hin. rewrite nth_error_firstn.
    apply Nat.ltb_lt in E. rewrite E. exact Hi.
  - apply Nat.ltb_ge in E. apply Hout. intros H.
    apply In_nth_error in H as [j Hj]. apply firstn_nth_error in Hj as [Hlt Hj].
    assert (i = j); [|lia].
    eapply (proj1 (NoDup_nth_error _) Hnd);
      [apply nth_error_Some; congruence | congruence].
Qed.

Lemma reorderSections_beyond_the_array_witness :
  snd (reorderSections SharedSample.store SharedSample.outline 6 2) = None.
Proof.
  assert (Hfrom : (List.length (SharedOutline.sections SharedSample.outline) <= 6)%nat)
    by (vm_compute; lia).
  assert (Hnd : NoDup (SharedOutline.sections SharedSample.outline))
    by (apply seq_NoDup).
  exact (proj1 (reorderSections_beyond_the_array
                  SharedSample.store SharedSample.outline 6 2 Hfrom Hnd)).
Defined.

End ReorderFacts.

(* ================================================================== *)
(** * Slide deck templates                                             *)
(* ================================================================== *)

Section SlideTemplateFacts.

Variable clock : nat -> Z.
Variable toISOString : Z -> string.

Local Abbreviation push := (pushSlide clock) (only parsing).
Local Abbreviation loop := (bulletLoop clock) (only parsing).
Local Abbreviation slidesOf := (sectionSlides clock) (only parsing).

(** The key points on the slides, in slide order. *)
Definition bullets (slides : list Slide.t) : list string :=
  flat_map (fun slide => items_of (Slide.bulletPoints slide)) slides.

(** The number of bullet slides made of [n] key points. *)
Definition bulletSlides (n : nat) : nat := ((n + 3) / 4)%nat.

(** The layouts of the slides made of one section. *)
Definition sectionLayouts (section : OutlineSection.t) : list SlideLayout.t :=
  SlideLayout.section_header
  :: repeat SlideLayout.bullet_points
            (bulletSlides (List.length (OutlineSection.keyPoints section))).

(** What holds of the slides made so far: the counter is their number,
    and the slide at index [i] has order [i] and an id made of [i] and
    the [i]-th reading of the clock. *)
Definition inSequence (st : list Slide.t * nat) : Prop :=
  snd st = List.length (fst st) /\
  forall (i : nat) (slide : Slide.t),
    nth_error (fst st) i = Some slide ->
    Slide.order slide = number_of_nat i /\
    Slide.id slide
    = ("slide-" ++ Number_toString (number_of_nat i) ++ "-" ++ Z_to_string (clock i))%string.

(** Every slide shows at most four key points, a bullet slide at least
    one, and every slide has speaker notes. *)
Definition wellCut (slide : Slide.t) : Prop :=
  (List.length (items_of (Slide.bulletPoints slide)) <= 4)%nat /\
  (Slide.layout slide = SlideLayout.bullet_points ->
   (1 <= List.length (items_of (Slide.bulletPoints slide)))%nat).

(** The options of a call pass the counter on as the order. *)
Definition ordered (options : number -> SlideOptions.t) : Prop :=
  forall order : number, SlideOptions.order (options order) = order.

Lemma pushSlide_numbered (st : list Slide.t * nat) (options : number -> SlideOptions.t) :
  ordered options -> inSequence st -> inSequence (push st options).
Proof.
  intros Ho [Hn Hs]. unfold pushSlide, inSequence. cbn [fst snd].
  split; [rewrite length_app, Hn; cbn; lia|].
  intros i slide Hi.
  destruct (Nat.lt_ge_cases i (List.length (fst st))) as [Hlt|Hge].
  - rewrite nth_error_app1 in Hi by exact Hlt. exact (Hs i slide Hi).
  - rewrite nth_error_app2 in Hi by exact Hge.
    destruct (i - List.length (fst st))%nat as [|k] eqn:E; cbn in Hi.
    + assert (i = snd st) by lia. subst i. injection Hi as <-.
      unfold createSlide. cbn [Slide.order Slide.id]. rewrite Ho. split; reflexivity.
    + destruct k; discriminate Hi.
Qed.

Lemma bulletOptions_ordered (section : OutlineSection.t) (pointsPerSlide : nat)
    (points : list string) :
  ordered (bulletOptions section pointsPerSlide points).
Proof. intros order. reflexivity. Qed.

Lemma bulletLoop_numbered (fuel : nat) (section : OutlineSection.t) (pointsPerSlide i : nat)
    (st : list Slide.t * nat) :
  inSequence st -> inSequence (loop fuel section pointsPerSlide i st).
Proof.
  revert i st. induction fuel as [|fuel IH]; intros i st H; cbn [bulletLoop]; [exact H|].
  destruct (i <? _)%nat; [|exact H].
  apply IH, pushSlide_numbered; [apply bulletOptions_ordered | exact H].
Qed.

Lemma sectionSlides_numbered (st : list Slide.t * nat) (section : OutlineSection.t) :
  inSequence st -> inSequence (slidesOf st section).
Proof.
  intros H. unfold sectionSlides.
  match goal with |- context [pushSlide clock st ?o] =>
    assert (H1 : inSequence (push st o))
      by (apply pushSlide_numbered; [intros order; reflexivity | exact H])
  end.
  destruct (0 <? _)%nat; [|exact H1].
  apply bulletLoop_numbered, H1.
Qed.

Lemma fold_sectionSlides_numbered (sections : list OutlineSection.t) (st : list Slide.t * nat) :
  inSequence st -> inSequence (fold_left slidesOf sections st).
Proof.
  revert st. induction sections as [|s l IH]; intros st H; cbn [fold_left]; [exact H|].
  apply IH, sectionSlides_numbered, H.
Qed.

(** The slides as a list: what [pushSlide] appends. *)
Lemma pushSlide_fst (st : list Slide.t * nat) (options : number -> SlideOptions.t) :
  fst (push st options)
  = fst st ++ [createSlide (clock (snd st)) (options (number_of_nat (snd st)))].
Proof. reflexivity. Qed.

(** The loop over the key points, entered at [i] with enough fuel, adds
    slides that show the key points from [i] on, in order, at most
    [pointsPerSlide] to a slide, all laid out as bullet points. *)
Lemma bulletLoop_spec (fuel : nat) (section : OutlineSection.t) (pointsPerSlide i : nat)
    (st : list Slide.t * nat) :
  (1 <= pointsPerSlide <= 4)%nat ->
  (List.length (OutlineSection.keyPoints section) <= i + fuel)%nat ->
  exists added : list Slide.t,
    fst (loop fuel section pointsPerSlide i st) = fst st ++ added /\
    bullets added = skipn i (OutlineSection.keyPoints section) /\
    Forall wellCut added /\
    Forall (fun slide => Slide.speakerNotes slide <> EmptyString) added /\
    map Slide.layout added
    = repeat SlideLayout.bullet_points
             ((List.length (OutlineSection.keyPoints section) - i + (pointsPerSlide - 1))
              / pointsPerSlide).
Proof.
  intros Hp. revert i st. induction fuel as [|fuel IH]; intros i st Hf; cbn [bulletLoop].
  - exists []. rewrite app_nil_r, skipn_all2 by lia.
    rewrite Nat.div_small by lia. repeat split; constructor.
  - destruct (i <? _)%nat eqn:E.
    + apply Nat.ltb_lt in E.
      destruct (IH (i + pointsPerSlide)%nat
                   (push st
                      (bulletOptions section pointsPerSlide
                         (slice i (i + pointsPerSlide) (OutlineSection.keyPoints section)))))
        as (added & Hfst & Hb & Hw & Hn & Hl); [lia|].
      eexists (_ :: added). rewrite Hfst, pushSlide_fst, <- app_assoc. cbn [List.app].
      split; [reflexivity|].
      assert (Hlen : (1 <= List.length
                            (slice i (i + pointsPerSlide) (OutlineSection.keyPoints section))
                      <= 4)%nat).
      { unfold slice. rewrite length_firstn, length_skipn. lia. }
      split; [|split; [|split]].
      * unfold bullets in *. cbn [flat_map]. rewrite Hb.
        unfold createSlide, bulletOptions. cbn [Slide.bulletPoints SlideOptions.bulletPoints items_of].
        unfold slice. replace (i + pointsPerSlide - i)%nat with pointsPerSlide by lia.
        rewrite Nat.add_comm, <- skipn_skipn. apply firstn_skipn.
      * constructor; [|exact Hw]. unfold wellCut, createSlide, bulletOptions.
        cbn [Slide.bulletPoints SlideOptions.bulletPoints items_of]. lia.
      * constructor; [|exact Hn]. unfold createSlide, bulletOptions.
        cbn [Slide.speakerNotes SlideOptions.speakerNotes or_else append]. discriminate.
      * cbn [map]. rewrite Hl. unfold createSlide, bulletOptions.
        cbn [Slide.layout SlideOptions.layout].
        change (SlideLayout.bullet_points :: repeat SlideLayout.bullet_points ?n)
          with (repeat SlideLayout.bullet_points (S n)).
        f_equal.
        replace (List.length (OutlineSection.keyPoints section) - i + (pointsPerSlide - 1))%nat
          with ((List.length (OutlineSection.keyPoints section) - i - 1) + 1 * pointsPerSlide)%nat
          by lia.
        rewrite Nat.div_add, Nat.add_1_r by lia. f_equal.
        destruct (Nat.le_gt_cases pointsPerSlide
                    (List.length (OutlineSection.keyPoints section) - i)) as [Hc|Hc].
        -- f_equal. lia.
        -- rewrite !Nat.div_small by lia. reflexivity.
    + apply Nat.ltb_ge in E. exists []. rewrite app_nil_r, skipn_all2 by lia.
      rewrite Nat.div_small by lia. repeat split; constructor.
Qed.

(** With at most four points to a slide, [n] key points cut into
    [min 4 n] a slide make [(n + 3) / 4] slides. *)
Lemma bulletSlides_eq (n : nat) :
  (0 < n)%nat -> ((n - 0 + (Nat.min 4 n - 1)) / Nat.min 4 n)%nat = bulletSlides n.
Proof.
  intros H. unfold bulletSlides.
  destruct (Nat.le_gt_cases 4 n) as [H4|H4].
  - rewrite Nat.min_l by exact H4. f_equal. lia.
  - rewrite Nat.min_r by lia.
    destruct n as [|[|[|[|n]]]]; try lia; reflexivity.
Qed.

Lemma sectionSlides_spec (st : list Slide.t * nat) (section : OutlineSection.t) :
  exists added : list Slide.t,
    fst (slidesOf st section) = fst st ++ added /\
    bullets added = OutlineSection.keyPoints section /\
    Forall wellCut added /\
    Forall (fun slide => Slide.speakerNotes slide <> EmptyString) added /\
    map Slide.layout added = sectionLayouts section.
Proof.
  unfold sectionSlides.
  match goal with |- context [pushSlide clock st ?o] => set (header := o) end.
  assert (Hh : wellCut (createSlide (clock (snd st)) (header (number_of_nat (snd st))))).
  { unfold wellCut, createSlide, header. cbn. split; [lia | discriminate]. }
  assert (Hnotes : Slide.speakerNotes
                     (createSlide (clock (snd st)) (header (number_of_nat (snd st))))
                   <> EmptyString).
  { unfold createSlide, header.
    cbn [Slide.speakerNotes SlideOptions.speakerNotes or_else append]. discriminate. }
  destruct (0 <? _)%nat eqn:E.
  - apply Nat.ltb_lt in E.
    destruct (bulletLoop_spec (List.length (OutlineSection.keyPoints section)) section
                (Nat.min 4 (List.length (OutlineSection.keyPoints section))) 0
                (push st header))
      as (added & Hfst & Hb & Hw & Hn & Hl); [lia | lia |].
    eexists (_ :: added). rewrite Hfst, pushSlide_fst, <- app_assoc. cbn [List.app].
    split; [reflexivity|]. split; [|split; [|split]].
    + unfold bullets in *. cbn [flat_map]. rewrite Hb. reflexivity.
    + constructor; assumption.
    + constructor; assumption.
    + cbn [map]. rewrite Hl, bulletSlides_eq by exact E. reflexivity.
  - apply Nat.ltb_ge in E.
    eexists [_]. rewrite pushSlide_fst. split; [reflexivity|].
    assert (E0 : OutlineSection.keyPoints section = []).
    { destruct (OutlineSection.keyPoints section); [reflexivity | cbn in E; lia]. }
    split; [|split; [|split]].
    + rewrite E0. reflexivity.
    + constructor; [exact Hh | constructor].
    + constructor; [exact Hnotes | constructor].
    + unfold sectionLayouts. rewrite E0. reflexivity.
Qed.

Lemma fold_sectionSlides_spec (sections : list OutlineSection.t) (st : list Slide.t * nat) :
  exists added : list Slide.t,
    fst (fold_left slidesOf sections st) = fst st ++ added /\
    bullets added = flat_map OutlineSection.keyPoints sections /\
    Forall wellCut added /\
    Forall (fun slide => Slide.speakerNotes slide <> EmptyString) added /\
    map Slide.layout added = flat_map sectionLayouts sections.
Proof.
  revert st. induction sections as [|s l IH]; intros st; cbn [fold_left flat_map].
  - exists []. rewrite app_nil_r. repeat split; constructor.
  - destruct (sectionSlides_spec st s) as (a1 & Hf1 & Hb1 & Hw1 & Hn1 & Hl1).
    destruct (IH (slidesOf st s)) as (a2 & Hf2 & Hb2 & Hw2 & Hn2 & Hl2).
    exists (a1 ++ a2). rewrite Hf2, Hf1, <- app_assoc. split; [reflexivity|].
    unfold bullets in *. rewrite flat_map_app, map_app, Hb1, Hb2, Hl1, Hl2.
    repeat split; apply Forall_app; split; assumption.
Qed.

(** The slides of a template deck, taken apart: the title slide, the
    slides of the sections, the optional Q&A slide and the closing
    slide. *)
Lemma createSlideDeckTemplate_slides (config : TalkConfig.t) (outline : TalkOutline.t) :
  exists (first : Slide.t) (middle : list Slide.t) (last : list Slide.t),
    SlideDeck.slides (createSlideDeckTemplate clock toISOString config outline)
    = first :: middle ++ last /\
    bullets [first] = [] /\ wellCut first /\ Slide.speakerNotes first <> EmptyString /\
    Slide.layout first = SlideLayout.title /\
    bullets middle = flat_map OutlineSection.keyPoints (TalkOutline.sections outline) /\
    Forall wellCut middle /\
    Forall (fun slide => Slide.speakerNotes slide <> EmptyString) middle /\
    map Slide.layout middle = flat_map sectionLayouts (TalkOutline.sections outline) /\
    bullets last = [] /\ Forall wellCut last /\
    Forall (fun slide => Slide.speakerNotes slide <> EmptyString) last /\
    map Slide.layout last
    = (if some (fun s => OutlineSection.type_eqb (OutlineSection.type s) OutlineSection.qa)
               (TalkOutline.sections outline)
       then [SlideLayout.qa] else []) ++ [SlideLayout.title].
Proof.
  unfold createSlideDeckTemplate. cbv zeta. cbn [SlideDeck.slides].
  match goal with |- context [fold_left _ _ ?s] =>
    destruct (fold_sectionSlides_spec (TalkOutline.sections outline) s)
      as (middle & Hf & Hb & Hw & Hn & Hl); set (st0 := s) in *
  end.
  set (st1 := fold_left _ _ st0) in *.
  assert (W : forall now options,
             SlideOptions.bulletPoints options = None ->
             SlideOptions.layout options <> Some SlideLayout.bullet_points ->
             wellCut (createSlide now options)).
  { intros now options H1 H2. unfold wellCut, createSlide.
    cbn [Slide.bulletPoints Slide.layout]. rewrite H1. cbn [items_of List.length].
    split; [lia|]. destruct (SlideOptions.layout options) as [[]|]; congruence. }
  destruct (some _ _).
  - eexists _, middle, [_; _].
    rewrite !pushSlide_fst, Hf. cbn [fst snd List.app]. rewrite <- !app_assoc. cbn [List.app].
    split; [reflexivity|].
    repeat split; try assumption; try discriminate; try reflexivity;
      repeat constructor; try discriminate; try (apply W; [reflexivity | discriminate]);
      cbn; lia.
  - eexists _, middle, [_].
    rewrite !pushSlide_fst, Hf. cbn [fst snd List.app]. rewrite <- !app_assoc. cbn [List.app].
    split; [reflexivity|].
    repeat split; try assumption; try discriminate; try reflexivity;
      repeat constructor; try discriminate; try (apply W; [reflexivity | discriminate]);
      cbn; lia.
Qed.

(** X22. The slides of a template deck are numbered as they stand: the slide
    at index [i] has order [i] and the id made of [i] and of the clock
    as read for that slide, and [totalSlides] is their number. *)
Theorem createSlideDeckTemplate_orders (config : TalkConfig.t) (outline : TalkOutline.t) :
  let deck := createSlideDeckTemplate clock toISOString config outline in
  SlideMetadata.totalSlides (SlideDeck.metadata deck)
  = number_of_nat (List.length (SlideDeck.slides deck)) /\
  forall (i : nat) (slide : Slide.t),
    nth_error (SlideDeck.slides deck) i = Some slide ->
    Slide.order slide = number_of_nat i /\
    Slide.id slide
    = ("slide-" ++ Number_toString (number_of_nat i) ++ "-" ++ Z_to_string (clock i))%string.
Proof.
  cbn zeta. split; [reflexivity|].
  unfold createSlideDeckTemplate. cbv zeta. cbn [SlideDeck.slides].
  match goal with |- forall i slide, nth_error (fst ?s) i = _ -> _ =>
    assert (H : inSequence s); [|exact (proj2 H)]
  end.
  apply pushSlide_numbered; [intros order; reflexivity|].
  assert (H : forall st one, ordered one -> inSequence st ->
                inSequence (if some (fun s => OutlineSection.type_eqb (OutlineSection.type s)
                                                                  OutlineSection.qa)
                                  (TalkOutline.sections outline)
                          then push st one else st)).
  { intros st one Ho Hs. destruct (some _ _); [apply pushSlide_numbered|]; assumption. }
  apply H; [intros order; reflexivity|].
  apply fold_sectionSlides_numbered, pushSlide_numbered; [intros order; reflexivity|].
  split; [reflexivity|]. intros [|i] slide Hi; discriminate Hi.
Qed.

(** X23. The key points of the outline all reach the slides, each once and in
    outline order, at most four to a slide, and every bullet slide shows
    at least one. *)
Theorem createSlideDeckTemplate_key_points (config : TalkConfig.t) (outline : TalkOutline.t) :
  let deck := createSlideDeckTemplate clock toISOString config outline in
  flat_map (fun slide => items_of (Slide.bulletPoints slide)) (SlideDeck.slides deck)
  = flat_map OutlineSection.keyPoints (TalkOutline.sections outline) /\
  forall slide : Slide.t,
    In slide (SlideDeck.slides deck) ->
    (List.length (items_of (Slide.bulletPoints slide)) <= 4)%nat /\
    (Slide.layout slide = SlideLayout.bullet_points ->
     (1 <= List.length (items_of (Slide.bulletPoints slide)))%nat).
Proof.
  cbn zeta.
  destruct (createSlideDeckTemplate_slides config outline)
    as (first & middle & last & -> & Hb1 & Hw1 & _ & _ & Hb2 & Hw2 & _ & _ & Hb3 & Hw3 & _).
  split.
  - change (bullets ([first] ++ middle ++ last)
            = flat_map OutlineSection.keyPoints (TalkOutline.sections outline)).
    unfold bullets in *. rewrite !flat_map_app, Hb1, Hb2, Hb3, app_nil_r. reflexivity.
  - intros slide [<-|H]; [exact Hw1|].
    apply in_app_or in H as [H|H].
    + exact (proj1 (Forall_forall _ _) Hw2 slide H).
    + exact (proj1 (Forall_forall _ _) Hw3 slide H).
Qed.

(** X24. The layouts of a template deck: a title slide; for each section a
    section header followed by one bullet slide for every four key
    points (or part of four); a Q&A slide when the outline has a section
    of type qa; and a closing title slide. *)
Theorem createSlideDeckTemplate_layouts (config : TalkConfig.t) (outline : TalkOutline.t) :
  map Slide.layout
      (SlideDeck.slides (createSlideDeckTemplate clock toISOString config outline))
  = [SlideLayout.title]
    ++ flat_map (fun section =>
                   SlideLayout.section_header
                   :: repeat SlideLayout.bullet_points
                             ((List.length (OutlineSection.keyPoints section) + 3) / 4))
                (TalkOutline.sections outline)
    ++ (if existsb (fun s => OutlineSection.type_eqb (OutlineSection.type s) OutlineSection.qa)
                   (TalkOutline.sections outline)
        then [SlideLayout.qa] else [])
    ++ [SlideLayout.title].
Proof.
  destruct (createSlideDeckTemplate_slides config outline)
    as (first & middle & last & -> & _ & _ & _ & Hl1 & _ & _ & _ & Hl2 & _ & _ & _ & Hl3).
  cbn [map List.app]. rewrite map_app, Hl1, Hl2, Hl3. reflexivity.
Qed.

(** X25. A template deck never draws a per-slide warning from
    [validateSlideDeck] and never the suggestion about missing speaker
    notes: it is valid exactly when it has no more than one and a half
    slides per minute of the talk it is checked for. *)
Theorem template_deck_validation (config other : TalkConfig.t) (outline : TalkOutline.t) :
  let deck := createSlideDeckTemplate clock toISOString config outline in
  let validation := validateSlideDeck deck other in
  let count := List.length (SlideDeck.slides deck) in
  SlideDeckValidation.warnings validation
  = (if (TalkConfig.duration other * 1.5 <? number_of_nat count)%float
     then [("Too many slides (" ++ nat_to_string count ++ ") for "
            ++ Number_toString (TalkConfig.duration other)
            ++ "-min talk. Consider consolidating.")%string]
     else []) /\
  SlideDeckValidation.isValid validation
  = negb (TalkConfig.duration other * 1.5 <? number_of_nat count)%float /\
  filter (fun slide => negb (truthy (Some (Slide.speakerNotes slide)))) (SlideDeck.slides deck)
  = [].
Proof.
  cbn zeta.
  assert (Hb : forall slide,
             In slide (SlideDeck.slides (createSlideDeckTemplate clock toISOString config outline)) ->
             (List.length (items_of (Slide.bulletPoints slide)) <= 6)%nat).
  { destruct (createSlideDeckTemplate_slides config outline)
      as (first & middle & last & -> & _ & Hw1 & _ & _ & _ & Hw2 & _ & _ & _ & Hw3 & _).
    intros slide [<-|H]; [destruct Hw1; lia|].
    apply in_app_or in H as [H|H].
    - destruct (proj1 (Forall_forall _ _) Hw2 slide H); lia.
    - destruct (proj1 (Forall_forall _ _) Hw3 slide H); lia. }
  assert (Hw : List.concat
                 (mapi (fun slide index =>
                          if (6 <? List.length (items_of (Slide.bulletPoints slide)))%nat then
                            [("Slide " ++ nat_to_string (index + 1) ++ " has "
                              ++ nat_to_string (List.length (items_of (Slide.bulletPoints slide)))
                              ++ " bullet points - consider splitting")%string]
                          else [])
                       (SlideDeck.slides
                          (createSlideDeckTemplate clock toISOString config outline))) = []).
  { unfold mapi. apply ExportFacts.bullet_warnings_none, forallb_forall.
    intros slide Hs. apply Nat.leb_le, Hb, Hs. }
  unfold validateSlideDeck. cbn [SlideDeckValidation.warnings SlideDeckValidation.isValid].
  rewrite Hw, app_nil_r.
  split; [reflexivity|]. split; [destruct (_ <? _)%float; reflexivity|].
  destruct (createSlideDeckTemplate_slides config outline)
    as (first & middle & last & -> & _ & _ & Hn1 & _ & _ & _ & Hn2 & _ & _ & _ & Hn3 & _).
  assert (F : forall slides,
             Forall (fun slide => Slide.speakerNotes slide <> EmptyString) slides ->
             filter (fun slide => negb (truthy (Some (Slide.speakerNotes slide)))) slides = []).
  { induction 1 as [|s l Hs _ IH]; [reflexivity|]. cbn [filter].
    destruct (Slide.speakerNotes s); [congruence|]. exact IH. }
  change (first :: middle ++ last) with ([first] ++ middle ++ last).
  rewrite !filter_app, (F middle Hn2), (F last Hn3), (F [first]); [reflexivity|].
  constructor; [exact Hn1 | constructor].
Qed.

End SlideTemplateFacts.

(* ================================================================== *)
(** * Times shown and texts escaped                                    *)
(* ================================================================== *)

Section FormatFacts.

Local Open Scope string_scope.

(** X7. The seconds are rounded after the minutes have been cut off, and
    nothing is carried: 59.7 seconds past a whole minute from 0 to 600
    are shown as that minute and 60 seconds. *)
Theorem formatTime_shows_sixty_seconds (m : Z) :
  (0 <= m <= 600)%Z ->
  formatTime (number_of_Z m + 0.995)%float
  = (if (m <? 10)%Z then "0" else "") ++ Z_to_string m ++ ":60".
Proof.
  intros H. apply wholeMinutes_range in H. revert m H.
  apply ext_in_map. vm_compute. reflexivity.
Qed.

Lemma formatTime_shows_sixty_seconds_witness :
  (0 <= 1 <= 600)%Z /\ formatTime (number_of_Z 1 + 0.995)%float = "01:60".
Proof.
  split; [lia|]. exact (formatTime_shows_sixty_seconds 1 ltac:(lia)).
Defined.

(** What [escapeHtml] makes of one character. *)
Definition entity (c : ascii) : string :=
  if (c =? "&")%char then "&amp;"
  else if (c =? "<")%char then "&lt;"
  else if (c =? ">")%char then "&gt;"
  else if (c =? JSON.dq_char)%char then "&quot;"
  else if (c =? "'")%char then "&#039;"
  else String c EmptyString.

Fixpoint entities (text : string) : string :=
  match text with
  | EmptyString => EmptyString
  | String c text' => entity c ++ entities text'
  end.

Lemma replaceAll_append (c : ascii) (r a b : string) :
  replaceAll c r (a ++ b) = replaceAll c r a ++ replaceAll c r b.
Proof.
  induction a as [|x a IH]; cbn [append replaceAll]; [reflexivity|].
  destruct (x =? c)%char; rewrite IH; [|reflexivity].
  now rewrite JSONFacts.append_assoc.
Qed.

(** X29. The five replacements of [escapeHtml] amount to one pass over the
    text: each character is replaced by its entity or kept, and the
    ampersand of an entity written by an earlier replacement is not
    escaped again. *)
Theorem escapeHtml_characterwise (text : string) : escapeHtml text = entities text.
Proof.
  unfold escapeHtml. induction text as [|x text IH]; [reflexivity|].
  cbn [entities]. rewrite <- IH. clear IH.
  cbn [replaceAll]. unfold entity.
  destruct (x =? "&")%char eqn:E1.
  { rewrite !replaceAll_append. reflexivity. }
  cbn [replaceAll]. destruct (x =? "<")%char eqn:E2.
  { rewrite !replaceAll_append. reflexivity. }
  cbn [replaceAll]. destruct (x =? ">")%char eqn:E3.
  { rewrite !replaceAll_append. reflexivity. }
  cbn [replaceAll]. destruct (x =? JSON.dq_char)%char eqn:E4.
  { rewrite !replaceAll_append. reflexivity. }
  cbn [replaceAll]. destruct (x =? "'")%char eqn:E5; reflexivity.
Qed.

End FormatFacts.
